(** * Bjorn orchestrator: scheduling and retry engine

    A shallow embedding of [orchestrator.py] (class [Orchestrator]) and of
    the idle remediation loop of [wifi_monitor.py], with the properties of
    the scheduling core stated and proved over it.

    Python objects are modelled as follows.
    - A target row (a [dict] read from the knowledge-base CSV) is a
      [gmap string string]; [row[k]] raises [KeyError] on a missing key,
      [row.get(k, "")] does not.
    - [current_data], the list of rows, lives in the orchestrator state and
      rows are addressed by position, so that the in-place update
      [row[action_key] = ...] is seen by every later use of the same row.
    - Exceptions are explicit: a computation returns [Ok v] or [Raise e]
      together with the state reached so far.
    - A [datetime] is a number of microseconds within the range of the
      type; the sum of a [datetime] and a [timedelta] that leaves the
      range raises [OverflowError], as does a [timedelta] of too many
      days.
    - Everything outside the two source files (clock, plugins, persistence,
      network scanner, subprocess wrappers, module import) is a field of
      the class [Env]; every theorem holds for all environments.
    - Loops that need not end ([while True] of [switch_network_if_idle],
      [while not orchestrator_should_exit] of [run]) take fuel; a result
      [None] means that the loop was still running when the fuel ran out.
    - [load_wifi_credentials], [scan_available_networks] and
      [connect_to_network] are fields of [Env] where the orchestrator
      calls them; the module [WifiMonitor] embeds the three functions
      themselves, over an oracle for the processes they start and one for
      the credentials file. Strings are sequences of characters with
      codes below 256; log messages keep the fixed part of their text.

    Left out: the semaphore, which the single orchestrator thread acquires
    and releases around each call of [execute_action], at most two deep out
    of ten, so that it never blocks; exceptions of the logger, of
    [read_data], [write_data] and [scan]; delays that are not integers. *)

From Stdlib Require Import ZArith Lia Ascii String.
From stdpp Require Import gmap strings list pretty.

Open Scope string_scope.
Open Scope list_scope.
Open Scope Z_scope.

(** ** Python string primitives *)

Module PyStr.

(** [needle in hay] for strings: substring test. *)
Fixpoint contains (needle hay : string) : bool :=
  String.prefix needle hay ||
  match hay with
  | EmptyString => false
  | String _ rest => contains needle rest
  end.

(** [s.split(sep)] for a one-character separator: every occurrence of
    [sep] cuts, empty fields are kept, the result is never empty. *)
Fixpoint split (sep : ascii) (s : string) : list string :=
  match s with
  | EmptyString => [EmptyString]
  | String c rest =>
      if Ascii.eqb c sep then EmptyString :: split sep rest
      else match split sep rest with
           | field :: fields => String c field :: fields
           | [] => [String c EmptyString]
           end
  end.

(** [c in s] for a single character. *)
Fixpoint has_char (c : ascii) (s : string) : bool :=
  match s with
  | EmptyString => false
  | String c' rest => Ascii.eqb c c' || has_char c rest
  end.

Definition is_digit (c : ascii) : bool :=
  let n := Ascii.nat_of_ascii c in
  (Nat.leb 48 n && Nat.leb n 57)%bool.

Fixpoint all_digits (s : string) : bool :=
  match s with
  | EmptyString => true
  | String c rest => is_digit c && all_digits rest
  end.

End PyStr.

(** ** Exceptions *)

(** The exception classes that occur; [OtherException] stands for any
    further subclass of [Exception] a plugin may raise, [SystemExit] and
    [KeyboardInterrupt] derive from [BaseException] only. *)
Inductive exn : Type :=
| KeyError (key : string)
| IndexError
| ValueError
| AttributeError
| ModuleNotFoundError
| OverflowError
| OtherException (cls : string)
| SystemExit
| KeyboardInterrupt.

(** [isinstance(e, Exception)] *)
Definition is_Exception (e : exn) : bool :=
  match e with
  | SystemExit | KeyboardInterrupt => false
  | _ => true
  end.

(** [isinstance(e, ValueError)] *)
Definition is_ValueError (e : exn) : bool :=
  match e with ValueError => true | _ => false end.

(** [isinstance(e, AttributeError)] *)
Definition is_AttributeError (e : exn) : bool :=
  match e with AttributeError => true | _ => false end.

Inductive Res (A : Type) : Type :=
| Ok (a : A)
| Raise (e : exn).
Arguments Ok {A} a.
Arguments Raise {A} e.

(** ** Data model *)

(** A [datetime], counted in microseconds from the first instant of 1970;
    the objects are naive, they carry no time zone. *)
Abbreviation datetime := Z (only parsing).

(** [datetime.min] and [datetime.max]: the first instant of year 1 and the
    last microsecond of year 9999. *)
Definition datetime_min : Z := -62135596800000000.
Definition datetime_max : Z := 253402300799999999.

(** [timedelta(seconds=s)] for an integer [s], in microseconds. The
    constructor splits [s] into days and seconds of a day and raises
    [OverflowError] ([None]) when the days exceed 999999999 in magnitude. *)
Definition timedelta_seconds (s : Z) : option Z :=
  if Z.abs (s / 86400) <=? 999999999 then Some (s * 1000000) else None.

(** [t + delta] for a [datetime] and a [timedelta]: [OverflowError]
    ([None]) when the sum leaves the range of [datetime]. *)
Definition datetime_add (t delta : Z) : option Z :=
  if (datetime_min <=? t + delta) && (t + delta <=? datetime_max)
  then Some (t + delta)
  else None.

(** [last + timedelta(seconds=delay)], the instant a retry delay ends. *)
Definition retry_deadline (last delay : Z) : option Z :=
  match timedelta_seconds delay with
  | Some delta => datetime_add last delta
  | None => None
  end.

Abbreviation Row := (gmap string string) (only parsing).

(** An action instance with the attributes [load_action] sets on it;
    [b_module] remembers the module the instance was built from. *)
Record Action : Type := mkAction {
  b_module : string;
  action_name : string;
  port : option Z;
  b_parent_action : option string
}.

#[global] Instance Action_eq_dec : EqDecision Action.
Proof. solve_decision. Defined.

(** One record of the actions file (a JSON object); a missing key is
    [None]. *)
Record ActionConfig : Type := mkActionConfig {
  cfg_b_module : option string;
  cfg_b_class : option string;
  cfg_b_port : option Z;
  cfg_b_parent : option string
}.

(** What [action.execute] does: it returns a value or raises. *)
Inductive ExecOutcome : Type :=
| Returned (result : string)
| Raised (e : exn).

(** A module of the [actions] package as [load_action] and [load_scanner]
    see it: its [b_class] attribute and, for each attribute name, what
    calling that attribute with [shared_data] yields ([None]: no such
    attribute). *)
Record PyModule : Type := mkPyModule {
  mod_b_class : option string;
  mod_construct : string -> option (Res unit)
}.

(** An entry of the Wi-Fi credentials file. *)
Record Network : Type := mkNetwork {
  net_SSID : option string;
  net_BSSID : option string;
  net_Password : option string
}.

Inductive LogLevel : Type := Info | Warning | Error.

(** ** The environment *)

Class Env : Type := {
  (** state of everything outside the orchestrator *)
  W : Type;
  (** [datetime.now()] *)
  now : W -> datetime * W;
  (** [datetime.strptime(s, "%Y%m%d_%H%M%S")]; [None] is [ValueError] *)
  strptime : string -> option datetime;
  (** [d.strftime("%Y%m%d_%H%M%S")] *)
  strftime : datetime -> string;
  (** [action.execute(ip, port, row, action_key)]: the outcome, the row as
      the plugin leaves it, and the new outside state *)
  plugin_execute :
    Action -> string -> string -> Row -> string -> W -> ExecOutcome * Row * W;
  (** [shared_data.write_data(current_data)] *)
  write_data : list Row -> W -> W;
  (** [shared_data.read_data()] *)
  read_data : W -> list Row * W;
  (** [network_scanner.scan()] *)
  scan : W -> W;
  (** [time.sleep(seconds)] *)
  sleep : Z -> W -> W;
  (** [shared_data.orchestrator_should_exit] *)
  orchestrator_should_exit : W -> bool;
  (** [importlib.import_module('actions.' + name)] *)
  import_module : string -> Res PyModule;
  (** [NmapVulnScanner(shared_data)] *)
  construct_nmap_vuln_scanner : Res unit;
  (** [load_wifi_credentials()], which catches its own errors *)
  load_wifi_credentials : W -> list Network * W;
  (** [scan_available_networks()] *)
  scan_available_networks : W -> Res (list string) * W;
  (** [connect_to_network(ssid, password)] *)
  connect_to_network : string -> string -> W -> Res bool * W;
  (** configuration held by [shared_data] *)
  retry_success_actions : bool;
  success_retry_delay : Z;
  failed_retry_delay : Z;
  scan_interval : Z
}.

(** ** Orchestrator state and trace *)

(** What the orchestrator does to the outside, in the order it does it:
    a log line; a call [action.execute(ip, port, row, key)], with the row
    as it is when the call is made; a call [write_data(data)]; a call
    [network_scanner.scan()]; a call [time.sleep(seconds)]; the call
    [wifi_monitor.switch_network_if_idle(self)]. *)
Inductive Event : Type :=
| EvLog (lvl : LogLevel) (msg : string)
| EvExecute (a : Action) (ip port : string) (row : Row) (key : string)
| EvWrite (data : list Row)
| EvScan
| EvSleep (seconds : Z)
| EvIdleRecovery.

Section Orchestrator.

Context `{E : Env}.

Record St : Type := mkSt {
  world : W;
  current_data : list Row;
  trace : list Event;
  bjornorch_status : string;
  bjornstatustext2 : string;
  actions : list Action;
  standalone_actions : list Action;
  network_scanner : option string;
  nmap_vuln_scanner : bool;
  failed_scans_count : Z
}.

Definition set_world (w : W) (st : St) : St :=
  mkSt w (current_data st) (trace st) (bjornorch_status st)
    (bjornstatustext2 st) (actions st) (standalone_actions st)
    (network_scanner st) (nmap_vuln_scanner st) (failed_scans_count st).

Definition set_current_data (d : list Row) (st : St) : St :=
  mkSt (world st) d (trace st) (bjornorch_status st)
    (bjornstatustext2 st) (actions st) (standalone_actions st)
    (network_scanner st) (nmap_vuln_scanner st) (failed_scans_count st).

Definition emit (ev : Event) (st : St) : St :=
  mkSt (world st) (current_data st) (trace st ++ [ev]) (bjornorch_status st)
    (bjornstatustext2 st) (actions st) (standalone_actions st)
    (network_scanner st) (nmap_vuln_scanner st) (failed_scans_count st).

Definition set_bjornorch_status (s : string) (st : St) : St :=
  mkSt (world st) (current_data st) (trace st) s
    (bjornstatustext2 st) (actions st) (standalone_actions st)
    (network_scanner st) (nmap_vuln_scanner st) (failed_scans_count st).

Definition set_bjornstatustext2 (s : string) (st : St) : St :=
  mkSt (world st) (current_data st) (trace st) (bjornorch_status st)
    s (actions st) (standalone_actions st)
    (network_scanner st) (nmap_vuln_scanner st) (failed_scans_count st).

Definition set_actions (l : list Action) (st : St) : St :=
  mkSt (world st) (current_data st) (trace st) (bjornorch_status st)
    (bjornstatustext2 st) l (standalone_actions st)
    (network_scanner st) (nmap_vuln_scanner st) (failed_scans_count st).

Definition set_standalone_actions (l : list Action) (st : St) : St :=
  mkSt (world st) (current_data st) (trace st) (bjornorch_status st)
    (bjornstatustext2 st) (actions st) l
    (network_scanner st) (nmap_vuln_scanner st) (failed_scans_count st).

Definition set_network_scanner (s : option string) (st : St) : St :=
  mkSt (world st) (current_data st) (trace st) (bjornorch_status st)
    (bjornstatustext2 st) (actions st) (standalone_actions st)
    s (nmap_vuln_scanner st) (failed_scans_count st).

Definition set_nmap_vuln_scanner (b : bool) (st : St) : St :=
  mkSt (world st) (current_data st) (trace st) (bjornorch_status st)
    (bjornstatustext2 st) (actions st) (standalone_actions st)
    (network_scanner st) b (failed_scans_count st).

Definition set_failed_scans_count (n : Z) (st : St) : St :=
  mkSt (world st) (current_data st) (trace st) (bjornorch_status st)
    (bjornstatustext2 st) (actions st) (standalone_actions st)
    (network_scanner st) (nmap_vuln_scanner st) n.

(** *** State and exception monad *)

Definition M (A : Type) : Type := St -> Res A * St.

Definition ret {A} (a : A) : M A := fun st => (Ok a, st).

Definition bind {A B} (m : M A) (k : A -> M B) : M B :=
  fun st =>
    match m st with
    | (Ok a, st') => k a st'
    | (Raise e, st') => (Raise e, st')
    end.

Definition raise {A} (e : exn) : M A := fun st => (Raise e, st).

(** [try: body except <class>: handler], the class given by its
    [isinstance] test. *)
Definition try_except {A} (body : M A) (catches : exn -> bool)
    (handler : exn -> M A) : M A :=
  fun st =>
    match body st with
    | (Ok a, st') => (Ok a, st')
    | (Raise e, st') => if catches e then handler e st' else (Raise e, st')
    end.

Definition modify (f : St -> St) : M unit := fun st => (Ok tt, f st).

Definition gets {A} (f : St -> A) : M A := fun st => (Ok (f st), st).

End Orchestrator.

Notation "'let*' x ':=' m 'in' k" := (bind m (fun x => k))
  (at level 10, x name, m at level 100, k at level 200).
Notation "m ';;' k" := (bind m (fun _ => k))
  (at level 100, k at level 200, right associativity).

(** ** The scheduling core of [orchestrator.py] *)

Section Scheduler.

Context `{E : Env}.

(** [logger.info], [logger.warning], [logger.error]; the message keeps the
    fixed part of the format string. *)
Definition log (lvl : LogLevel) (msg : string) : M unit :=
  modify (emit (EvLog lvl msg)).

(** [datetime.now()] *)
Definition datetime_now : M datetime :=
  fun st => let '(t, w) := now (world st) in (Ok t, set_world w st).

(** [row[key]] *)
Definition py_getitem (row : Row) (key : string) : M string :=
  match row !! key with
  | Some v => ret v
  | None => raise (KeyError key)
  end.

(** [row.get(key, "")] *)
Definition py_get (row : Row) (key : string) : string :=
  default "" (row !! key).

(** [parts[i]] on a list *)
Definition py_index (parts : list string) (i : nat) : M string :=
  match parts !! i with
  | Some v => ret v
  | None => raise IndexError
  end.

(** [datetime.strptime(s, "%Y%m%d_%H%M%S")] *)
Definition py_strptime (s : string) : M datetime :=
  match strptime s with
  | Some t => ret t
  | None => raise ValueError
  end.

(** [timedelta(seconds=s)] *)
Definition py_timedelta (s : Z) : M Z :=
  match timedelta_seconds s with
  | Some delta => ret delta
  | None => raise OverflowError
  end.

(** [t + delta] *)
Definition py_datetime_add (t delta : Z) : M datetime :=
  match datetime_add t delta with
  | Some t' => ret t'
  | None => raise OverflowError
  end.

(** [str(action.port)] *)
Definition str_port (p : option Z) : string :=
  match p with
  | Some n => pretty n
  | None => "None"
  end.

(** Truth value of [action.b_parent_action]: [None] and the empty string
    are false. *)
Definition truthy (s : option string) : bool :=
  match s with
  | Some s => negb (String.eqb s "")
  | None => false
  end.

(** The row object at position [i] of [current_data], as it is now. *)
Definition row_at (i : nat) (st : St) : Row :=
  default ∅ (current_data st !! i).

(** [row[key] = v] on the row at position [i] *)
Definition set_cell (i : nat) (key v : string) : M unit :=
  modify (fun st =>
    set_current_data (<[i := <[key := v]> (row_at i st)]> (current_data st)) st).

(** [datetime.strptime(cell.split('_')[1] + "_" + cell.split('_')[2], fmt)]
    (lines 142 and 154) *)
Definition status_time (cell : string) : M datetime :=
  let* d := py_index (PyStr.split "_" cell) 1 in
  let* t := py_index (PyStr.split "_" cell) 2 in
  py_strptime (d +:+ "_" +:+ t).

(** The body of the two retry-delay blocks (lines 141-149 and 153-161),
    which differ in the delay and in the log text only. [true] means the
    block executed [return False]. The comparison reads the clock first
    and builds the deadline then; the deadline built again in lines 144
    and 156 is the same, and the difference of two [datetime]s is always
    in range. An [OverflowError] is no [ValueError]. *)
Definition retry_delay_block (cell : string) (delay : Z) (what : string)
    : M bool :=
  try_except
    (let* last := status_time cell in
     let* t := datetime_now in
     let* delta := py_timedelta delay in
     let* deadline := py_datetime_add last delta in
     if t <? deadline then
       (let* t' := datetime_now in
        log Warning ("Skipping action due to " +:+ what +:+ " retry delay") ;;
        ret true)
     else ret false)
    is_ValueError
    (fun _ =>
       log Error ("Error parsing last " +:+ what +:+ " time") ;;
       ret false).

(** Lines 129-161 of [execute_action]: every test that can end the call
    with [return False] before the action runs. [true] means all of them
    were passed. Every loaded action has the attribute [port]
    ([load_action] sets it), so [hasattr(action, 'port')] holds. *)
Definition eligibility_gate (a : Action) (ports : list string) (row : Row)
    (action_key : string) : M bool :=
  if negb (bool_decide (str_port (port a) ∈ ports)) then ret false
  else if truthy (b_parent_action a) &&
          negb (PyStr.contains "success"
                  (py_get row (default "" (b_parent_action a))))
  then ret false
  else
    let* cell := py_getitem row action_key in
    let* stop :=
      (if PyStr.contains "success" cell then
         if negb retry_success_actions then ret true
         else retry_delay_block cell success_retry_delay "success"
       else ret false) in
    if (stop : bool) then ret false
    else
      let last_failed_time_str := py_get row action_key in
      let* stop' :=
        (if PyStr.contains "failed" last_failed_time_str then
           retry_delay_block last_failed_time_str failed_retry_delay "failed"
         else ret false) in
      ret (negb stop').

(** Lines 167-173 and 176-179: stamp the outcome into the row, persist the
    table. *)
Definition record_outcome (i : nat) (action_key : string) (success : bool)
    : M unit :=
  let* t := datetime_now in
  let timestamp := strftime t in
  set_cell i action_key
    ((if success then "success_" else "failed_") +:+ timestamp) ;;
  fun st =>
    (Ok tt, emit (EvWrite (current_data st))
              (set_world (write_data (current_data st) (world st)) st)).

(** [action.execute(ip, str(action.port), row, action_key)] on the row at
    position [i]; the plugin holds the row object and may change it. *)
Definition call_execute (a : Action) (ip : string) (i : nat)
    (action_key : string) : M string :=
  fun st =>
    let row := row_at i st in
    let '(out, row', w) :=
      plugin_execute a ip (str_port (port a)) row action_key (world st) in
    let st' :=
      set_current_data (<[i := row']> (current_data st))
        (set_world w
           (emit (EvExecute a ip (str_port (port a)) row action_key) st)) in
    match out with
    | Returned result => (Ok result, st')
    | Raised e => (Raise e, st')
    end.

(** Lines 163-179 of [execute_action]. *)
Definition dispatch (a : Action) (ip : string) (i : nat)
    (action_key : string) : M bool :=
  try_except
    (log Info "Executing action" ;;
     modify (set_bjornstatustext2 ip) ;;
     let* result := call_execute a ip i action_key in
     record_outcome i action_key (String.eqb result "success") ;;
     ret (String.eqb result "success"))
    is_Exception
    (fun _ =>
       log Error "Action failed" ;;
       record_outcome i action_key false ;;
       ret false).

(** [Orchestrator.execute_action]; [row] is [current_data[i]]. *)
Definition execute_action (a : Action) (ip : string) (ports : list string)
    (i : nat) (action_key : string) : M bool :=
  let* row := gets (row_at i) in
  let* eligible := eligibility_gate a ports row action_key in
  if (eligible : bool) then dispatch a ip i action_key else ret false.

(** The inner loop over children of lines 104-110, run on the target on
    which the top-level action [action_key] just succeeded. *)
Fixpoint try_children (children : list Action) (action_key ip : string)
    (ports : list string) (i : nat) : M unit :=
  match children with
  | [] => ret tt
  | child_action :: rest =>
      if bool_decide (b_parent_action child_action = Some action_key) then
        let* ok := execute_action child_action ip ports i
                     (action_name child_action) in
        if (ok : bool) then
          modify (set_bjornorch_status (action_name child_action))
        else try_children rest action_key ip ports i
      else try_children rest action_key ip ports i
  end.

(** The loop over rows of lines 91-111 for one action; the result is
    whether this action set [any_action_executed]. *)
Fixpoint top_level_rows (a : Action) (rows : list nat) : M bool :=
  match rows with
  | [] => ret false
  | i :: rest =>
      let* row := gets (row_at i) in
      let* alive := py_getitem row "Alive" in
      if negb (String.eqb alive "1") then top_level_rows a rest
      else
        let* ip := py_getitem row "IPs" in
        let* ports_cell := py_getitem row "Ports" in
        let ports := PyStr.split ";" ports_cell in
        let action_key := action_name a in
        match b_parent_action a with
        | None =>
            let* ok := execute_action a ip ports i action_key in
            if (ok : bool) then
              modify (set_bjornorch_status action_key) ;;
              (let* all := gets actions in
               try_children all action_key ip ports i) ;;
              ret true
            else top_level_rows a rest
        | Some _ => top_level_rows a rest
        end
  end.

(** Lines 90-111: the loop over [self.actions]. *)
Fixpoint top_level_pass (acts : list Action) : M bool :=
  match acts with
  | [] => ret false
  | a :: rest =>
      let* n := gets (fun st => length (current_data st)) in
      let* b := top_level_rows a (seq 0 n) in
      let* b' := top_level_pass rest in
      ret (b || b')
  end.

(** The loop over rows of lines 116-123 for one child action. *)
Fixpoint child_sweep_rows (child_action : Action) (rows : list nat)
    : M bool :=
  match rows with
  | [] => ret false
  | i :: rest =>
      let* row := gets (row_at i) in
      let* ip := py_getitem row "IPs" in
      let* ports_cell := py_getitem row "Ports" in
      let ports := PyStr.split ";" ports_cell in
      let* ok := execute_action child_action ip ports i
                   (action_name child_action) in
      if (ok : bool) then
        modify (set_bjornorch_status (action_name child_action)) ;;
        ret true
      else child_sweep_rows child_action rest
  end.

(** Lines 113-123: the second loop over [self.actions]. *)
Fixpoint child_sweep (acts : list Action) : M bool :=
  match acts with
  | [] => ret false
  | child_action :: rest =>
      let* b :=
        (if truthy (b_parent_action child_action) then
           let* n := gets (fun st => length (current_data st)) in
           child_sweep_rows child_action (seq 0 n)
         else ret false) in
      let* b' := child_sweep rest in
      ret (b || b')
  end.

(** [Orchestrator.process_alive_ips(current_data)] *)
Definition process_alive_ips (data : list Row) : M bool :=
  modify (set_current_data data) ;;
  let* acts := gets actions in
  let* b := top_level_pass acts in
  let* b' := child_sweep acts in
  ret (b || b').

End Scheduler.

(** ** Startup: loading the registry *)

Section Loading.

Context `{E : Env}.

(** [importlib.import_module(f'actions.{module_name}')] *)
Definition py_import_module (module_name : string) : M PyModule :=
  match import_module module_name with
  | Ok m => ret m
  | Raise e => raise e
  end.

(** [getattr(module, name)(self.shared_data)] *)
Definition py_construct (m : PyModule) (name : string) : M unit :=
  match mod_construct m name with
  | None => raise AttributeError
  | Some (Ok tt) => ret tt
  | Some (Raise e) => raise e
  end.

(** [Orchestrator.load_scanner] *)
Definition load_scanner (module_name : string) : M unit :=
  let* module := py_import_module module_name in
  let* b_class :=
    (match mod_b_class module with
     | Some c => ret c
     | None => raise AttributeError
     end) in
  py_construct module b_class ;;
  modify (set_network_scanner (Some b_class)).

(** [Orchestrator.load_nmap_vuln_scanner] *)
Definition load_nmap_vuln_scanner (module_name : string) : M unit :=
  match construct_nmap_vuln_scanner with
  | Ok tt => modify (set_nmap_vuln_scanner true)
  | Raise e => raise e
  end.

(** [Orchestrator.load_action] *)
Definition load_action (module_name : string) (action : ActionConfig)
    : M unit :=
  let* module := py_import_module module_name in
  try_except
    (let* b_class :=
       (match cfg_b_class action with
        | Some c => ret c
        | None => raise (KeyError "b_class")
        end) in
     py_construct module b_class ;;
     let action_instance :=
       mkAction module_name b_class (cfg_b_port action) (cfg_b_parent action) in
     if bool_decide (port action_instance = Some 0) then
       modify (fun st =>
         set_standalone_actions (standalone_actions st ++ [action_instance]) st)
     else
       modify (fun st => set_actions (actions st ++ [action_instance]) st))
    is_AttributeError
    (fun _ => log Error "Module is missing required attributes").

(** The dispatch on one record of the loop of [load_actions]. *)
Definition load_record (action : ActionConfig) : M unit :=
  let* module_name :=
    (match cfg_b_module action with
     | Some m => ret m
     | None => raise (KeyError "b_module")
     end) in
  if String.eqb module_name "scanning" then load_scanner module_name
  else if String.eqb module_name "nmap_vuln_scanner"
  then load_nmap_vuln_scanner module_name
  else load_action module_name action.

(** [Orchestrator.load_actions], on the parsed content of the actions
    file. *)
Fixpoint load_actions (actions_config : list ActionConfig) : M unit :=
  match actions_config with
  | [] => ret tt
  | action :: rest => load_record action ;; load_actions rest
  end.

End Loading.

(** ** The outer loop and idle remediation *)

Section OuterLoop.

Context `{E : Env}.

(** Computations that may not return: [None] means that the computation
    was still running when the fuel ran out, in the state reached then. *)
Definition Fueled (A : Type) : Type := St -> option (Res A) * St.

Definition lift {A} (m : M A) : Fueled A :=
  fun st => let '(r, st') := m st in (Some r, st').

Definition fbind {A B} (m : Fueled A) (k : A -> Fueled B) : Fueled B :=
  fun st =>
    match m st with
    | (Some (Ok a), st') => k a st'
    | (Some (Raise e), st') => (Some (Raise e), st')
    | (None, st') => (None, st')
    end.

Definition out_of_fuel {A} : Fueled A := fun st => (None, st).

(** [time.sleep(seconds)] *)
Definition py_sleep (seconds : Z) : M unit :=
  modify (fun st => emit (EvSleep seconds) (set_world (sleep seconds (world st)) st)).

(** [self.network_scanner.scan()] *)
Definition network_scanner_scan : M unit :=
  let* scanner := gets network_scanner in
  match scanner with
  | Some _ =>
      modify (fun st => emit EvScan (set_world (scan (world st)) st))
  | None => raise AttributeError
  end.

(** [self.shared_data.read_data()] *)
Definition py_read_data : M (list Row) :=
  fun st => let '(d, w) := read_data (world st) in (Ok d, set_world w st).

(** [wifi_monitor.CHECK_INTERVAL] *)
Definition CHECK_INTERVAL : Z := 60.

(** The loop over the credentials of lines 90-96 of [wifi_monitor.py]. *)
Fixpoint connect_known (credentials : list Network)
    (available_ssids : list string) : M unit :=
  match credentials with
  | [] => ret tt
  | network :: rest =>
      let* ssid :=
        (match net_SSID network with
         | Some s => ret s
         | None => raise (KeyError "SSID")
         end) in
      if bool_decide (ssid ∈ available_ssids) ||
         match net_BSSID network with
         | Some b => bool_decide (b ∈ available_ssids)
         | None => false
         end
      then
        log Info "Found known network. Attempting to connect..." ;;
        let* password :=
          (match net_Password network with
           | Some s => ret s
           | None => raise (KeyError "Password")
           end) in
        let* ok :=
          (fun st =>
             let '(r, w) := connect_to_network ssid password (world st) in
             (r, set_world w st)) in
        if (ok : bool) then log Info "Network switching complete."
        else connect_known rest available_ssids
      else connect_known rest available_ssids
  end.

(** One turn of the [while True] loop of [switch_network_if_idle]
    (lines 84-99). *)
Definition idle_poll (credentials : list Network) : M unit :=
  let* status := gets bjornorch_status in
  (if String.eqb status "idle_action" then
     log Info "Bjorn is idle. Scanning for known networks..." ;;
     let* available_ssids :=
       (fun st =>
          let '(r, w) := scan_available_networks (world st) in
          (r, set_world w st)) in
     connect_known credentials available_ssids
   else ret tt) ;;
  py_sleep CHECK_INTERVAL.

(** The [while True] loop of [switch_network_if_idle]: it has no [return]
    and no [break] of its own (the [break] of line 96 leaves the [for]). *)
Fixpoint switch_network_loop (fuel : nat) (credentials : list Network)
    : Fueled unit :=
  match fuel with
  | O => out_of_fuel
  | S fuel' =>
      fbind (lift (idle_poll credentials))
        (fun _ => switch_network_loop fuel' credentials)
  end.

(** [wifi_monitor.switch_network_if_idle(orchestrator)] *)
Definition switch_network_if_idle (fuel : nat) : Fueled unit :=
  fbind
    (lift (fun st =>
       let '(c, w) := load_wifi_credentials (world st) in
       (Ok c, emit EvIdleRecovery (set_world w st))))
    (fun credentials => switch_network_loop fuel credentials).

(** The body of the [while] loop of [Orchestrator.run] (lines 189-215). *)
Definition run_iteration (fuel : nat) : Fueled unit :=
  fbind (lift (let* current_data := py_read_data in
               process_alive_ips current_data))
    (fun any_action_executed : bool =>
       if negb any_action_executed then
         fbind (lift (modify (set_bjornorch_status "IDLE") ;;
                      modify (set_bjornstatustext2 "") ;;
                      log Info "No available targets. Running network scan..." ;;
                      gets network_scanner))
           (fun scanner =>
              fbind
                (match scanner with
                 | Some _ =>
                     fbind
                       (lift (modify (set_bjornorch_status "NetworkScanner") ;;
                              network_scanner_scan ;;
                              let* current_data := py_read_data in
                              process_alive_ips current_data))
                       (fun any_action_executed : bool =>
                          if negb any_action_executed then
                            fbind
                              (lift (log Info
                                       "Bjorn is idle, starting Wi-Fi switch if available." ;;
                                     modify (set_bjornorch_status "idle_action")))
                              (fun _ => switch_network_if_idle fuel)
                          else lift (ret tt))
                 | None => lift (log Warning "No network scanner available.")
                 end)
                (fun _ => lift (py_sleep scan_interval)))
       else lift (modify (set_failed_scans_count 0))).

(** The [while not self.shared_data.orchestrator_should_exit] loop. *)
Fixpoint run_loop (fuel : nat) : Fueled unit :=
  match fuel with
  | O => out_of_fuel
  | S fuel' =>
      fbind (lift (gets (fun st => orchestrator_should_exit (world st))))
        (fun stop : bool =>
           if stop then lift (ret tt)
           else fbind (run_iteration fuel') (fun _ => run_loop fuel'))
  end.

(** [Orchestrator.run] *)
Definition run (fuel : nat) : Fueled unit :=
  fbind
    (lift (modify (set_bjornorch_status "NetworkScanner") ;;
           modify (set_bjornstatustext2 "First scan...") ;;
           network_scanner_scan ;;
           modify (set_bjornstatustext2 "")))
    (fun _ => run_loop fuel).

End OuterLoop.

(** ** [wifi_monitor.py]: loading, scanning and connecting *)

(** Further string primitives. A string is a sequence of characters with
    codes below 256. *)
Module PyText.

Definition dquote : ascii := "034"%char.

(** [c.isspace()] *)
Definition is_space (c : ascii) : bool :=
  let n := Ascii.nat_of_ascii c in
  ((Nat.leb 9 n && Nat.leb n 13) || (Nat.leb 28 n && Nat.leb n 32)
   || Nat.eqb n 133 || Nat.eqb n 160)%bool.

Fixpoint lstrip_with (strips : ascii -> bool) (s : string) : string :=
  match s with
  | EmptyString => EmptyString
  | String c rest => if strips c then lstrip_with strips rest else s
  end.

Fixpoint rstrip_with (strips : ascii -> bool) (s : string) : string :=
  match s with
  | EmptyString => EmptyString
  | String c rest =>
      match rstrip_with strips rest with
      | EmptyString => if strips c then EmptyString else String c EmptyString
      | kept => String c kept
      end
  end.

(** [s.strip()] *)
Definition strip (s : string) : string :=
  rstrip_with is_space (lstrip_with is_space s).

(** [s.strip(chars)] *)
Definition strip_chars (chars : string) (s : string) : string :=
  rstrip_with (fun c => PyStr.has_char c chars)
    (lstrip_with (fun c => PyStr.has_char c chars) s).

(** [s.split(sep)] for a separator of any length, which is not empty:
    the occurrences are found from the left and do not overlap; [skip]
    counts the characters of a found separator that are still to pass. *)
Fixpoint split_on (sep : string) (skip : nat) (s : string) : list string :=
  match s with
  | EmptyString => [EmptyString]
  | String c rest =>
      match skip with
      | S skip' => split_on sep skip' rest
      | O =>
          if String.prefix sep s
          then EmptyString :: split_on sep (Nat.pred (String.length sep)) rest
          else match split_on sep O rest with
               | field :: fields => String c field :: fields
               | [] => [String c EmptyString]
               end
      end
  end.

Definition split_str (sep s : string) : list string := split_on sep O s.

(** The line boundaries of [str.splitlines] with a code below 256. *)
Definition is_linebreak (c : ascii) : bool :=
  let n := Ascii.nat_of_ascii c in
  ((Nat.leb 10 n && Nat.leb n 13) || (Nat.leb 28 n && Nat.leb n 30)
   || Nat.eqb n 133)%bool.

(** [s.splitlines()]: a carriage return with the line feed after it is
    one boundary; no empty line is reported after the last boundary. *)
Fixpoint splitlines (s : string) : list string :=
  match s with
  | EmptyString => []
  | String "013"%char (String "010"%char rest) =>
      EmptyString :: splitlines rest
  | String c rest =>
      if is_linebreak c then EmptyString :: splitlines rest
      else match splitlines rest with
           | line :: lines => String c line :: lines
           | [] => [String c EmptyString]
           end
  end.

Fixpoint all_chars (p : ascii -> bool) (s : string) : bool :=
  match s with
  | EmptyString => true
  | String c rest => p c && all_chars p rest
  end.

End PyText.

(** [subprocess.CompletedProcess] *)
Record CompletedProcess : Type := mkCompletedProcess {
  returncode : Z;
  stdout : string;
  stderr : string
}.

(** [isinstance(e, subprocess.CalledProcessError)] *)
Definition is_CalledProcessError (e : exn) : bool :=
  match e with
  | OtherException cls => String.eqb cls "CalledProcessError"
  | _ => false
  end.

Module WifiMonitor.

Section Functions.

Context `{E : Env}.

(** Running a command to its end: the completed process, or the error of
    the launch (the program is missing, and the like). *)
Variable spawn : list string -> W -> Res CompletedProcess * W.

(** [json.load] of the file [WIFI_CREDENTIALS_FILE], with the errors of
    [open] and of the parser. *)
Variable read_credentials_file : W -> Res (list Network) * W.

(** [subprocess.run(cmd, ..., check=check)]: with [check], an exit status
    other than 0 raises [CalledProcessError]. *)
Definition subprocess_run (cmd : list string) (check : bool)
    : M CompletedProcess :=
  let* result :=
    (fun st => let '(r, w) := spawn cmd (world st) in (r, set_world w st)) in
  if check && negb (returncode result =? 0)
  then raise (OtherException "CalledProcessError")
  else ret result.

(** [load_wifi_credentials()] (lines 35-44) *)
Definition load_wifi_credentials : M (list Network) :=
  try_except
    (let* credentials :=
       (fun st =>
          let '(r, w) := read_credentials_file (world st) in
          (r, set_world w st)) in
     log Info "Wi-Fi credentials loaded successfully." ;;
     ret credentials)
    is_Exception
    (fun e => log Error "Error loading Wi-Fi credentials" ;; ret []).

(** The loop over the lines of the scan output (lines 51-57). *)
Fixpoint parse_lines (lines : list string) (available_networks : list string)
    : M (list string) :=
  match lines with
  | [] => ret available_networks
  | line :: rest =>
      if PyStr.contains "ESSID:" line then
        let* field := py_index (PyStr.split ":" line) 1 in
        let ssid :=
          PyText.strip_chars (String PyText.dquote EmptyString)
            (PyText.strip field) in
        parse_lines rest (available_networks ++ [ssid])
      else if PyStr.contains "Address:" line then
        let* field := py_index (PyText.split_str "Address:" line) 1 in
        let bssid := PyText.strip field in
        parse_lines rest (available_networks ++ [bssid])
      else parse_lines rest available_networks
  end.

(** [scan_available_networks()] (lines 46-61); the call of [iwlist] has no
    [check=True]. *)
Definition scan_available_networks : M (list string) :=
  try_except
    (let* result := subprocess_run ["sudo"; "iwlist"; "wlan0"; "scan"] false in
     parse_lines (PyText.splitlines (stdout result)) [])
    is_CalledProcessError
    (fun e => log Error "Wi-Fi scan failed" ;; ret []).

(** [connect_to_network(ssid, password)] (lines 63-77) *)
Definition connect_to_network (ssid password : string) : M bool :=
  try_except
    (subprocess_run ["nmcli"; "device"; "disconnect"; "wlan0"] true ;;
     let connect_command :=
       ["nmcli"; "device"; "wifi"; "connect"; ssid; "password"; password] in
     let* result := subprocess_run connect_command true in
     log Info ("Successfully connected to network " +:+ ssid) ;;
     ret true)
    is_CalledProcessError
    (fun e => log Error ("Failed to connect to " +:+ ssid) ;; ret false).

End Functions.

End WifiMonitor.

(** ** Vocabulary of the properties *)

Section Vocabulary.

Context `{E : Env}.

(** The event is a log line. *)
Definition is_log (ev : Event) : Prop :=
  match ev with
  | EvLog _ _ => True
  | _ => False
  end.

(** [st'] is reached from [st] by emitting events that all satisfy [Q]. *)
Definition emits (Q : Event -> Prop) (st st' : St) : Prop :=
  exists evs, trace st' = trace st ++ evs /\ Forall Q evs.

(** The table is the same in both states. *)
Definition same_data (st st' : St) : Prop :=
  current_data st' = current_data st.

(** What the tests before an action runs may do to the state: read the
    clock and log. *)
Definition quiet (st st' : St) : Prop :=
  same_data st st' /\ emits is_log st st'.

(** Every step of [m] is within the relation [R], whatever the result. *)
Definition steps {A} (R : relation St) (m : M A) : Prop :=
  forall st, R st (m st).2.

(** The parent test of lines 132-135 lets the call go on. *)
Definition parent_ok (a : Action) (row : Row) : Prop :=
  forall P, b_parent_action a = Some P -> P <> "" ->
    PyStr.contains "success" (py_get row P) = true.

(** What is known of the row when all tests were passed. *)
Definition gate_passed (a : Action) (ports : list string) (row : Row)
    (action_key : string) : Prop :=
  str_port (port a) ∈ ports /\
  parent_ok a row /\
  exists cell, row !! action_key = Some cell /\
    (PyStr.contains "success" cell = true -> retry_success_actions = true).

(** The state [record_outcome] leaves: the cell stamped with the outcome
    and the time read, the table written. *)
Definition recorded (i : nat) (action_key : string) (success : bool)
    (st : St) : St :=
  let t := (now (world st)).1 in
  let w := (now (world st)).2 in
  let d := <[i := <[action_key := (if success then "success_" else "failed_")
                                     +:+ strftime t]> (row_at i st)]>
             (current_data st) in
  emit (EvWrite d) (set_world (write_data d w) (set_current_data d st)).

(** The state in which the plugin is called. *)
Definition calling (ip : string) (st : St) : St :=
  set_bjornstatustext2 ip (emit (EvLog Info "Executing action") st).

(** The state the call of the plugin leaves. *)
Definition called (a : Action) (ip : string) (i : nat) (action_key : string)
    (row' : Row) (w : W) (st : St) : St :=
  set_current_data (<[i := row']> (current_data st))
    (set_world w
       (emit (EvExecute a ip (str_port (port a)) (row_at i st) action_key)
          (calling ip st))).

(** An event the cycle walker may emit: a call of a plugin only on a row
    that passed every test of [execute_action], under the action's own
    name as status key. *)
Definition event_ok (ev : Event) : Prop :=
  match ev with
  | EvExecute a _ p row key =>
      key = action_name a /\ p = str_port (port a) /\
      exists ports, gate_passed a ports row key
  | EvLog _ _ | EvWrite _ => True
  | EvScan | EvSleep _ | EvIdleRecovery => False
  end.

(** No row of the table has the alive flag set. *)
Definition no_row_alive (st : St) : Prop :=
  forall (i : nat) (row : Row), current_data st !! i = Some row ->
    exists v, row !! "Alive" = Some v /\ v <> "1".

(** [action.execute] was called for [a] in the trace. *)
Definition dispatched (a : Action) (tr : list Event) : Prop :=
  exists ip p row key, EvExecute a ip p row key ∈ tr.

(** The computation did not return: it was still running when the fuel
    ran out, or it raised. *)
Definition not_returned {A} (r : option (Res A)) : Prop :=
  r = None \/ exists e, r = Some (Raise e).

(** Any event but the start of idle remediation. *)
Definition not_idle_recovery (ev : Event) : Prop := ev <> EvIdleRecovery.

End Vocabulary.

(** ** Vocabulary of the further properties *)

(** The two module names [load_actions] does not load as actions. *)
Definition reserved (module_name : string) : bool :=
  String.eqb module_name "scanning" ||
  String.eqb module_name "nmap_vuln_scanner".

Section MoreVocabulary.

Context `{E : Env}.

(** The outcome of a plugin call that [execute_action] records as a
    failure. *)
Definition failing (out : ExecOutcome) : Prop :=
  match out with
  | Returned result => result <> "success"
  | Raised e => is_Exception e = true
  end.

(** What is known of a plugin call made by a cycle over the registry
    [acts]: the action is in the registry and is called under its own
    name and port; an action without parent is called on a row that is
    alive and lists its port, with the address of that row; an action
    with a parent is a child of the sweep (its parent is a non-empty
    string) or the child of a top-level action of the registry. *)
Definition walk_event (acts : list Action) (ev : Event) : Prop :=
  match ev with
  | EvExecute a ip p row key =>
      a ∈ acts /\ key = action_name a /\ p = str_port (port a) /\
      (b_parent_action a = None ->
         row !! "Alive" = Some "1" /\ row !! "IPs" = Some ip /\
         exists ports_cell, row !! "Ports" = Some ports_cell /\
                            p ∈ PyStr.split ";" ports_cell) /\
      (b_parent_action a = None \/ truthy (b_parent_action a) = true \/
       exists parent, parent ∈ acts /\ b_parent_action parent = None /\
                      b_parent_action a = Some (action_name parent))
  | _ => True
  end.

(** [st'] is reached from [st] by steps of a cycle over [acts]. *)
Definition walked (acts : list Action) (st st' : St) : Prop :=
  actions st' = acts /\
  length (current_data st') = length (current_data st) /\
  emits (walk_event acts) st st'.

(** The number of events of a trace on which [p] holds. *)
Fixpoint count_events (p : Event -> bool) (evs : list Event) : nat :=
  match evs with
  | [] => 0
  | ev :: rest => (if p ev then 1 else 0) + count_events p rest
  end.

Definition is_execute (ev : Event) : bool :=
  match ev with EvExecute _ _ _ _ _ => true | _ => false end.

Definition is_write (ev : Event) : bool :=
  match ev with EvWrite _ => true | _ => false end.

(** When [m] returns [a], the events it emitted satisfy [Q a]. *)
Definition returns {A} (Q : A -> list Event -> Prop) (m : M A) : Prop :=
  forall st,
    match m st with
    | (Ok a, st') => exists evs, trace st' = trace st ++ evs /\ Q a evs
    | (Raise _, _) => True
    end.

(** Reading a trace for calls of plugins and writes of the table:
    [pending] tells whether a call still waits for its write. A call
    while one is pending, or a write while none is, is a violation
    ([None]); the other events are passed over. The result is what is
    pending at the end. *)
Fixpoint pairing (pending : bool) (evs : list Event) : option bool :=
  match evs with
  | [] => Some pending
  | ev :: rest =>
      if is_execute ev then
        if pending then None else pairing true rest
      else if is_write ev then
        if pending then pairing false rest else None
      else pairing pending rest
  end.

(** Every call of a plugin is followed by one write of the table before
    the next call, and there is no other write. *)
Definition paired (evs : list Event) : Prop :=
  pairing false evs = Some false.

(** Calls and writes are paired; at least one call when [b] is true. *)
Definition attempts (b : bool) (evs : list Event) : Prop :=
  paired evs /\
  (b = true -> (0 < count_events is_execute evs)%nat).

(** A computation that reads the state or a cell and emits nothing. *)
Definition silent {A} (m : M A) : Prop :=
  forall st, trace (m st).2 = trace st.

(** The action instance a record loads into, when its module is not
    reserved and imports, and its class is there and can be built. *)
Definition loadable (cfg : ActionConfig) : option Action :=
  match cfg_b_module cfg, cfg_b_class cfg with
  | Some module_name, Some b_class =>
      if reserved module_name then None
      else match import_module module_name with
           | Ok m =>
               match mod_construct m b_class with
               | Some (Ok _) =>
                   Some (mkAction module_name b_class (cfg_b_port cfg)
                           (cfg_b_parent cfg))
               | _ => None
               end
           | Raise _ => None
           end
  | _, _ => None
  end.

(** Where [load_action] puts an instance. *)
Definition enlist (a : Action) (st : St) : St :=
  if bool_decide (port a = Some 0)
  then set_standalone_actions (standalone_actions st ++ [a]) st
  else set_actions (actions st ++ [a]) st.

(** The action instances a record adds when it loads: none for a record
    of [scanning] (the module imports, names its class and the class can
    be built) or of [nmap_vuln_scanner] (the scanner can be built), one
    for any other record that is loadable. [None]: the record does not
    load. *)
Definition record_loads (cfg : ActionConfig) : option (list Action) :=
  match cfg_b_module cfg with
  | None => None
  | Some module_name =>
      if String.eqb module_name "scanning" then
        match import_module module_name with
        | Ok m =>
            match mod_b_class m with
            | Some c =>
                match mod_construct m c with
                | Some (Ok _) => Some []
                | _ => None
                end
            | None => None
            end
        | Raise _ => None
        end
      else if String.eqb module_name "nmap_vuln_scanner" then
        match construct_nmap_vuln_scanner with
        | Ok _ => Some []
        | Raise _ => None
        end
      else
        match loadable cfg with
        | Some a => Some [a]
        | None => None
        end
  end.

(** Both lists only grow at the end. *)
Definition grows (st st' : St) : Prop :=
  actions st `prefix_of` actions st' /\
  standalone_actions st `prefix_of` standalone_actions st'.

(** Every action of the two lists of [st'] is one of [st] or comes from
    a module that is not reserved. *)
Definition registered (st st' : St) : Prop :=
  forall a, a ∈ actions st' ++ standalone_actions st' ->
    a ∈ actions st ++ standalone_actions st \/ reserved (b_module a) = false.

(** A known network that the scan did not see, by name or by BSSID. *)
Definition out_of_range (available_ssids : list string)
    (network : Network) : Prop :=
  (exists ssid, net_SSID network = Some ssid /\ ssid ∉ available_ssids) /\
  (forall bssid, net_BSSID network = Some bssid -> bssid ∉ available_ssids).

End MoreVocabulary.

(** ** A concrete environment

    Used to run the orchestrator on concrete tables. The outside state is
    a clock and the persisted table; every clock reading takes one second;
    plugins are told apart by their class name. *)

Module Demo.

(** Days from 1970-01-01 to the given date of the proleptic Gregorian
    calendar. *)
Definition days_from_civil (y m d : Z) : Z :=
  let y' := if m <=? 2 then y - 1 else y in
  let era := y' / 400 in
  let yoe := y' - era * 400 in
  let mp := if 2 <? m then m - 3 else m + 9 in
  let doy := (153 * mp + 2) / 5 + d - 1 in
  let doe := yoe * 365 + yoe / 4 - yoe / 100 + doy in
  era * 146097 + doe - 719468.

(** The date that lies the given number of days after 1970-01-01. *)
Definition civil_from_days (z : Z) : Z * Z * Z :=
  let z' := z + 719468 in
  let era := z' / 146097 in
  let doe := z' - era * 146097 in
  let yoe := (doe - doe / 1460 + doe / 36524 - doe / 146096) / 365 in
  let doy := doe - (365 * yoe + yoe / 4 - yoe / 100) in
  let mp := (5 * doy + 2) / 153 in
  let d := doy - (153 * mp + 2) / 5 + 1 in
  let m := if mp <? 10 then mp + 3 else mp - 9 in
  let y := yoe + era * 400 in
  ((if m <=? 2 then y + 1 else y), m, d).

Definition digit_value (c : ascii) : Z :=
  Z.of_nat (Ascii.nat_of_ascii c) - 48.

Fixpoint digits_value (acc : Z) (s : string) : Z :=
  match s with
  | EmptyString => acc
  | String c rest => digits_value (acc * 10 + digit_value c) rest
  end.

(** The decimal number held by characters [from .. from + len - 1]. *)
Definition field (s : string) (from len : nat) : Z :=
  digits_value 0 (String.substring from len s).

(** [strptime] with format [%Y%m%d_%H%M%S] on timestamps in the padded
    form [strftime] writes; anything else is rejected. *)
Definition demo_strptime (s : string) : option Z :=
  if (Nat.eqb (String.length s) 15 &&
      PyStr.all_digits (String.substring 0 8 s) &&
      String.eqb (String.substring 8 1 s) "_" &&
      PyStr.all_digits (String.substring 9 6 s))%bool
  then
    let y := field s 0 4 in
    let m := field s 4 2 in
    let d := field s 6 2 in
    let hh := field s 9 2 in
    let mm := field s 11 2 in
    let ss := field s 13 2 in
    if ((1 <=? y) && (1 <=? m) && (m <=? 12) && (1 <=? d) &&
        (hh <? 24) && (mm <? 60) && (ss <? 60) &&
        bool_decide (civil_from_days (days_from_civil y m d) = (y, m, d)))%bool
    then Some ((((days_from_civil y m d * 24 + hh) * 60 + mm) * 60 + ss)
               * 1000000)
    else None
  else None.

Definition pad (width : nat) (n : Z) : string :=
  let s := pretty n in
  String.concat "" (replicate (width - String.length s) "0") +:+ s.

Definition demo_strftime (t : Z) : string :=
  let secs := t / 1000000 in
  let days := secs / 86400 in
  let rem := secs mod 86400 in
  let '(y, m, d) := civil_from_days days in
  pad 4 y +:+ pad 2 m +:+ pad 2 d +:+ "_" +:+
  pad 2 (rem / 3600) +:+ pad 2 (rem mod 3600 / 60) +:+ pad 2 (rem mod 60).

Record World : Type := mkWorld {
  clock : Z;
  store : list Row
}.

(** Plugins: [ActionX] and [ActionY] succeed, [Crasher] raises, every
    other class reports failure; none touches the row. *)
Definition demo_execute (a : Action) (ip port_str : string) (row : Row)
    (key : string) (w : World) : ExecOutcome * Row * World :=
  if String.eqb (action_name a) "ActionX" then (Returned "success", row, w)
  else if String.eqb (action_name a) "ActionY" then (Returned "success", row, w)
  else if String.eqb (action_name a) "Crasher"
  then (Raised (OtherException "RuntimeError"), row, w)
  else (Returned "failed", row, w).

(** The [actions] package: modules [mx], [my] and [scanning]. *)
Definition demo_import (name : string) : Res PyModule :=
  if String.eqb name "mx" then
    Ok (mkPyModule (Some "ActionX")
          (fun c => if String.eqb c "ActionX" then Some (Ok tt) else None))
  else if String.eqb name "my" then
    Ok (mkPyModule (Some "ActionY")
          (fun c => if String.eqb c "ActionY" then Some (Ok tt) else None))
  else if String.eqb name "scanning" then
    Ok (mkPyModule (Some "NetworkScanner")
          (fun c => if String.eqb c "NetworkScanner" then Some (Ok tt) else None))
  else Raise ModuleNotFoundError.

Definition demo_env (retry_success : bool) : Env := {|
  W := World;
  now := fun w => (clock w, mkWorld (clock w + 1000000) (store w));
  strptime := demo_strptime;
  strftime := demo_strftime;
  plugin_execute := demo_execute;
  write_data := fun d w => mkWorld (clock w) d;
  read_data := fun w => (store w, w);
  scan := fun w => w;
  sleep := fun s w => mkWorld (clock w + s * 1000000) (store w);
  orchestrator_should_exit := fun _ => false;
  import_module := demo_import;
  construct_nmap_vuln_scanner := Ok tt;
  load_wifi_credentials := fun w => ([], w);
  scan_available_networks := fun w => (Ok [], w);
  connect_to_network := fun _ _ w => (Ok false, w);
  retry_success_actions := retry_success;
  success_retry_delay := 7200;
  failed_retry_delay := 3600;
  scan_interval := 180
|}.

(** An orchestrator with the given registry at time [t]; [data] is both
    the persisted table and [current_data]. *)
Definition init (retry_success : bool) (t : Z) (data : list Row)
    (acts standalone : list Action) : @St (demo_env retry_success) :=
  @mkSt (demo_env retry_success) (mkWorld t data) data [] "" "" acts
    standalone (Some "NetworkScanner") false 0.

End Demo.

(** The two actions of the scenarios: [ActionX] is bound to port 80 and
    has no parent, [ActionY] has port 0 and parent [ActionX]. *)
Definition ActionX : Action := mkAction "mx" "ActionX" (Some 80) None.
Definition ActionY : Action := mkAction "my" "ActionY" (Some 0) (Some "ActionX").

(** ** Registries, targets and states of the concrete runs *)

(** A port-bound child of [ActionX]. *)
Definition ChildY : Action := mkAction "my" "ActionY" (Some 80) (Some "ActionX").

(** A live target with port 80 open and empty status cells. *)
Definition fresh_row : Row :=
  {[ "Alive" := "1"; "IPs" := "10.0.0.1"; "Ports" := "80";
     "ActionX" := ""; "ActionY" := "" ]}.

(** 2024-01-01 00:00:00 *)
Definition t0 : Z := 1704067200000000.

(** A row whose [ActionX] cell reads success. *)
Definition done_row : Row :=
  <["ActionX" := "success_20240101_000000"]> fresh_row.

(** A row whose [ActionX] cell reads failed at 2024-01-01 00:00:00. *)
Definition failed_row : Row :=
  <["ActionX" := "failed_20240101_000000"]> fresh_row.

(** A target that is not alive, on which [ActionX] succeeded earlier. *)
Definition dead_row : Row :=
  {[ "Alive" := "0"; "IPs" := "10.0.0.2"; "Ports" := "80";
     "ActionX" := "success_20240101_000000"; "ActionY" := "" ]}.

(** The two records of the registry of the scenario. *)
Definition cfgX : ActionConfig :=
  mkActionConfig (Some "mx") (Some "ActionX") (Some 80) None.
Definition cfgY : ActionConfig :=
  mkActionConfig (Some "my") (Some "ActionY") (Some 0) (Some "ActionX").

(** The live target with port 80 open, without any status cell. *)
Definition bare_row : Row :=
  {[ "Alive" := "1"; "IPs" := "10.0.0.1"; "Ports" := "80" ]}.

(** An orchestrator before [load_actions], at 2024-01-01 00:00:00. *)
Definition blank : @St (Demo.demo_env false) := Demo.init false t0 [] [] [].

(** A port-80 action whose plugin raises. *)
Definition Crasher : Action := mkAction "mc" "Crasher" (Some 80) None.

(** A live target with an empty cell for [Crasher]. *)
Definition crash_row : Row :=
  {[ "Alive" := "1"; "IPs" := "10.0.0.1"; "Ports" := "80"; "Crasher" := "" ]}.

(** An orchestrator with a scanner, one action and no target. *)
Definition idle_st : @St (Demo.demo_env false) :=
  Demo.init false t0 [] [ActionX] [].

(** A live target whose [ActionX] cell holds a failed tag and a timestamp
    that does not parse. *)
Definition corrupt_row : Row :=
  <["ActionX" := "failed_xx_yy"]> fresh_row.

(** A live target whose [ActionX] cell holds a failed tag and nothing
    else. *)
Definition truncated_row : Row :=
  <["ActionX" := "failed"]> fresh_row.

(** A record naming a module that does not exist. *)
Definition cfg_unknown_module : ActionConfig :=
  mkActionConfig (Some "nope") (Some "Nope") (Some 22) None.

(** A record naming a class its module does not have. *)
Definition cfg_unknown_class : ActionConfig :=
  mkActionConfig (Some "mx") (Some "Missing") (Some 22) None.

(** ** Further environments and states *)

(** An environment as [Demo.demo_env false] in which every plugin stops
    the interpreter. *)
Definition exit_env : Env := {|
  W := Demo.World;
  now := @now (Demo.demo_env false);
  strptime := Demo.demo_strptime;
  strftime := Demo.demo_strftime;
  plugin_execute := fun _ _ _ row _ w => (Raised SystemExit, row, w);
  write_data := @write_data (Demo.demo_env false);
  read_data := @read_data (Demo.demo_env false);
  scan := @scan (Demo.demo_env false);
  sleep := @sleep (Demo.demo_env false);
  orchestrator_should_exit := @orchestrator_should_exit (Demo.demo_env false);
  import_module := Demo.demo_import;
  construct_nmap_vuln_scanner := Ok tt;
  load_wifi_credentials := @load_wifi_credentials (Demo.demo_env false);
  scan_available_networks := @scan_available_networks (Demo.demo_env false);
  connect_to_network := @connect_to_network (Demo.demo_env false);
  retry_success_actions := false;
  success_retry_delay := 7200;
  failed_retry_delay := 3600;
  scan_interval := 180
|}.

(** An environment as [Demo.demo_env false] with a retry delay after
    failures of 10^12 seconds, some thirty thousand years. *)
Definition long_delay_env : Env := {|
  W := Demo.World;
  now := @now (Demo.demo_env false);
  strptime := Demo.demo_strptime;
  strftime := Demo.demo_strftime;
  plugin_execute := @plugin_execute (Demo.demo_env false);
  write_data := @write_data (Demo.demo_env false);
  read_data := @read_data (Demo.demo_env false);
  scan := @scan (Demo.demo_env false);
  sleep := @sleep (Demo.demo_env false);
  orchestrator_should_exit := @orchestrator_should_exit (Demo.demo_env false);
  import_module := Demo.demo_import;
  construct_nmap_vuln_scanner := Ok tt;
  load_wifi_credentials := @load_wifi_credentials (Demo.demo_env false);
  scan_available_networks := @scan_available_networks (Demo.demo_env false);
  connect_to_network := @connect_to_network (Demo.demo_env false);
  retry_success_actions := false;
  success_retry_delay := 7200;
  failed_retry_delay := 1000000000000;
  scan_interval := 180
|}.

(** Thirty minutes after [ActionX] failed on the one live target. *)
Definition long_delay_st : @St long_delay_env :=
  @mkSt long_delay_env (Demo.mkWorld (t0 + 1800000000) [failed_row])
    [failed_row] [] "" "" [ActionX] [] (Some "NetworkScanner") false 0.

(** One live target without status, [ActionX] registered, every plugin
    stopping the interpreter. *)
Definition exit_st : @St exit_env :=
  @mkSt exit_env (Demo.mkWorld t0 [fresh_row]) [fresh_row] [] "" ""
    [ActionX] [] (Some "NetworkScanner") false 0.





(** The records of the two reserved modules; the class of the scanner is
    what its module names, whatever the record says. *)
Definition cfg_scanning : ActionConfig :=
  mkActionConfig (Some "scanning") (Some "NetworkScanner") None None.

Definition cfg_nmap : ActionConfig :=
  mkActionConfig (Some "nmap_vuln_scanner") (Some "NmapVulnScanner")
    (Some 0) None.

(** A record without [b_module]. *)
Definition cfg_no_module : ActionConfig :=
  mkActionConfig None (Some "ActionX") (Some 80) None.

(** The demo environment with a shutdown flag that an observer sets once
    the clock has passed [t0]. *)
Definition stopping_env : Env := {|
  W := Demo.World;
  now := @now (Demo.demo_env false);
  strptime := @strptime (Demo.demo_env false);
  strftime := @strftime (Demo.demo_env false);
  plugin_execute := @plugin_execute (Demo.demo_env false);
  write_data := @write_data (Demo.demo_env false);
  read_data := @read_data (Demo.demo_env false);
  scan := @scan (Demo.demo_env false);
  sleep := @sleep (Demo.demo_env false);
  orchestrator_should_exit := fun w => t0 <? Demo.clock w;
  import_module := @import_module (Demo.demo_env false);
  construct_nmap_vuln_scanner :=
    @construct_nmap_vuln_scanner (Demo.demo_env false);
  load_wifi_credentials := @load_wifi_credentials (Demo.demo_env false);
  scan_available_networks := @scan_available_networks (Demo.demo_env false);
  connect_to_network := @connect_to_network (Demo.demo_env false);
  retry_success_actions := false;
  success_retry_delay := 7200;
  failed_retry_delay := 3600;
  scan_interval := 180
|}.

(** One live target, [ActionX] registered, the flag not yet set. *)
Definition stopping_st : @St stopping_env :=
  @mkSt stopping_env (Demo.mkWorld t0 [fresh_row]) [fresh_row] [] "" ""
    [ActionX] [] None false 0.

(** An orchestrator whose actions file had no [scanning] record. *)
Definition no_scanner_st : @St (Demo.demo_env false) :=
  @mkSt (Demo.demo_env false) (Demo.mkWorld t0 [fresh_row]) [fresh_row] []
    "" "" [ActionX] [] None false 0.

(** An environment as [E] where the Wi-Fi scan sees [available] and
    connecting succeeds as [connects] tells. *)
Definition with_wifi (E : Env) (available : list string)
    (connects : string -> string -> bool) : Env := {|
  W := @W E;
  now := @now E;
  strptime := @strptime E;
  strftime := @strftime E;
  plugin_execute := @plugin_execute E;
  write_data := @write_data E;
  read_data := @read_data E;
  scan := @scan E;
  sleep := @sleep E;
  orchestrator_should_exit := @orchestrator_should_exit E;
  import_module := @import_module E;
  construct_nmap_vuln_scanner := @construct_nmap_vuln_scanner E;
  load_wifi_credentials := @load_wifi_credentials E;
  scan_available_networks := fun w => (Ok available, w);
  connect_to_network := fun ssid password w => (Ok (connects ssid password), w);
  retry_success_actions := @retry_success_actions E;
  success_retry_delay := @success_retry_delay E;
  failed_retry_delay := @failed_retry_delay E;
  scan_interval := @scan_interval E
|}.

(** Only the network [cafe] is in range, and its password is accepted. *)
Definition cafe_env : Env :=
  with_wifi (Demo.demo_env false) ["cafe"]
    (fun ssid password => String.eqb ssid "cafe").

Definition net_home : Network :=
  mkNetwork (Some "home") (Some "AA:BB:CC:DD:EE:01") (Some "secret1").

Definition net_cafe : Network :=
  mkNetwork (Some "cafe") None (Some "secret2").

(** An entry of the credentials file without ['SSID']. *)
Definition net_nameless : Network :=
  mkNetwork None None (Some "secret3").

(** The orchestrator in its idle state, no target, no action. *)
Definition cafe_st : @St cafe_env :=
  @mkSt cafe_env (Demo.mkWorld t0 []) [] [] "idle_action" "" [] []
    (Some "NetworkScanner") false 0.

(** The output of a scan that saw one cell. *)
Definition scan_output : string :=
  "          Cell 01 - Address: AA:BB:CC:DD:EE:02" +:+ String "010"%char
  ("                    ESSID:" +:+ String PyText.dquote
     ("cafe" +:+ String PyText.dquote (String "010"%char ""))).

(** Processes of the concrete runs: [iwlist] prints [scan_output] and
    leaves with status 1; [nmcli] finds no active connection to give up
    and leaves with status 10. *)
Definition demo_spawn (cmd : list string) (w : Demo.World)
    : Res CompletedProcess * Demo.World :=
  if bool_decide (cmd = ["sudo"; "iwlist"; "wlan0"; "scan"])
  then (Ok (mkCompletedProcess 1 scan_output ""), w)
  else (Ok (mkCompletedProcess 10 "" "Error: Device not active."), w).

(** A machine without [nmcli]. *)
Definition no_nmcli_spawn (cmd : list string) (w : Demo.World)
    : Res CompletedProcess * Demo.World :=
  (Raise (OtherException "FileNotFoundError"), w).

(** * Properties *)

(** ** Strings *)

Module PyStrFacts.
Import PyStr.

Lemma append_nil (b : string) : "" +:+ b = b.
Proof. reflexivity. Qed.

Lemma append_cons (c : ascii) (a b : string) :
  String c a +:+ b = String c (a +:+ b).
Proof. reflexivity. Qed.

Lemma contains_has_char (c : ascii) (needle hay : string) :
  contains (String c needle) hay = true -> has_char c hay = true.
Proof.
  induction hay as [|c' hay IH]; simpl; [discriminate|].
  destruct (ascii_dec c c') as [->|Hne].
  - rewrite Ascii.eqb_refl. reflexivity.
  - simpl. intros H. rewrite (IH H). apply orb_true_r.
Qed.

Lemma has_char_app (c : ascii) (a b : string) :
  has_char c (a +:+ b) = has_char c a || has_char c b.
Proof.
  induction a as [|c' a IH]; [reflexivity|].
  rewrite append_cons. simpl. rewrite IH. apply orb_assoc.
Qed.

Lemma all_digits_has_char (c : ascii) (s : string) :
  is_digit c = false -> all_digits s = true -> has_char c s = false.
Proof.
  intros Hc. induction s as [|c' s IH]; simpl; [reflexivity|].
  intros [Hd Hs]%andb_true_iff. rewrite (IH Hs), orb_false_r.
  destruct (Ascii.eqb_spec c c') as [->|]; [congruence|reflexivity].
Qed.

Lemma split_no_sep (sep : ascii) (s : string) :
  has_char sep s = false -> split sep s = [s].
Proof.
  induction s as [|c s IH]; simpl; [reflexivity|].
  intros [Hc Hs]%orb_false_iff.
  rewrite Ascii.eqb_sym, Hc, (IH Hs). reflexivity.
Qed.

Lemma split_app (sep : ascii) (a b : string) :
  has_char sep a = false ->
  split sep (a +:+ String sep b) = a :: split sep b.
Proof.
  induction a as [|c a IH]; [rewrite append_nil|rewrite append_cons]; simpl.
  - intros _. rewrite Ascii.eqb_refl. reflexivity.
  - intros [Hc Ha]%orb_false_iff.
    rewrite Ascii.eqb_sym, Hc, (IH Ha). reflexivity.
Qed.

(** A status cell [<tag>_<date>_<time>] with digit fields splits into its
    three fields. *)
Lemma split_status (tag d t : string) :
  has_char "_" tag = false -> all_digits d = true -> all_digits t = true ->
  split "_" (tag +:+ "_" +:+ d +:+ "_" +:+ t) = [tag; d; t].
Proof.
  intros Htag Hd Ht. rewrite !(append_cons "_" ""), !append_nil.
  rewrite (split_app "_" tag) by assumption.
  rewrite (split_app "_" d) by (apply all_digits_has_char; [reflexivity|assumption]).
  rewrite split_no_sep by (apply all_digits_has_char; [reflexivity|assumption]).
  reflexivity.
Qed.

Lemma contains_app_r (needle a b : string) :
  contains needle b = true -> contains needle (a +:+ b) = true.
Proof.
  intros H. induction a as [|c a IH]; [assumption|].
  rewrite append_cons. simpl. rewrite IH. apply orb_true_r.
Qed.

Lemma prefix_app (a b : string) : String.prefix a (a +:+ b) = true.
Proof.
  induction a as [|c a IH]; [destruct b; reflexivity|].
  rewrite append_cons. simpl.
  destruct (ascii_dec c c); [assumption|congruence].
Qed.

Lemma contains_prefix (a b : string) : contains a (a +:+ b) = true.
Proof.
  destruct a as [|c a]; [destruct b; reflexivity|].
  rewrite append_cons. cbn [contains]. rewrite <- append_cons, prefix_app.
  reflexivity.
Qed.

(** A failed cell with digit fields holds no ['success']. *)
Lemma failed_cell_no_success (d t : string) :
  all_digits d = true -> all_digits t = true ->
  contains "success" ("failed_" +:+ d +:+ "_" +:+ t) = false.
Proof.
  intros Hd Ht.
  destruct (contains "success" _) eqn:Hc; [|reflexivity].
  apply contains_has_char in Hc.
  rewrite !has_char_app in Hc.
  rewrite (all_digits_has_char "s" d), (all_digits_has_char "s" t) in Hc
    by (reflexivity || assumption).
  discriminate Hc.
Qed.

Lemma failed_cell_failed (d t : string) :
  contains "failed" ("failed_" +:+ d +:+ "_" +:+ t) = true.
Proof.
  change ("failed_" +:+ d +:+ "_" +:+ t)
    with ("failed" +:+ ("_" +:+ d +:+ "_" +:+ t)).
  apply contains_prefix.
Qed.

End PyStrFacts.

(** ** Traces and frames *)

Section TraceFacts.

Context `{E : Env}.

#[global] Instance emits_preorder (Q : Event -> Prop) : PreOrder (emits Q).
Proof.
  split.
  - intros st. exists []. rewrite app_nil_r. auto.
  - intros st1 st2 st3 (e1 & H1 & F1) (e2 & H2 & F2). exists (e1 ++ e2).
    rewrite H2, H1, app_assoc. split; [reflexivity|].
    apply Forall_app; auto.
Qed.

Lemma emits_same (Q : Event -> Prop) (st st' : St) :
  trace st' = trace st -> emits Q st st'.
Proof. intros H. exists []. rewrite H, app_nil_r. auto. Qed.

Lemma emits_one (Q : Event -> Prop) (ev : Event) (st st' : St) :
  Q ev -> trace st' = trace st ++ [ev] -> emits Q st st'.
Proof.
  intros HQ H. exists [ev]. split; [assumption|].
  repeat constructor. assumption.
Qed.

Lemma emits_weaken (Q Q' : Event -> Prop) (st st' : St) :
  (forall ev, Q ev -> Q' ev) -> emits Q st st' -> emits Q' st st'.
Proof.
  intros HQ (evs & H & F). exists evs. split; [assumption|].
  eapply Forall_impl; eauto.
Qed.

#[global] Instance same_data_preorder : PreOrder same_data.
Proof.
  split; [intros st; reflexivity|].
  intros st1 st2 st3 H1 H2. unfold same_data in *. congruence.
Qed.

#[global] Instance quiet_preorder : PreOrder quiet.
Proof.
  split; [intros st; split; reflexivity|].
  intros st1 st2 st3 [H1 H1'] [H2 H2']. split; etransitivity; eassumption.
Qed.

Section Steps.

Context (R : relation St) `{!PreOrder R}.

Lemma steps_ret {A} (a : A) : steps R (ret a).
Proof. intros st. reflexivity. Qed.

Lemma steps_raise {A} (e : exn) : steps R (raise (A:=A) e).
Proof. intros st. reflexivity. Qed.

Lemma steps_gets {A} (f : St -> A) : steps R (gets f).
Proof. intros st. reflexivity. Qed.

Lemma steps_modify (f : St -> St) :
  (forall st, R st (f st)) -> steps R (modify f).
Proof. intros H st. apply H. Qed.

Lemma steps_bind {A B} (m : M A) (k : A -> M B) :
  steps R m -> (forall a, steps R (k a)) -> steps R (bind m k).
Proof.
  intros Hm Hk st. unfold bind. specialize (Hm st).
  destruct (m st) as [[a|e] st1]; simpl in *; [|assumption].
  etransitivity; [eassumption|apply Hk].
Qed.

Lemma steps_try_except {A} (m : M A) (catches : exn -> bool)
    (h : exn -> M A) :
  steps R m -> (forall e, steps R (h e)) -> steps R (try_except m catches h).
Proof.
  intros Hm Hh st. unfold try_except. specialize (Hm st).
  destruct (m st) as [[a|e] st1]; simpl in *; [assumption|].
  destruct (catches e); simpl; [|assumption].
  etransitivity; [eassumption|apply Hh].
Qed.

Lemma steps_py_getitem (row : Row) (key : string) :
  steps R (py_getitem row key).
Proof.
  unfold py_getitem. destruct (row !! key);
    [apply steps_ret|apply steps_raise].
Qed.

Lemma steps_py_index (l : list string) (i : nat) : steps R (py_index l i).
Proof.
  unfold py_index. destruct (l !! i); [apply steps_ret|apply steps_raise].
Qed.

Lemma steps_py_strptime (s : string) : steps R (py_strptime s).
Proof.
  unfold py_strptime. destruct (strptime s);
    [apply steps_ret|apply steps_raise].
Qed.

Lemma steps_py_timedelta (s : Z) : steps R (py_timedelta s).
Proof.
  unfold py_timedelta. destruct (timedelta_seconds s);
    [apply steps_ret|apply steps_raise].
Qed.

Lemma steps_py_datetime_add (t delta : Z) : steps R (py_datetime_add t delta).
Proof.
  unfold py_datetime_add. destruct (datetime_add t delta);
    [apply steps_ret|apply steps_raise].
Qed.

Lemma steps_datetime_now :
  (forall st w, R st (set_world w st)) -> steps R datetime_now.
Proof.
  intros H st. unfold datetime_now. destruct (now (world st)). apply H.
Qed.

Lemma steps_log (lvl : LogLevel) (msg : string) :
  (forall st, R st (emit (EvLog lvl msg) st)) -> steps R (log lvl msg).
Proof. intros H. apply steps_modify, H. Qed.

End Steps.

Lemma quiet_set_world (st : St) (w : W) : quiet st (set_world w st).
Proof. split; [reflexivity|apply emits_same; reflexivity]. Qed.

Lemma quiet_log (lvl : LogLevel) (msg : string) (st : St) :
  quiet st (emit (EvLog lvl msg) st).
Proof.
  split; [reflexivity|]. eapply emits_one; [|reflexivity]. exact I.
Qed.

End TraceFacts.

(** ** Running a sequence *)

Section BindFacts.

Context `{E : Env}.

Lemma bind_ok {A B} (m : M A) (k : A -> M B) (st st' : St) (a : A) :
  m st = (Ok a, st') -> bind m k st = k a st'.
Proof. intros H. unfold bind. rewrite H. reflexivity. Qed.

Lemma bind_raise {A B} (m : M A) (k : A -> M B) (st st' : St) (e : exn) :
  m st = (Raise e, st') -> bind m k st = (Raise e, st').
Proof. intros H. unfold bind. rewrite H. reflexivity. Qed.

Lemma py_getitem_ok (row : Row) (key v : string) (st : St) :
  row !! key = Some v -> py_getitem row key st = (Ok v, st).
Proof. intros H. unfold py_getitem. rewrite H. reflexivity. Qed.

Lemma py_getitem_missing (row : Row) (key : string) (st : St) :
  row !! key = None -> py_getitem row key st = (Raise (KeyError key), st).
Proof. intros H. unfold py_getitem. rewrite H. reflexivity. Qed.

End BindFacts.

(** Steps that read the clock and log, by the structure of the code. *)
Ltac quiet_steps :=
  repeat first
    [ match goal with
      | |- PreOrder _ => typeclasses eauto
      | |- forall _, _ => intros ?
      | |- quiet _ (set_world _ _) => apply quiet_set_world
      | |- quiet _ (emit (EvLog _ _) _) => apply quiet_log
      | |- steps _ (if ?b then _ else _) => destruct b
      end
    | apply steps_ret
    | apply steps_raise
    | apply steps_gets
    | apply steps_py_getitem
    | apply steps_py_index
    | apply steps_py_strptime
    | apply steps_py_timedelta
    | apply steps_py_datetime_add
    | apply steps_datetime_now
    | apply steps_log
    | apply steps_bind
    | apply steps_try_except ].

(** ** The eligibility tests of [execute_action] *)

Section GateFacts.

Context `{E : Env}.

Lemma truthy_Some (P : string) : P <> "" -> truthy (Some P) = true.
Proof.
  intros H. simpl. destruct (String.eqb_spec P ""); [contradiction|reflexivity].
Qed.

Lemma parent_test_false (a : Action) (row : Row) :
  truthy (b_parent_action a) &&
    negb (PyStr.contains "success"
            (py_get row (default "" (b_parent_action a)))) = false ->
  parent_ok a row.
Proof.
  intros H P HP Hne. rewrite HP in H. rewrite truthy_Some in H by assumption.
  simpl in H. apply negb_false_iff in H. exact H.
Qed.

Lemma parent_test_true (a : Action) (row : Row) :
  parent_ok a row ->
  truthy (b_parent_action a) &&
    negb (PyStr.contains "success"
            (py_get row (default "" (b_parent_action a)))) = false.
Proof.
  intros H. destruct (b_parent_action a) as [P|] eqn:HP; [|reflexivity].
  simpl. destruct (String.eqb_spec P "") as [->|Hne]; [reflexivity|].
  simpl. rewrite (H P) by auto. reflexivity.
Qed.

Lemma retry_delay_block_quiet (cell : string) (delay : Z) (what : string) :
  steps quiet (retry_delay_block cell delay what).
Proof. unfold retry_delay_block, status_time. quiet_steps. Qed.

Lemma eligibility_gate_quiet (a : Action) (ports : list string) (row : Row)
    (action_key : string) :
  steps quiet (eligibility_gate a ports row action_key).
Proof.
  unfold eligibility_gate.
  repeat first [apply retry_delay_block_quiet | progress quiet_steps].
Qed.

Lemma eligibility_gate_true (a : Action) (ports : list string) (row : Row)
    (action_key : string) (st : St) :
  (eligibility_gate a ports row action_key st).1 = Ok true ->
  gate_passed a ports row action_key.
Proof.
  unfold eligibility_gate.
  destruct (bool_decide (str_port (port a) ∈ ports)) eqn:Hport;
    [|discriminate].
  apply bool_decide_eq_true in Hport.
  destruct (_ && _) eqn:Hparent; [discriminate|].
  apply parent_test_false in Hparent.
  cbn [negb]. unfold bind, py_getitem.
  destruct (row !! action_key) as [cell|] eqn:Hcell; [|discriminate].
  cbn [ret]. intros H.

  split; [assumption|]. split; [assumption|].
  exists cell. split; [assumption|]. intros Hs.
  rewrite Hs in H. destruct retry_success_actions; [reflexivity|].
  simpl in H. discriminate.
Qed.

End GateFacts.

(** ** Dispatch *)

Section DispatchFacts.

Context `{E : Env}.

Lemma record_outcome_eq (i : nat) (action_key : string) (success : bool)
    (st : St) :
  record_outcome i action_key success st
  = (Ok tt, recorded i action_key success st).
Proof.
  unfold record_outcome, recorded, set_cell, datetime_now, bind, modify.
  destruct (now (world st)) as [t w]. reflexivity.
Qed.

Lemma recorded_trace (i : nat) (action_key : string) (success : bool)
    (st : St) :
  trace (recorded i action_key success st)
  = trace st ++ [EvWrite (current_data (recorded i action_key success st))].
Proof. reflexivity. Qed.

(** [dispatch] when the plugin returns. *)
Lemma dispatch_returned (a : Action) (ip : string) (i : nat)
    (action_key : string) (st : St) (result : string) (row' : Row) (w : W) :
  plugin_execute a ip (str_port (port a)) (row_at i st) action_key (world st)
    = (Returned result, row', w) ->
  dispatch a ip i action_key st
  = (Ok (String.eqb result "success"),
     recorded i action_key (String.eqb result "success")
       (called a ip i action_key row' w st)).
Proof.
  intros Hx. unfold dispatch, try_except, bind at 1 2 3.
  unfold log, modify, call_execute. simpl.
  change (row_at i (set_bjornstatustext2 ip (emit (EvLog Info "Executing action") st)))
    with (row_at i st).
  rewrite Hx. unfold bind. rewrite record_outcome_eq. reflexivity.
Qed.

(** [dispatch] when the plugin raises. *)
Lemma dispatch_raised (a : Action) (ip : string) (i : nat)
    (action_key : string) (st : St) (e : exn) (row' : Row) (w : W) :
  plugin_execute a ip (str_port (port a)) (row_at i st) action_key (world st)
    = (Raised e, row', w) ->
  dispatch a ip i action_key st
  = if is_Exception e then
      (Ok false,
       recorded i action_key false
         (emit (EvLog Error "Action failed")
            (called a ip i action_key row' w st)))
    else (Raise e, called a ip i action_key row' w st).
Proof.
  intros Hx. unfold dispatch, try_except, bind at 1 2 3.
  unfold log, modify, call_execute. simpl.
  change (row_at i (set_bjornstatustext2 ip (emit (EvLog Info "Executing action") st)))
    with (row_at i st).
  rewrite Hx. destruct (is_Exception e); [|reflexivity].
  unfold bind. simpl. rewrite record_outcome_eq. reflexivity.
Qed.

(** The events of a dispatch: two log lines at most, the call of the
    plugin on the row as it is, one write of the table. *)
Lemma dispatch_emits (Q : Event -> Prop) (a : Action) (ip : string)
    (i : nat) (action_key : string) (st : St) :
  (forall lvl msg, Q (EvLog lvl msg)) ->
  (forall d, Q (EvWrite d)) ->
  Q (EvExecute a ip (str_port (port a)) (row_at i st) action_key) ->
  emits Q st (dispatch a ip i action_key st).2.
Proof.
  intros Hlog Hwrite Hexec.
  destruct (plugin_execute a ip (str_port (port a)) (row_at i st) action_key
              (world st)) as [[[result|e] row'] w] eqn:Hx.
  - rewrite (dispatch_returned _ _ _ _ _ _ _ _ Hx).
    unfold recorded, called, calling. simpl.
    eexists. split; [simpl; rewrite <- !app_assoc; reflexivity|].
    repeat constructor; auto.
  - rewrite (dispatch_raised _ _ _ _ _ _ _ _ Hx).
    destruct (is_Exception e); unfold recorded, called, calling; simpl.
    + eexists. split; [simpl; rewrite <- !app_assoc; reflexivity|].
      repeat constructor; auto.
    + eexists. split; [simpl; rewrite <- !app_assoc; reflexivity|].
      repeat constructor; auto.
Qed.

(** A dispatch calls the plugin: whatever the plugin does, the trace goes
    on with the log line of line 164 and the call on the row as it is. *)
Lemma dispatch_calls_plugin (a : Action) (ip : string) (i : nat)
    (action_key : string) (st : St) :
  exists evs,
    trace (dispatch a ip i action_key st).2
    = trace st ++
      EvLog Info "Executing action"
        :: EvExecute a ip (str_port (port a)) (row_at i st) action_key :: evs.
Proof.
  destruct (plugin_execute a ip (str_port (port a)) (row_at i st) action_key
              (world st)) as [[[result|e] row'] w] eqn:Hx.
  - rewrite (dispatch_returned _ _ _ _ _ _ _ _ Hx).
    unfold recorded, called, calling. cbn [snd trace emit set_world
      set_current_data set_bjornstatustext2].
    eexists. rewrite <- !app_assoc. reflexivity.
  - rewrite (dispatch_raised _ _ _ _ _ _ _ _ Hx).
    destruct (is_Exception e); unfold recorded, called, calling;
      cbn [snd trace emit set_world set_current_data set_bjornstatustext2].
    + eexists. rewrite <- !app_assoc. reflexivity.
    + eexists. rewrite <- !app_assoc. reflexivity.
Qed.

(** A dispatch returns, or lets through what [except Exception] does not
    catch. *)
Lemma dispatch_result (a : Action) (ip : string) (i : nat)
    (action_key : string) (st : St) (e : exn) :
  (dispatch a ip i action_key st).1 = Raise e -> is_Exception e = false.
Proof.
  destruct (plugin_execute a ip (str_port (port a)) (row_at i st) action_key
              (world st)) as [[[result|e'] row'] w] eqn:Hx.
  - rewrite (dispatch_returned _ _ _ _ _ _ _ _ Hx). discriminate.
  - rewrite (dispatch_raised _ _ _ _ _ _ _ _ Hx).
    destruct (is_Exception e') eqn:He; [discriminate|].
    intros [= <-]. exact He.
Qed.

Lemma execute_action_event_ok (a : Action) (ip : string)
    (ports : list string) (i : nat) :
  steps (emits event_ok) (execute_action a ip ports i (action_name a)).
Proof.
  intros st. unfold execute_action, bind, gets. simpl.
  pose proof (eligibility_gate_quiet a ports (row_at i st) (action_name a) st)
    as [Hdata Hlogs].
  pose proof (eligibility_gate_true a ports (row_at i st) (action_name a) st)
    as Htrue.
  destruct (eligibility_gate a ports (row_at i st) (action_name a) st)
    as [[[|]|e] st1]; simpl in *.
  - etransitivity.
    + eapply emits_weaken; [|exact Hlogs]. intros [] []; exact I.
    + apply dispatch_emits; try (intros; exact I).
      split; [reflexivity|]. split; [reflexivity|]. exists ports.
      unfold row_at. rewrite Hdata. apply Htrue. reflexivity.
  - eapply emits_weaken; [|exact Hlogs]. intros [] []; exact I.
  - eapply emits_weaken; [|exact Hlogs]. intros [] []; exact I.
Qed.

End DispatchFacts.

(** ** The cycle walker *)

(** Steps of the walker that leave the trace alone, by the structure of
    the code. *)
Ltac walker_steps :=
  repeat first
    [ match goal with
      | |- PreOrder _ => typeclasses eauto
      | |- steps _ (if ?b then _ else _) => destruct b
      | |- steps _ (match ?x with _ => _ end) => destruct x
      | |- steps _ (ret _) => apply steps_ret
      | |- steps _ (raise _) => apply steps_raise
      | |- steps _ (gets _) => apply steps_gets
      | |- steps _ (py_getitem _ _) => apply steps_py_getitem
      | |- steps _ (modify _) =>
          apply steps_modify; intros ?; apply emits_same; reflexivity
      | |- steps _ (execute_action _ _ _ _ _) =>
          apply execute_action_event_ok
      | |- steps _ (bind _ _) => apply steps_bind; [| |intros ?]
      end
    | assumption ].

Section WalkerFacts.

Context `{E : Env}.

Lemma try_children_event_ok (children : list Action) (action_key ip : string)
    (ports : list string) (i : nat) :
  steps (emits event_ok) (try_children children action_key ip ports i).
Proof.
  induction children as [|c rest IH]; simpl; walker_steps.
Qed.

Lemma top_level_rows_event_ok (a : Action) (rows : list nat) :
  steps (emits event_ok) (top_level_rows a rows).
Proof.
  induction rows as [|i rest IH]; simpl; walker_steps.
  all: apply try_children_event_ok.
Qed.

Lemma top_level_pass_event_ok (acts : list Action) :
  steps (emits event_ok) (top_level_pass acts).
Proof.
  induction acts as [|a rest IH]; simpl; walker_steps.
  apply top_level_rows_event_ok.
Qed.

Lemma child_sweep_rows_event_ok (child_action : Action) (rows : list nat) :
  steps (emits event_ok) (child_sweep_rows child_action rows).
Proof.
  induction rows as [|i rest IH]; simpl; walker_steps.
Qed.

Lemma child_sweep_event_ok (acts : list Action) :
  steps (emits event_ok) (child_sweep acts).
Proof.
  induction acts as [|a rest IH]; simpl; walker_steps.
  apply child_sweep_rows_event_ok.
Qed.

(** Every plugin call of a cycle is made on a row that passed the tests
    of [execute_action] at the time of the call. *)
Lemma process_alive_ips_event_ok (data : list Row) :
  steps (emits event_ok) (process_alive_ips data).
Proof.
  unfold process_alive_ips. walker_steps.
  - apply top_level_pass_event_ok.
  - apply child_sweep_event_ok.
Qed.

End WalkerFacts.

(** ** Retry delays *)

Section RetryFacts.

Context `{E : Env}.

(** A delay that is a [timedelta] and ends within the range of
    [datetime]. *)
Lemma retry_deadline_in_range (last delay : Z) :
  Z.abs (delay / 86400) <= 999999999 ->
  datetime_min <= last + delay * 1000000 <= datetime_max ->
  retry_deadline last delay = Some (last + delay * 1000000).
Proof.
  intros Hdelta [Hmin Hmax]. unfold retry_deadline, timedelta_seconds.
  apply Z.leb_le in Hdelta. rewrite Hdelta. unfold datetime_add.
  apply Z.leb_le in Hmin, Hmax. rewrite Hmin, Hmax. reflexivity.
Qed.

Lemma retry_deadline_Some (last delay deadline : Z) :
  retry_deadline last delay = Some deadline ->
  deadline = last + delay * 1000000.
Proof.
  unfold retry_deadline, timedelta_seconds, datetime_add.
  destruct (Z.abs (delay / 86400) <=? 999999999); [|discriminate].
  destruct ((datetime_min <=? _) && _); [|discriminate].
  intros [= <-]. reflexivity.
Qed.

(** The two steps that build the deadline. *)
Lemma deadline_steps {A} (last delay : Z) (k : Z -> M A) (st : St) :
  (let* delta := py_timedelta delay in
   let* deadline := py_datetime_add last delta in
   k deadline) st
  = match retry_deadline last delay with
    | Some deadline => k deadline st
    | None => (Raise OverflowError, st)
    end.
Proof.
  unfold retry_deadline, py_timedelta, py_datetime_add, bind.
  destruct (timedelta_seconds delay) as [delta|]; [|reflexivity].
  cbn [ret]. destruct (datetime_add last delta); reflexivity.
Qed.

(** The retry-delay block on a cell whose two fields parse, the deadline
    being in range. *)
Lemma retry_delay_block_parsed (cell d t : string) (last delay deadline : Z)
    (what : string) (st : St) :
  PyStr.split "_" cell !! 1%nat = Some d ->
  PyStr.split "_" cell !! 2%nat = Some t ->
  strptime (d +:+ "_" +:+ t) = Some last ->
  retry_deadline last delay = Some deadline ->
  retry_delay_block cell delay what st
  = if (now (world st)).1 <? deadline then
      (Ok true,
       emit (EvLog Warning ("Skipping action due to " +:+ what +:+ " retry delay"))
         (set_world (now (now (world st)).2).2 st))
    else (Ok false, set_world (now (world st)).2 st).
Proof.
  intros Hd Ht Hp Hdl.
  unfold retry_delay_block, try_except, status_time.
  unfold bind at 1. unfold bind at 1. unfold py_index at 1. rewrite Hd.
  cbn [ret]. unfold bind at 1. unfold py_index. rewrite Ht. cbn [ret].
  unfold py_strptime. rewrite Hp. cbn [ret].
  unfold bind at 1. unfold datetime_now at 1.
  destruct (now (world st)) as [t1 w1] eqn:Hnow. cbn [fst snd].
  rewrite deadline_steps, Hdl.
  destruct (t1 <? deadline); [|reflexivity].
  unfold bind, datetime_now, log, modify, ret. cbn [world set_world].
  destruct (now w1) as [t2 w2]. reflexivity.
Qed.

(** The retry-delay block on a cell whose two fields parse, the deadline
    being out of range: the clock is read, and the [OverflowError] of the
    sum is not caught. *)
Lemma retry_delay_block_overflow (cell d t : string) (last delay : Z)
    (what : string) (st : St) :
  PyStr.split "_" cell !! 1%nat = Some d ->
  PyStr.split "_" cell !! 2%nat = Some t ->
  strptime (d +:+ "_" +:+ t) = Some last ->
  retry_deadline last delay = None ->
  retry_delay_block cell delay what st
  = (Raise OverflowError, set_world (now (world st)).2 st).
Proof.
  intros Hd Ht Hp Hdl.
  unfold retry_delay_block, try_except, status_time.
  unfold bind at 1. unfold bind at 1. unfold py_index at 1. rewrite Hd.
  cbn [ret]. unfold bind at 1. unfold py_index. rewrite Ht. cbn [ret].
  unfold py_strptime. rewrite Hp. cbn [ret].
  unfold bind at 1. unfold datetime_now at 1.
  destruct (now (world st)) as [t1 w1] eqn:Hnow. cbn [fst snd].
  rewrite deadline_steps, Hdl. reflexivity.
Qed.

(** The retry-delay block on a cell whose two fields do not parse: the
    [ValueError] is caught and logged, nothing is returned from
    [execute_action]. *)
Lemma retry_delay_block_unparsed (cell d t : string) (delay : Z)
    (what : string) (st : St) :
  PyStr.split "_" cell !! 1%nat = Some d ->
  PyStr.split "_" cell !! 2%nat = Some t ->
  strptime (d +:+ "_" +:+ t) = None ->
  retry_delay_block cell delay what st
  = (Ok false, emit (EvLog Error ("Error parsing last " +:+ what +:+ " time")) st).
Proof.
  intros Hd Ht Hp.
  unfold retry_delay_block, try_except, status_time, bind, py_index,
    py_strptime, datetime_now, log, modify, ret, raise.
  rewrite Hd, Ht, Hp. reflexivity.
Qed.

(** The retry-delay block on a cell with fewer than three fields: the
    [IndexError] is not caught. *)
Lemma retry_delay_block_short (cell : string) (delay : Z) (what : string)
    (st : St) :
  PyStr.split "_" cell !! 2%nat = None ->
  retry_delay_block cell delay what st = (Raise IndexError, st).
Proof.
  intros Ht.
  unfold retry_delay_block, try_except, status_time, bind, py_index,
    py_strptime, raise, ret.
  rewrite Ht. destruct (PyStr.split "_" cell !! 1%nat); reflexivity.
Qed.

(** The tests on a row that passes the port and parent tests and whose
    cell holds no ['success']. *)
Lemma eligibility_gate_not_success (a : Action) (ports : list string)
    (row : Row) (action_key cell : string) (st : St) :
  str_port (port a) ∈ ports -> parent_ok a row ->
  row !! action_key = Some cell ->
  PyStr.contains "success" cell = false ->
  eligibility_gate a ports row action_key st
  = if PyStr.contains "failed" cell then
      (let* stop := retry_delay_block cell failed_retry_delay "failed" in
       ret (negb stop)) st
    else (Ok true, st).
Proof.
  intros Hport Hparent Hcell Hs. unfold eligibility_gate.
  rewrite (bool_decide_eq_true_2 _ Hport), (parent_test_true _ _ Hparent).
  cbn [negb]. unfold py_getitem, py_get. rewrite Hcell. cbn [default from_option id].
  unfold bind at 1. cbn [ret]. rewrite Hs. unfold bind at 1. cbn [ret].
  destruct (PyStr.contains "failed" cell); reflexivity.
Qed.

(** The tests on a row that passes the port and parent tests and whose
    cell holds ['success'], retrying of successes being enabled. *)
Lemma eligibility_gate_success_retry (a : Action) (ports : list string)
    (row : Row) (action_key cell : string) (st : St) :
  str_port (port a) ∈ ports -> parent_ok a row ->
  row !! action_key = Some cell ->
  PyStr.contains "success" cell = true ->
  retry_success_actions = true ->
  eligibility_gate a ports row action_key st
  = (let* stop := retry_delay_block cell success_retry_delay "success" in
     if (stop : bool) then ret false
     else
       let* stop' :=
         (if PyStr.contains "failed" cell then
            retry_delay_block cell failed_retry_delay "failed"
          else ret false) in
       ret (negb stop')) st.
Proof.
  intros Hport Hparent Hcell Hs Hr. unfold eligibility_gate.
  rewrite (bool_decide_eq_true_2 _ Hport), (parent_test_true _ _ Hparent).
  cbn [negb]. unfold py_getitem, py_get. rewrite Hcell. cbn [default from_option id].
  unfold bind at 1. cbn [ret]. rewrite Hs, Hr. reflexivity.
Qed.

(** The tests end with [return False] and no trace when the port or the
    parent test fails, or when the cell holds ['success'] and successes
    are not retried. *)
Lemma eligibility_gate_success_no_retry (a : Action) (ports : list string)
    (row : Row) (action_key cell : string) (st : St) :
  row !! action_key = Some cell ->
  PyStr.contains "success" cell = true ->
  retry_success_actions = false ->
  eligibility_gate a ports row action_key st = (Ok false, st).
Proof.
  intros Hcell Hs Hr. unfold eligibility_gate.
  destruct (negb _); [reflexivity|].
  destruct (_ && _); [reflexivity|].
  unfold py_getitem. rewrite Hcell. unfold bind at 1. cbn [ret].
  rewrite Hs, Hr. reflexivity.
Qed.

(** The port test of line 129 applies to every action, port 0
    included. *)
Lemma port_mismatch_returns_false (a : Action) (ip : string)
    (ports : list string) (i : nat) (key : string) (st : St) :
  str_port (port a) ∉ ports ->
  execute_action a ip ports i key st = (Ok false, st).
Proof.
  intros Hport. unfold execute_action. erewrite bind_ok; [|reflexivity].
  erewrite bind_ok; cycle 1.
  { unfold eligibility_gate. rewrite (bool_decide_eq_false_2 _ Hport).
    reflexivity. }
  reflexivity.
Qed.

End RetryFacts.

(** * The claims *)

Section EligibilityClaims.

Context `{E : Env}.

(** C1. During a cycle, an action whose [b_parent_action] names a parent
    [P] is handed to its plugin ([action.execute] is called) only on a
    row whose cell for [P] holds ['success'] at the time of the call:
    [row] is the target row as it stands when [execute] is invoked, and
    [evs] are the events of the cycle. *)
Theorem child_dispatch_needs_parent_success (data : list Row) (st : St)
    (evs : list Event) (a : Action) (ip p : string) (row : Row)
    (key P : string) :
  trace (process_alive_ips data st).2 = trace st ++ evs ->
  EvExecute a ip p row key ∈ evs ->
  b_parent_action a = Some P -> P <> "" ->
  PyStr.contains "success" (py_get row P) = true.
Proof.
  intros Htr Hin HP Hne.
  destruct (process_alive_ips_event_ok data st) as (evs' & Htr' & Hok).
  rewrite Htr in Htr'. apply app_inv_head in Htr'. subst evs'.
  rewrite Forall_forall in Hok. specialize (Hok _ Hin).
  destruct Hok as (_ & _ & ports & _ & Hpar & _).
  exact (Hpar P HP Hne).
Qed.

(** C2. With [retry_success_actions] off, [execute_action] on a row whose
    cell for the action holds ['success'] returns [False] and does
    nothing else, in every state, hence at every later evaluation; and no
    plugin call of a cycle is made on a row whose cell for the action
    holds ['success'] at the time of the call. *)
Theorem success_never_dispatched_again :
  retry_success_actions = false ->
  (forall (a : Action) (ip : string) (ports : list string) (i : nat)
          (key cell : string) (st : St),
      row_at i st !! key = Some cell ->
      PyStr.contains "success" cell = true ->
      execute_action a ip ports i key st = (Ok false, st)) /\
  (forall (data : list Row) (st : St) (evs : list Event) (a : Action)
          (ip p : string) (row : Row) (key : string),
      trace (process_alive_ips data st).2 = trace st ++ evs ->
      EvExecute a ip p row key ∈ evs ->
      key = action_name a /\
      exists cell, row !! key = Some cell /\
                   PyStr.contains "success" cell = false).
Proof.
  intros Hr. split.
  - intros a ip ports i key cell st Hcell Hs.
    unfold execute_action, bind, gets. cbn [fst snd].
    rewrite (eligibility_gate_success_no_retry _ _ _ _ _ _ Hcell Hs Hr).
    reflexivity.
  - intros data st evs a ip p row key Htr Hin.
    destruct (process_alive_ips_event_ok data st) as (evs' & Htr' & Hok).
    rewrite Htr in Htr'. apply app_inv_head in Htr'. subst evs'.
    rewrite Forall_forall in Hok. specialize (Hok _ Hin).
    destruct Hok as (Hkey & _ & ports & _ & _ & cell & Hcell & Hs).
    split; [assumption|]. exists cell. split; [assumption|].
    destruct (PyStr.contains "success" cell); [|reflexivity].
    rewrite Hr in Hs. discriminate Hs. reflexivity.
Qed.

(** C3, as the code has it. On a row whose cell for the action reads
    [failed_<date>_<time>] with a timestamp that parses to [Time], the
    delay being a [timedelta] and [Time + failed_retry_delay] seconds a
    [datetime], a call of [execute_action] that reads the clock at [now]
    returns [False] without running the action as long as
    [now < Time + failed_retry_delay] seconds, and from
    [now >= Time + failed_retry_delay] on, the port and parent tests
    passing, passes every test and dispatches the action. *)
Theorem failed_cooldown (a : Action) (ip : string) (ports : list string)
    (i : nat) (key d t : string) (Time : Z) (st : St) :
  PyStr.all_digits d = true -> PyStr.all_digits t = true ->
  strptime (d +:+ "_" +:+ t) = Some Time ->
  Z.abs (failed_retry_delay / 86400) <= 999999999 ->
  datetime_min <= Time + failed_retry_delay * 1000000 <= datetime_max ->
  row_at i st !! key = Some ("failed_" +:+ d +:+ "_" +:+ t) ->
  ((now (world st)).1 < Time + failed_retry_delay * 1000000 ->
     (execute_action a ip ports i key st).1 = Ok false /\
     quiet st (execute_action a ip ports i key st).2) /\
  (Time + failed_retry_delay * 1000000 <= (now (world st)).1 ->
     str_port (port a) ∈ ports -> parent_ok a (row_at i st) ->
     eligibility_gate a ports (row_at i st) key st
       = (Ok true, set_world (now (world st)).2 st) /\
     execute_action a ip ports i key st
       = dispatch a ip i key (set_world (now (world st)).2 st)).
Proof.
  intros Hd Ht Hp Hdelta Hrange Hcell.
  pose proof (retry_deadline_in_range _ _ Hdelta Hrange) as Hdl.
  pose proof (PyStrFacts.failed_cell_no_success d t Hd Ht) as Hns.
  pose proof (PyStrFacts.failed_cell_failed d t) as Hf.
  pose proof (PyStrFacts.split_status "failed" d t eq_refl Hd Ht) as Hsplit.
  assert (Hblock : forall st0 : St,
    retry_delay_block ("failed_" +:+ d +:+ "_" +:+ t) failed_retry_delay
      "failed" st0
    = if (now (world st0)).1 <? Time + failed_retry_delay * 1000000
      then (Ok true,
            emit (EvLog Warning
                    ("Skipping action due to " +:+ "failed" +:+ " retry delay"))
              (set_world (now (now (world st0)).2).2 st0))
      else (Ok false, set_world (now (world st0)).2 st0)).
  { intros st0. apply (retry_delay_block_parsed _ d t Time);
      [| |assumption|assumption].
    - change ("failed_" +:+ d +:+ "_" +:+ t)
        with ("failed" +:+ "_" +:+ d +:+ "_" +:+ t).
      rewrite Hsplit. reflexivity.
    - change ("failed_" +:+ d +:+ "_" +:+ t)
        with ("failed" +:+ "_" +:+ d +:+ "_" +:+ t).
      rewrite Hsplit. reflexivity. }
  split.
  - intros Hlt.
    pose proof (eligibility_gate_quiet a ports (row_at i st) key st) as Hq.
    unfold execute_action, bind, gets. cbn [fst snd].
    destruct (bool_decide (str_port (port a) ∈ ports)) eqn:Hport.
    + apply bool_decide_eq_true in Hport.
      destruct (truthy (b_parent_action a) &&
                negb (PyStr.contains "success"
                        (py_get (row_at i st)
                           (default "" (b_parent_action a))))) eqn:Hpar.
      * unfold eligibility_gate in *.
        rewrite (bool_decide_eq_true_2 _ Hport), Hpar in *. cbn [negb] in *.
        split; [reflexivity|exact Hq].
      * apply parent_test_false in Hpar.
        rewrite (eligibility_gate_not_success _ _ _ _ _ _ Hport Hpar Hcell Hns)
          in *.
        rewrite Hf in *. unfold bind in *. rewrite Hblock in *.
        apply Z.ltb_lt in Hlt. rewrite Hlt in *.
        split; [reflexivity|exact Hq].
    + unfold eligibility_gate in *. rewrite Hport in *. cbn [negb] in *.
      split; [reflexivity|exact Hq].
  - intros Hge Hport Hpar.
    assert (Hgate : eligibility_gate a ports (row_at i st) key st
                    = (Ok true, set_world (now (world st)).2 st)).
    { rewrite (eligibility_gate_not_success _ _ _ _ _ _ Hport Hpar Hcell Hns).
      rewrite Hf. unfold bind. rewrite Hblock.
      apply Z.ltb_ge in Hge. rewrite Hge. reflexivity. }
    split; [assumption|].
    unfold execute_action, bind, gets. cbn [fst snd].
    rewrite Hgate. reflexivity.
Qed.

End EligibilityClaims.

(** ** Concrete runs for C1-C3 *)

(** In a cycle over [fresh_row], [ActionX] succeeds and [ChildY] is then
    called on the row whose [ActionX] cell reads success. *)
Lemma child_dispatch_needs_parent_success_witness :
  PyStr.contains "success"
    (py_get (<["ActionX" := "success_20240101_000000"]> fresh_row) "ActionX")
  = true.
Proof.
  apply (@child_dispatch_needs_parent_success (Demo.demo_env false)
           [fresh_row] (Demo.init false t0 [] [ActionX; ChildY] [])
           (trace (@process_alive_ips (Demo.demo_env false) [fresh_row]
                     (Demo.init false t0 [] [ActionX; ChildY] [])).2)
           ChildY "10.0.0.1" "80"
           (<["ActionX" := "success_20240101_000000"]> fresh_row)
           "ActionY" "ActionX").
  - reflexivity.
  - apply (list_elem_of_lookup_2 _ 4%nat). vm_compute. reflexivity.
  - reflexivity.
  - discriminate.
Defined.

Lemma success_never_dispatched_again_witness :
  @execute_action (Demo.demo_env false) ActionX "10.0.0.1" ["80"] 0
    "ActionX" (Demo.init false t0 [done_row] [ActionX] [])
  = (Ok false, Demo.init false t0 [done_row] [ActionX] []).
Proof.
  apply (proj1 (@success_never_dispatched_again (Demo.demo_env false) eq_refl)
           ActionX "10.0.0.1" ["80"] 0%nat "ActionX"
           "success_20240101_000000").
  - vm_compute. reflexivity.
  - vm_compute. reflexivity.
Defined.

(** Thirty minutes after the failure, with a delay of one hour, the call
    returns [False]; one hour after, [ActionX] is dispatched. *)
Lemma failed_cooldown_witness :
  (@execute_action (Demo.demo_env false) ActionX "10.0.0.1" ["80"] 0
     "ActionX"
     (Demo.init false (t0 + 1800000000) [failed_row] [ActionX] [])).1
  = Ok false /\
  @execute_action (Demo.demo_env false) ActionX "10.0.0.1" ["80"] 0
    "ActionX"
    (Demo.init false (t0 + 3600000000) [failed_row] [ActionX] [])
  = @dispatch (Demo.demo_env false) ActionX "10.0.0.1" 0 "ActionX"
      (Demo.init false (t0 + 3601000000) [failed_row] [ActionX] []).
Proof.
  assert (Hdelta : Z.abs (3600 / 86400) <= 999999999)
    by (vm_compute; discriminate).
  assert (Hrange : datetime_min <= t0 + 3600 * 1000000 <= datetime_max)
    by (split; vm_compute; discriminate).
  split.
  - apply (proj1 (@failed_cooldown (Demo.demo_env false) ActionX
                    "10.0.0.1" ["80"] 0%nat "ActionX" "20240101" "000000" t0
                    (Demo.init false (t0 + 1800000000) [failed_row]
                       [ActionX] [])
                    eq_refl eq_refl eq_refl Hdelta Hrange eq_refl)).
    vm_compute. reflexivity.
  - apply (proj2 (@failed_cooldown (Demo.demo_env false) ActionX
                    "10.0.0.1" ["80"] 0%nat "ActionX" "20240101" "000000" t0
                    (Demo.init false (t0 + 3600000000) [failed_row]
                       [ActionX] [])
                    eq_refl eq_refl eq_refl Hdelta Hrange eq_refl)).
    + vm_compute. discriminate.
    + apply list_elem_of_here.
    + intros P HP. discriminate HP.
Defined.

(** C3 fails as stated: with a delay of 10^12 seconds the end of the
    cooldown of a failure of January 2024 lies beyond year 9999. Thirty
    minutes after the failure the clock reads less than
    [Time + failed_retry_delay] seconds, and the call does not return
    [False]: the sum of line 155 raises [OverflowError], which no handler
    of [execute_action] catches, and the cycle ends with it. *)
Lemma failed_cooldown_overflows :
  PyStr.all_digits "20240101" = true /\ PyStr.all_digits "000000" = true /\
  @strptime long_delay_env ("20240101" +:+ "_" +:+ "000000") = Some t0 /\
  row_at 0 long_delay_st !! "ActionX"
  = Some ("failed_" +:+ "20240101" +:+ "_" +:+ "000000") /\
  (@now long_delay_env (world long_delay_st)).1
  < t0 + @failed_retry_delay long_delay_env * 1000000 /\
  (@execute_action long_delay_env ActionX "10.0.0.1" ["80"] 0 "ActionX"
     long_delay_st).1 = Raise OverflowError /\
  (@process_alive_ips long_delay_env [failed_row] long_delay_st).1
  = Raise OverflowError.
Proof. repeat split; vm_compute; reflexivity. Qed.

(** ** Cycles over tables without live rows *)

Section DeadTable.

Context `{E : Env}.

Lemma top_level_rows_dead (a : Action) (rows : list nat) (st : St) :
  no_row_alive st ->
  Forall (fun i => (i < length (current_data st))%nat) rows ->
  top_level_rows a rows st = (Ok false, st).
Proof.
  intros Hdead Hrows. induction Hrows as [|i rest Hi _ IH]; [reflexivity|].
  destruct (lookup_lt_is_Some_2 _ _ Hi) as [row Hrow].
  destruct (Hdead i row Hrow) as (v & Hv & Hne).
  cbn [top_level_rows]. unfold bind at 1, gets. cbn [fst snd].
  unfold row_at. rewrite Hrow. cbn [default from_option id].
  unfold bind at 1, py_getitem at 1. rewrite Hv. cbn [ret].
  destruct (String.eqb_spec v "1"); [contradiction|]. exact IH.
Qed.

(** The first loop of [process_alive_ips] skips every row whose alive
    flag is not set: on a table without live rows it calls no plugin,
    changes nothing and reports no execution. *)
Lemma top_level_pass_dead (acts : list Action) (st : St) :
  no_row_alive st -> top_level_pass acts st = (Ok false, st).
Proof.
  intros Hdead. induction acts as [|a rest IH]; [reflexivity|].
  cbn [top_level_pass]. unfold bind at 1, gets. cbn [fst snd].
  unfold bind at 1. rewrite top_level_rows_dead; [|assumption|].
  - unfold bind. rewrite IH. reflexivity.
  - apply Forall_forall. intros i Hi%elem_of_seq. lia.
Qed.

End DeadTable.

(** C4 (the code departs from the claim). On a table whose only row is
    not alive, with registry [ActionX; ChildY], the second loop of
    [process_alive_ips] calls [ChildY] on the dead row, stamps its cell and
    the cycle reports an execution. *)
Theorem child_sweep_ignores_alive :
  @no_row_alive (Demo.demo_env false)
    (Demo.init false t0 [dead_row] [ActionX; ChildY] []) /\
  (@process_alive_ips (Demo.demo_env false) [dead_row]
     (Demo.init false t0 [dead_row] [ActionX; ChildY] [])).1 = Ok true /\
  trace
    (@process_alive_ips (Demo.demo_env false) [dead_row]
       (Demo.init false t0 [dead_row] [ActionX; ChildY] [])).2
  = [EvLog Info "Executing action";
     EvExecute ChildY "10.0.0.2" "80" dead_row "ActionY";
     EvWrite [<["ActionY" := "success_20240101_000000"]> dead_row]] /\
  current_data
    (@process_alive_ips (Demo.demo_env false) [dead_row]
       (Demo.init false t0 [dead_row] [ActionX; ChildY] [])).2
  = [<["ActionY" := "success_20240101_000000"]> dead_row].
Proof.
  split; [|split; [|split]].
  - intros [|i] row Hrow; [|destruct i; discriminate Hrow].
    injection Hrow as <-. exists "0". split; [reflexivity|discriminate].
  - vm_compute. reflexivity.
  - vm_compute. reflexivity.
  - vm_compute. reflexivity.
Qed.

(** ** Scenario A: a port-bound action and its standalone child *)

Section ScenarioA.

Context `{E : Env}.

Lemma scenario_A_load (st0 : St) (mX mY : PyModule) :
  actions st0 = [] -> standalone_actions st0 = [] ->
  import_module "mx" = Ok mX -> mod_construct mX "ActionX" = Some (Ok tt) ->
  import_module "my" = Ok mY -> mod_construct mY "ActionY" = Some (Ok tt) ->
  load_actions [cfgX; cfgY] st0
  = (Ok tt, set_standalone_actions [ActionY] (set_actions [ActionX] st0)).
Proof.
  intros Ha Hs HmX HcX HmY HcY.
  unfold load_actions, load_record, load_action, py_import_module,
    py_construct, try_except, bind, modify, ret. simpl.
  rewrite HmX. simpl. rewrite HcX. simpl. rewrite HmY. simpl.
  rewrite HcY. simpl. rewrite Ha, Hs. reflexivity.
Qed.

Lemma scenario_A_cycle (st1 : St) (T1 row' : Row) (ip : string) (w' : W) :
  actions st1 = [ActionX] ->
  T1 !! "Alive" = Some "1" -> T1 !! "IPs" = Some ip ->
  T1 !! "Ports" = Some "80" -> T1 !! "ActionX" = Some "" ->
  plugin_execute ActionX ip "80" T1 "ActionX" (world st1)
    = (Returned "success", row', w') ->
  process_alive_ips [T1] st1
  = (Ok true,
     set_bjornorch_status "ActionX"
       (recorded 0 "ActionX" true
          (called ActionX ip 0 "ActionX" row' w'
             (set_current_data [T1] st1)))).
Proof.
  intros Hacts HAlive HIPs HPorts HcellX Hx.
  assert (Hp : str_port (port ActionX) = "80") by (vm_compute; reflexivity).
  assert (Hsplit : PyStr.split ";" "80" = ["80"]) by (vm_compute; reflexivity).
  set (st2 := set_current_data [T1] st1).
  assert (Hgate : eligibility_gate ActionX ["80"] T1 "ActionX" st2
                  = (Ok true, st2)).
  { rewrite (eligibility_gate_not_success _ _ _ _ "" st2);
      [reflexivity|rewrite Hp; apply list_elem_of_here
      |intros P HP; discriminate HP|assumption|reflexivity]. }
  assert (Hexec : execute_action ActionX ip ["80"] 0 "ActionX" st2
                  = (Ok true,
                     recorded 0 "ActionX" true
                       (called ActionX ip 0 "ActionX" row' w' st2))).
  { unfold execute_action. erewrite bind_ok; [|reflexivity].
    change (row_at 0 st2) with T1. rewrite (bind_ok _ _ _ _ _ Hgate).
    apply (dispatch_returned ActionX ip 0 "ActionX" st2 "success" row' w').
    rewrite Hp. exact Hx. }
  unfold process_alive_ips.
  erewrite bind_ok; [|reflexivity]. fold st2.
  erewrite bind_ok; [|reflexivity].
  change (actions st2) with (actions st1). rewrite Hacts.
  cbn [top_level_pass].
  erewrite bind_ok; cycle 1.
  { erewrite bind_ok; [|reflexivity].
    erewrite bind_ok; cycle 1.
    { change (current_data st2) with [T1].
      cbn [length seq top_level_rows].
      erewrite bind_ok; [|reflexivity].
      change (row_at 0 st2) with T1.
      erewrite bind_ok; [|apply py_getitem_ok; exact HAlive].
      cbn [String.eqb Ascii.eqb Bool.eqb negb].
      erewrite bind_ok; [|apply py_getitem_ok; exact HIPs].
      erewrite bind_ok; [|apply py_getitem_ok; exact HPorts].
      rewrite Hsplit. cbn [b_parent_action action_name ActionX].
      erewrite bind_ok; [|exact Hexec]. cbv iota.
      erewrite bind_ok; [|reflexivity].
      erewrite bind_ok; cycle 1.
      { erewrite bind_ok; [|reflexivity].
        change (actions _) with (actions st1). rewrite Hacts.
        reflexivity. }
      reflexivity. }
    erewrite bind_ok; [|reflexivity]. reflexivity. }
  erewrite bind_ok; cycle 1.
  { cbn [child_sweep]. reflexivity. }
  reflexivity.
Qed.

(** C5, as the code has it. [load_actions] puts [ActionX] (port 80) in
    [actions] and [ActionY] (port 0) in [standalone_actions], which
    [process_alive_ips] never walks. On one live target with port 80 open
    and an empty status cell for [ActionX], [ActionX.execute] returning
    ['success'], one cycle calls [ActionX] once, stamps its cell
    [success_<t1>], writes the table and reports an execution; no other
    plugin is called. Nor is port 0 exempt from the port test: a call of
    [execute_action] for [ActionY] with ports that do not hold ["0"]
    returns [False]. *)
Theorem scenario_A_only_parent_runs (st0 : St) (mX mY : PyModule)
    (T1 row' : Row) (ip : string) (w' : W) :
  actions st0 = [] -> standalone_actions st0 = [] ->
  import_module "mx" = Ok mX -> mod_construct mX "ActionX" = Some (Ok tt) ->
  import_module "my" = Ok mY -> mod_construct mY "ActionY" = Some (Ok tt) ->
  T1 !! "Alive" = Some "1" -> T1 !! "IPs" = Some ip ->
  T1 !! "Ports" = Some "80" -> T1 !! "ActionX" = Some "" ->
  plugin_execute ActionX ip "80" T1 "ActionX" (world st0)
    = (Returned "success", row', w') ->
  (load_actions [cfgX; cfgY] st0).1 = Ok tt /\
  actions (load_actions [cfgX; cfgY] st0).2 = [ActionX] /\
  standalone_actions (load_actions [cfgX; cfgY] st0).2 = [ActionY] /\
  (process_alive_ips [T1] (load_actions [cfgX; cfgY] st0).2).1 = Ok true /\
  trace (process_alive_ips [T1] (load_actions [cfgX; cfgY] st0).2).2
    = trace st0 ++
      [EvLog Info "Executing action";
       EvExecute ActionX ip "80" T1 "ActionX";
       EvWrite [<["ActionX" := "success_" +:+ strftime (now w').1]> row']] /\
  current_data (process_alive_ips [T1] (load_actions [cfgX; cfgY] st0).2).2
    = [<["ActionX" := "success_" +:+ strftime (now w').1]> row'] /\
  (forall (ports : list string) (i : nat) (st : St),
      "0" ∉ ports ->
      execute_action ActionY ip ports i "ActionY" st = (Ok false, st)).
Proof.
  intros Ha Hs HmX HcX HmY HcY HAlive HIPs HPorts HcellX Hx.
  assert (Hp : str_port (port ActionX) = "80") by (vm_compute; reflexivity).
  assert (Hp0 : str_port (port ActionY) = "0") by (vm_compute; reflexivity).
  rewrite (scenario_A_load st0 mX mY) by assumption. cbn [fst snd].
  rewrite (scenario_A_cycle _ T1 row' ip w') by (reflexivity || assumption).
  cbn [fst snd].
  repeat (split; [reflexivity|]). split; [|split; [reflexivity|]].
  - unfold recorded, called, calling. rewrite Hp.
    cbn [trace emit set_world set_current_data set_bjornorch_status
         set_bjornstatustext2 set_standalone_actions set_actions current_data].
    rewrite <- !app_assoc. reflexivity.
  - intros ports i st Hports. apply port_mismatch_returns_false.
    rewrite Hp0. exact Hports.
Qed.

End ScenarioA.

(** C5 fails as stated. With the registry of the scenario loaded, one
    cycle over the live target with port 80 and empty status cells calls
    [ActionX] only: [ActionY] is not dispatched and its cell stays empty.
    On the target without any status cell the cycle raises [KeyError] and
    calls no plugin at all. *)
Lemma scenario_A_child_not_dispatched :
  ~ dispatched ActionY
      (trace (@process_alive_ips (Demo.demo_env false) [fresh_row]
                (@load_actions (Demo.demo_env false) [cfgX; cfgY] blank).2).2) /\
  current_data
    (@process_alive_ips (Demo.demo_env false) [fresh_row]
       (@load_actions (Demo.demo_env false) [cfgX; cfgY] blank).2).2
  = [<["ActionX" := "success_20240101_000000"]> fresh_row] /\
  (@process_alive_ips (Demo.demo_env false) [bare_row]
     (@load_actions (Demo.demo_env false) [cfgX; cfgY] blank).2).1
  = Raise (KeyError "ActionX") /\
  trace
    (@process_alive_ips (Demo.demo_env false) [bare_row]
       (@load_actions (Demo.demo_env false) [cfgX; cfgY] blank).2).2
  = [].
Proof.
  split; [|split; [|split]].
  - assert (Htr :
      trace (@process_alive_ips (Demo.demo_env false) [fresh_row]
               (@load_actions (Demo.demo_env false) [cfgX; cfgY] blank).2).2
      = [EvLog Info "Executing action";
         EvExecute ActionX "10.0.0.1" "80" fresh_row "ActionX";
         EvWrite [<["ActionX" := "success_20240101_000000"]> fresh_row]])
      by (vm_compute; reflexivity).
    rewrite Htr. intros (ip & p & row & key & Hin).
    repeat (apply elem_of_cons in Hin as [Hin|Hin]; [discriminate Hin|]).
    apply elem_of_nil in Hin. exact Hin.
  - vm_compute. reflexivity.
  - vm_compute. reflexivity.
  - vm_compute. reflexivity.
Qed.

Lemma scenario_A_only_parent_runs_witness :
  (@process_alive_ips (Demo.demo_env false) [fresh_row]
     (@load_actions (Demo.demo_env false) [cfgX; cfgY] blank).2).1 = Ok true /\
  trace
    (@process_alive_ips (Demo.demo_env false) [fresh_row]
       (@load_actions (Demo.demo_env false) [cfgX; cfgY] blank).2).2
  = [EvLog Info "Executing action";
     EvExecute ActionX "10.0.0.1" "80" fresh_row "ActionX";
     EvWrite [<["ActionX" := "success_" +:+ Demo.demo_strftime t0]> fresh_row]].
Proof.
  pose proof (@scenario_A_only_parent_runs (Demo.demo_env false) blank
                (mkPyModule (Some "ActionX")
                   (fun c => if String.eqb c "ActionX" then Some (Ok tt)
                             else None))
                (mkPyModule (Some "ActionY")
                   (fun c => if String.eqb c "ActionY" then Some (Ok tt)
                             else None))
                fresh_row fresh_row "10.0.0.1" (Demo.mkWorld t0 [])
                eq_refl eq_refl eq_refl eq_refl eq_refl eq_refl)
    as H.
  destruct H as (_ & _ & _ & Hres & Htr & _ & _);
    try (vm_compute; reflexivity).
  split; [exact Hres|exact Htr].
Defined.

(** ** Plugins that raise *)

Section DispatchClaims.

Context `{E : Env}.

(** C6, as the code has it. When a row has passed the tests of
    [execute_action] and [action.execute] raises an exception [e] that is
    an instance of [Exception] (what [except Exception] of line 174
    catches), the call of [execute_action] returns [False] instead of
    raising, the cell of the action in the row reads [failed_<now>] for
    the clock reading made after the exception, and the whole table,
    with that cell, is written once, as the last step. *)
Theorem action_exception_recorded_as_failed (a : Action) (ip : string)
    (ports : list string) (i : nat) (key : string) (st st1 : St) (e : exn)
    (row' : Row) (w' : W) :
  eligibility_gate a ports (row_at i st) key st = (Ok true, st1) ->
  plugin_execute a ip (str_port (port a)) (row_at i st1) key (world st1)
    = (Raised e, row', w') ->
  is_Exception e = true ->
  (i < length (current_data st1))%nat ->
  (execute_action a ip ports i key st).1 = Ok false /\
  current_data (execute_action a ip ports i key st).2
    = <[i := <[key := "failed_" +:+ strftime (now w').1]> row']>
        (current_data st1) /\
  trace (execute_action a ip ports i key st).2
    = trace st1 ++
      [EvLog Info "Executing action";
       EvExecute a ip (str_port (port a)) (row_at i st1) key;
       EvLog Error "Action failed";
       EvWrite (current_data (execute_action a ip ports i key st).2)] /\
  world (execute_action a ip ports i key st).2
    = write_data (current_data (execute_action a ip ports i key st).2)
        (now w').2.
Proof.
  intros Hgate Hx He Hi.
  assert (Hrun : execute_action a ip ports i key st
                 = (Ok false,
                    recorded i key false
                      (emit (EvLog Error "Action failed")
                         (called a ip i key row' w' st1)))).
  { unfold execute_action. erewrite bind_ok; [|reflexivity].
    rewrite (bind_ok _ _ _ _ _ Hgate).
    rewrite (dispatch_raised a ip i key st1 e row' w' Hx), He.
    reflexivity. }
  rewrite Hrun. cbn [fst snd].
  assert (Hdata : current_data
                    (recorded i key false
                       (emit (EvLog Error "Action failed")
                          (called a ip i key row' w' st1)))
                  = <[i := <[key := "failed_" +:+ strftime (now w').1]> row']>
                      (current_data st1)).
  { unfold recorded, called, calling, row_at.
    cbn [current_data world emit set_world set_current_data
         set_bjornstatustext2].
    rewrite list_lookup_insert_eq by assumption.
    cbn [default from_option id]. apply list_insert_insert_eq. }
  split; [reflexivity|]. split; [exact Hdata|]. split.
  - rewrite recorded_trace. rewrite Hdata.
    unfold called, calling.
    cbn [trace emit set_world set_current_data set_bjornstatustext2].
    rewrite <- !app_assoc. reflexivity.
  - reflexivity.
Qed.

End DispatchClaims.

Lemma action_exception_recorded_as_failed_witness :
  (@execute_action (Demo.demo_env false) Crasher "10.0.0.1" ["80"] 0
     "Crasher" (Demo.init false t0 [crash_row] [Crasher] [])).1 = Ok false /\
  current_data
    (@execute_action (Demo.demo_env false) Crasher "10.0.0.1" ["80"] 0
       "Crasher" (Demo.init false t0 [crash_row] [Crasher] [])).2
  = <[0%nat := <["Crasher" := "failed_" +:+ Demo.demo_strftime t0]> crash_row]>
      [crash_row].
Proof.
  pose proof (@action_exception_recorded_as_failed (Demo.demo_env false)
                Crasher "10.0.0.1" ["80"] 0%nat "Crasher"
                (Demo.init false t0 [crash_row] [Crasher] [])
                (Demo.init false t0 [crash_row] [Crasher] [])
                (OtherException "RuntimeError") crash_row
                (Demo.mkWorld t0 [crash_row])) as H.
  destruct H as (Hres & Hdata & _).
  - rewrite (@eligibility_gate_not_success (Demo.demo_env false) Crasher
               ["80"] _ "Crasher" "");
      [reflexivity
      |apply (list_elem_of_lookup_2 _ 0%nat); vm_compute; reflexivity
      |intros P HP; discriminate HP
      |vm_compute; reflexivity
      |reflexivity].
  - vm_compute. reflexivity.
  - reflexivity.
  - simpl. lia.
  - split; [exact Hres|exact Hdata].
Defined.

(** C6 fails as stated: a plugin that raises [SystemExit], which is no
    instance of [Exception], is called on [fresh_row]; the exception
    leaves [execute_action] and the cycle, the cell is not stamped and
    the table is not written. *)
Lemma system_exit_leaves_cycle :
  (@execute_action exit_env ActionX "10.0.0.1" ["80"] 0 "ActionX" exit_st).1
  = Raise SystemExit /\
  trace
    (@execute_action exit_env ActionX "10.0.0.1" ["80"] 0 "ActionX" exit_st).2
  = [EvLog Info "Executing action";
     EvExecute ActionX "10.0.0.1" "80" fresh_row "ActionX"] /\
  current_data
    (@execute_action exit_env ActionX "10.0.0.1" ["80"] 0 "ActionX" exit_st).2
  = [fresh_row] /\
  (@process_alive_ips exit_env [fresh_row] exit_st).1 = Raise SystemExit.
Proof. repeat split; vm_compute; reflexivity. Qed.

(** ** Idle remediation *)

Section IdleFacts.

Context `{E : Env}.

(** The [while True] loop of [switch_network_if_idle] never returns,
    whatever the fuel. *)
Lemma switch_network_loop_never_returns (fuel : nat)
    (credentials : list Network) (st : St) :
  not_returned (switch_network_loop fuel credentials st).1.
Proof.
  revert st. induction fuel as [|fuel IH]; intros st; [left; reflexivity|].
  cbn [switch_network_loop]. unfold fbind, lift.
  destruct (idle_poll credentials st) as [[[]|e] st'].
  - apply IH.
  - right. exists e. reflexivity.
Qed.

Lemma switch_network_if_idle_never_returns (fuel : nat) (st : St) :
  not_returned (switch_network_if_idle fuel st).1.
Proof.
  unfold switch_network_if_idle, fbind, lift.
  destruct (load_wifi_credentials (world st)) as [c w].
  apply switch_network_loop_never_returns.
Qed.

Lemma event_ok_not_idle_recovery (ev : Event) :
  event_ok ev -> not_idle_recovery ev.
Proof. intros H ->. exact H. Qed.

Lemma steps_run {A} (R : relation St) (m : M A) (st st' : St) (r : Res A) :
  steps R m -> m st = (r, st') -> R st st'.
Proof. intros Hm Hrun. specialize (Hm st). rewrite Hrun in Hm. exact Hm. Qed.

Lemma cycle_not_idle_recovery :
  steps (emits not_idle_recovery)
    (let* current_data := py_read_data in process_alive_ips current_data).
Proof.
  apply steps_bind; [typeclasses eauto| |].
  - intros st. unfold py_read_data. destruct (read_data (world st)).
    apply emits_same. reflexivity.
  - intros d st. eapply emits_weaken; [apply event_ok_not_idle_recovery|].
    apply process_alive_ips_event_ok.
Qed.

Lemma py_sleep_not_idle_recovery (seconds : Z) :
  steps (emits not_idle_recovery) (py_sleep seconds).
Proof.
  intros st. eapply emits_one; [|reflexivity]. discriminate.
Qed.

Lemma log_not_idle_recovery (lvl : LogLevel) (msg : string) :
  steps (emits not_idle_recovery) (log lvl msg).
Proof.
  intros st. eapply emits_one; [|reflexivity]. discriminate.
Qed.

Lemma network_scanner_scan_not_idle_recovery :
  steps (emits not_idle_recovery) network_scanner_scan.
Proof.
  intros st. unfold network_scanner_scan, bind, gets, modify, raise.
  cbn [fst snd]. destruct (network_scanner st); cbn [snd].
  - eapply emits_one; [|reflexivity]. discriminate.
  - reflexivity.
Qed.

End IdleFacts.

Section OuterLoopClaims.

Context `{E : Env}.

(** An iteration of the outer loop that returns has not started idle
    remediation. *)
Lemma run_iteration_returned (fuel : nat) (st : St) :
  (run_iteration fuel st).1 = Some (Ok tt) ->
  emits not_idle_recovery st (run_iteration fuel st).2.
Proof.
  destruct (run_iteration fuel st) as [r st'] eqn:Hrun. cbn [fst snd].
  intros ->. revert Hrun.
  unfold run_iteration. unfold fbind at 1. unfold lift at 1.
  destruct ((let* current_data := py_read_data in process_alive_ips current_data) st)
    as [[any|e] st1] eqn:Hc1; [|discriminate].
  pose proof (steps_run _ _ _ _ _ cycle_not_idle_recovery Hc1) as H1.
  destruct any; cbn [negb].
  - unfold lift, modify. intros [= <-].
    etransitivity; [exact H1|]. apply emits_same. reflexivity.
  - unfold fbind at 1. unfold lift at 1.
    destruct ((modify (set_bjornorch_status "IDLE");;
               modify (set_bjornstatustext2 "");;
               log Info "No available targets. Running network scan...";;
               gets network_scanner) st1) as [[scanner|e] st2] eqn:Hb;
      [|discriminate].
    assert (H2 : emits not_idle_recovery st1 st2).
    { eapply steps_run; [|exact Hb].
      repeat (apply steps_bind; [typeclasses eauto| |intros ?]);
        try (apply steps_modify; intros ?; apply emits_same; reflexivity);
        try apply log_not_idle_recovery. }
    destruct scanner as [scanner|].
    + unfold fbind at 1 2. unfold lift at 1.
      destruct ((modify (set_bjornorch_status "NetworkScanner");;
                 network_scanner_scan;;
                 let* current_data := py_read_data in
                 process_alive_ips current_data) st2)
        as [[any2|e] st3] eqn:Hc2; [|discriminate].
      assert (H3 : emits not_idle_recovery st2 st3).
      { eapply steps_run; [|exact Hc2].
        apply steps_bind; [typeclasses eauto| |intros ?].
        - apply steps_modify. intros ?. apply emits_same. reflexivity.
        - apply steps_bind; [typeclasses eauto| |intros ?].
          + apply network_scanner_scan_not_idle_recovery.
          + apply cycle_not_idle_recovery. }
      destruct any2; cbn [negb].
      * unfold lift, ret, py_sleep, modify. intros [= <-].
        etransitivity; [exact H1|]. etransitivity; [exact H2|].
        etransitivity; [exact H3|].
        eapply emits_one; [|reflexivity]. discriminate.
      * unfold fbind at 1. unfold lift at 1.
        destruct ((log Info "Bjorn is idle, starting Wi-Fi switch if available.";;
                   modify (set_bjornorch_status "idle_action")) st3)
          as [[[]|e] st4]; [|discriminate].
        pose proof (switch_network_if_idle_never_returns fuel st4) as Hsw.
        destruct (switch_network_if_idle fuel st4) as [r st5].
        destruct Hsw as [Hsw|[e Hsw]]; cbn [fst] in Hsw; subst r; discriminate.
    + unfold fbind, lift, log, py_sleep, modify. intros [= <-].
      etransitivity; [exact H1|]. etransitivity; [exact H2|].
      eexists. split; [cbn [trace emit set_world]; rewrite <- app_assoc; reflexivity|].
      repeat constructor; discriminate.
Qed.

(** C7 (the code departs from the claim). An iteration of the outer loop
    in which idle remediation is started never comes back from it: for
    every amount of fuel the iteration is still running, or it raised.
    Neither the sleep of [scan_interval] seconds nor the next test of the
    shutdown flag is reached. *)
Theorem idle_remediation_never_returns (fuel : nat) (st : St)
    (evs : list Event) :
  trace (run_iteration fuel st).2 = trace st ++ evs ->
  EvIdleRecovery ∈ evs ->
  not_returned (run_iteration fuel st).1.
Proof.
  intros Htr Hin.
  destruct (run_iteration fuel st).1 as [[[]|e]|] eqn:Hres.
  - exfalso. destruct (run_iteration_returned fuel st Hres) as (evs' & Htr' & Hq).
    rewrite Htr in Htr'. apply app_inv_head in Htr'. subst evs'.
    rewrite Forall_forall in Hq. exact (Hq _ Hin eq_refl).
  - right. exists e. reflexivity.
  - left. reflexivity.
Qed.

End OuterLoopClaims.

(** The iteration over the empty table with fuel for three turns of the
    polling loop: two cycles without execution, idle remediation starts,
    polls three times, sleeping [CHECK_INTERVAL] seconds each time, and is
    still polling; the sleep of [scan_interval] (180) seconds is not
    reached. *)
Lemma idle_iteration_trace :
  (@run_iteration (Demo.demo_env false) 3 idle_st).1 = None /\
  trace (@run_iteration (Demo.demo_env false) 3 idle_st).2
  = [EvLog Info "No available targets. Running network scan...";
     EvScan;
     EvLog Info "Bjorn is idle, starting Wi-Fi switch if available.";
     EvIdleRecovery;
     EvLog Info "Bjorn is idle. Scanning for known networks...";
     EvSleep 60;
     EvLog Info "Bjorn is idle. Scanning for known networks...";
     EvSleep 60;
     EvLog Info "Bjorn is idle. Scanning for known networks...";
     EvSleep 60].
Proof. split; vm_compute; reflexivity. Qed.

Lemma idle_remediation_never_returns_witness :
  not_returned (@run_iteration (Demo.demo_env false) 3 idle_st).1.
Proof.
  apply (@idle_remediation_never_returns (Demo.demo_env false) 3%nat idle_st
           (trace (@run_iteration (Demo.demo_env false) 3 idle_st).2)).
  - reflexivity.
  - apply (list_elem_of_lookup_2 _ 3%nat). vm_compute. reflexivity.
Defined.

(** ** Status cells whose timestamp does not parse *)

Section CorruptCells.

Context `{E : Env}.

(** C8, as the code has it. On a row that passes the port and parent
    tests and whose cell holds ['failed'] and not ['success'], or holds
    ['success'] while successes are retried, followed by two further
    fields that [strptime] rejects, [execute_action] logs the parse
    error, applies no retry delay and runs the action: after the error
    log comes the log line of line 164 and the call of the plugin on the
    row. The tests themselves raise nothing: whatever the call raises
    comes from the plugin and is no instance of [Exception]. *)
Theorem unparsable_timestamp_not_skipped (a : Action) (ip : string)
    (ports : list string) (i : nat) (key cell d t : string) (st : St) :
  row_at i st !! key = Some cell ->
  PyStr.split "_" cell !! 1%nat = Some d ->
  PyStr.split "_" cell !! 2%nat = Some t ->
  strptime (d +:+ "_" +:+ t) = None ->
  str_port (port a) ∈ ports -> parent_ok a (row_at i st) ->
  (PyStr.contains "success" cell = false /\
   PyStr.contains "failed" cell = true) \/
  (PyStr.contains "success" cell = true /\ retry_success_actions = true) ->
  exists st1,
    eligibility_gate a ports (row_at i st) key st = (Ok true, st1) /\
    quiet st st1 /\ world st1 = world st /\
    (exists what, last (trace st1)
       = Some (EvLog Error ("Error parsing last " +:+ what +:+ " time"))) /\
    (exists evs,
       trace (execute_action a ip ports i key st).2
       = trace st1 ++
         EvLog Info "Executing action"
           :: EvExecute a ip (str_port (port a)) (row_at i st) key :: evs) /\
    (forall e, (execute_action a ip ports i key st).1 = Raise e ->
               is_Exception e = false).
Proof.
  intros Hcell Hd Ht Hp Hport Hpar Htag.
  assert (Hgate : exists st1,
    eligibility_gate a ports (row_at i st) key st = (Ok true, st1) /\
    world st1 = world st /\
    exists what, last (trace st1)
       = Some (EvLog Error ("Error parsing last " +:+ what +:+ " time"))).
  { destruct Htag as [[Hs Hf]|[Hs Hr]].
    - rewrite (eligibility_gate_not_success _ _ _ _ _ _ Hport Hpar Hcell Hs).
      rewrite Hf. unfold bind.
      rewrite (retry_delay_block_unparsed _ _ _ _ _ _ Hd Ht Hp).
      eexists. split; [reflexivity|]. split; [reflexivity|].
      exists "failed". cbn [trace emit]. apply last_snoc.
    - rewrite (eligibility_gate_success_retry _ _ _ _ _ _ Hport Hpar Hcell Hs Hr).
      unfold bind at 1.
      rewrite (retry_delay_block_unparsed _ _ _ _ _ _ Hd Ht Hp).
      destruct (PyStr.contains "failed" cell).
      + unfold bind.
        rewrite (retry_delay_block_unparsed _ _ _ _ _ _ Hd Ht Hp).
        eexists. split; [reflexivity|]. split; [reflexivity|].
        exists "failed". cbn [trace emit]. apply last_snoc.
      + eexists. split; [reflexivity|]. split; [reflexivity|].
        exists "success". cbn [trace emit]. apply last_snoc. }
  destruct Hgate as (st1 & Hgate & Hw & Hlog).
  assert (Hquiet : quiet st st1).
  { eapply steps_run; [apply eligibility_gate_quiet|exact Hgate]. }
  assert (Hrun : execute_action a ip ports i key st = dispatch a ip i key st1).
  { unfold execute_action. erewrite bind_ok; [|reflexivity].
    rewrite (bind_ok _ _ _ _ _ Hgate). reflexivity. }
  assert (Hrow : row_at i st1 = row_at i st).
  { destruct Hquiet as [Hdata _]. unfold row_at. rewrite Hdata. reflexivity. }
  exists st1. split; [exact Hgate|].
  split; [exact Hquiet|]. split; [exact Hw|]. split; [exact Hlog|].
  rewrite Hrun. split.
  - rewrite <- Hrow. apply dispatch_calls_plugin.
  - intros e. apply dispatch_result.
Qed.

End CorruptCells.

(** C8 fails as stated: on [corrupt_row] the error is logged and
    [ActionX] is executed all the same, its cell rewritten; on
    [truncated_row] the call raises [IndexError]. *)
Lemma corrupt_timestamp_not_skipped :
  (@execute_action (Demo.demo_env false) ActionX "10.0.0.1" ["80"] 0
     "ActionX" (Demo.init false t0 [corrupt_row] [ActionX] [])).1 = Ok true /\
  trace
    (@execute_action (Demo.demo_env false) ActionX "10.0.0.1" ["80"] 0
       "ActionX" (Demo.init false t0 [corrupt_row] [ActionX] [])).2
  = [EvLog Error "Error parsing last failed time";
     EvLog Info "Executing action";
     EvExecute ActionX "10.0.0.1" "80" corrupt_row "ActionX";
     EvWrite [<["ActionX" := "success_20240101_000000"]> corrupt_row]] /\
  (@execute_action (Demo.demo_env false) ActionX "10.0.0.1" ["80"] 0
     "ActionX" (Demo.init false t0 [truncated_row] [ActionX] [])).1
  = Raise IndexError.
Proof. repeat split; vm_compute; reflexivity. Qed.

Lemma unparsable_timestamp_not_skipped_witness :
  exists st1,
    @eligibility_gate (Demo.demo_env false) ActionX ["80"] corrupt_row
      "ActionX" (Demo.init false t0 [corrupt_row] [ActionX] [])
    = (Ok true, st1) /\
    exists evs,
      trace
        (@execute_action (Demo.demo_env false) ActionX "10.0.0.1" ["80"] 0
           "ActionX" (Demo.init false t0 [corrupt_row] [ActionX] [])).2
      = trace st1 ++
        EvLog Info "Executing action"
          :: EvExecute ActionX "10.0.0.1" "80" corrupt_row "ActionX" :: evs.
Proof.
  destruct (@unparsable_timestamp_not_skipped (Demo.demo_env false) ActionX
              "10.0.0.1" ["80"] 0%nat "ActionX" "failed_xx_yy" "xx" "yy"
              (Demo.init false t0 [corrupt_row] [ActionX] []))
    as (st1 & Hgate & _ & _ & _ & Hrun & _).
  - vm_compute. reflexivity.
  - reflexivity.
  - reflexivity.
  - reflexivity.
  - apply (list_elem_of_lookup_2 _ 0%nat). vm_compute. reflexivity.
  - intros P HP. discriminate HP.
  - left. split; reflexivity.
  - exists st1. split; [exact Hgate|exact Hrun].
Defined.

(** ** Rows without a status cell *)

Section AbsentCells.

Context `{E : Env}.

(** C9 (the code departs from the claim). On a row that has no cell for
    the action and passes the port and parent tests, [execute_action]
    raises [KeyError] at [row[action_key]] (line 137); nothing is logged,
    nothing is run. Line 151 reads the same cell with
    [row.get(action_key, "")], which does not raise. *)
Theorem absent_cell_raises (a : Action) (ip : string) (ports : list string)
    (i : nat) (key : string) (st : St) :
  row_at i st !! key = None ->
  str_port (port a) ∈ ports -> parent_ok a (row_at i st) ->
  execute_action a ip ports i key st = (Raise (KeyError key), st).
Proof.
  intros Hcell Hport Hpar.
  unfold execute_action. erewrite bind_ok; [|reflexivity].
  erewrite bind_raise; [reflexivity|].
  unfold eligibility_gate.
  rewrite (bool_decide_eq_true_2 _ Hport), (parent_test_true _ _ Hpar).
  cbn [negb]. erewrite bind_raise; [reflexivity|].
  apply py_getitem_missing. exact Hcell.
Qed.

End AbsentCells.

Lemma absent_cell_raises_witness :
  @execute_action (Demo.demo_env false) ActionX "10.0.0.1" ["80"] 0 "ActionX"
    (Demo.init false t0 [bare_row] [ActionX] [])
  = (Raise (KeyError "ActionX"), Demo.init false t0 [bare_row] [ActionX] []).
Proof.
  apply (@absent_cell_raises (Demo.demo_env false) ActionX "10.0.0.1" ["80"]
           0%nat "ActionX" (Demo.init false t0 [bare_row] [ActionX] [])).
  - vm_compute. reflexivity.
  - apply (list_elem_of_lookup_2 _ 0%nat). vm_compute. reflexivity.
  - intros P HP. discriminate HP.
Defined.

(** The cycle over the target without status cells ends with the
    [KeyError]: no plugin is called, nothing is written. *)
Lemma absent_cell_cycle_raises :
  (@process_alive_ips (Demo.demo_env false) [bare_row]
     (Demo.init false t0 [bare_row] [ActionX] [])).1
  = Raise (KeyError "ActionX") /\
  trace (@process_alive_ips (Demo.demo_env false) [bare_row]
           (Demo.init false t0 [bare_row] [ActionX] [])).2 = [].
Proof. split; vm_compute; reflexivity. Qed.

(** ** Registry records that cannot be loaded *)

Section LoadingClaims.

Context `{E : Env}.

Lemma load_actions_app (l1 l2 : list ActionConfig) (st : St) :
  load_actions (l1 ++ l2) st = (load_actions l1 ;; load_actions l2) st.
Proof.
  revert st. induction l1 as [|c l1 IH]; intros st; [reflexivity|].
  cbn [app load_actions]. unfold bind.
  destruct (load_record c st) as [[[]|e] st1]; [|reflexivity].
  rewrite IH. reflexivity.
Qed.

(** A record whose module imports and has no attribute of the name given
    as [b_class]: the [AttributeError] is caught, an error is logged. *)
Lemma load_record_unknown_class (bad : ActionConfig) (module_name c : string)
    (m : PyModule) (st : St) :
  cfg_b_module bad = Some module_name ->
  module_name <> "scanning" -> module_name <> "nmap_vuln_scanner" ->
  import_module module_name = Ok m ->
  cfg_b_class bad = Some c -> mod_construct m c = None ->
  load_record bad st
  = (Ok tt, emit (EvLog Error "Module is missing required attributes") st).
Proof.
  intros Hm Hs Hn Himp Hc Hmiss.
  unfold load_record. rewrite Hm. erewrite bind_ok; [|reflexivity].
  destruct (String.eqb_spec module_name "scanning"); [contradiction|].
  destruct (String.eqb_spec module_name "nmap_vuln_scanner"); [contradiction|].
  unfold load_action, py_import_module. rewrite Himp.
  erewrite bind_ok; [|reflexivity].
  unfold try_except, bind, py_construct, ret, raise. rewrite Hc.
  cbv beta iota. rewrite Hmiss. reflexivity.
Qed.

(** A record whose module does not import: the exception of
    [import_module], raised outside the [try] block of [load_action],
    ends [load_actions] before the records that follow. *)
Lemma load_actions_unknown_module (bad : ActionConfig)
    (post : list ActionConfig) (module_name : string) (e : exn) (st : St) :
  cfg_b_module bad = Some module_name ->
  module_name <> "scanning" -> module_name <> "nmap_vuln_scanner" ->
  import_module module_name = Raise e ->
  load_actions (bad :: post) st = (Raise e, st).
Proof.
  intros Hm Hs Hn Himp. cbn [load_actions].
  erewrite bind_raise; [reflexivity|].
  unfold load_record. rewrite Hm. erewrite bind_ok; [|reflexivity].
  destruct (String.eqb_spec module_name "scanning"); [contradiction|].
  destruct (String.eqb_spec module_name "nmap_vuln_scanner"); [contradiction|].
  unfold load_action, py_import_module. rewrite Himp. reflexivity.
Qed.

(** C10, as the code has it. A record whose module imports but lacks the
    class it names is skipped with an error in the log; the records
    before and after it are loaded as they would be one after the other. *)
Theorem unknown_class_skipped (pre post : list ActionConfig)
    (bad : ActionConfig) (module_name c : string) (m : PyModule) (st : St) :
  cfg_b_module bad = Some module_name ->
  module_name <> "scanning" -> module_name <> "nmap_vuln_scanner" ->
  import_module module_name = Ok m ->
  cfg_b_class bad = Some c -> mod_construct m c = None ->
  load_actions (pre ++ bad :: post) st
  = (load_actions pre ;;
     log Error "Module is missing required attributes" ;;
     load_actions post) st.
Proof.
  intros Hm Hs Hn Himp Hc Hmiss.
  rewrite load_actions_app. unfold bind.
  destruct (load_actions pre st) as [[[]|e] st1]; [|reflexivity].
  cbn [load_actions]. unfold bind.
  rewrite (load_record_unknown_class bad module_name c m st1) by assumption.
  reflexivity.
Qed.

End LoadingClaims.

(** C10 fails as stated for an unknown module: the import error leaves
    [load_actions], nothing is logged and the record after it is not
    loaded. *)
Lemma unknown_module_aborts_loading :
  (@load_actions (Demo.demo_env false) [cfg_unknown_module; cfgX] blank).1
  = Raise ModuleNotFoundError /\
  actions (@load_actions (Demo.demo_env false) [cfg_unknown_module; cfgX]
             blank).2 = [] /\
  trace (@load_actions (Demo.demo_env false) [cfg_unknown_module; cfgX]
           blank).2 = [].
Proof. repeat split; vm_compute; reflexivity. Qed.

Lemma unknown_class_skipped_witness :
  actions (@load_actions (Demo.demo_env false)
             [cfgX; cfg_unknown_class; cfgY] blank).2 = [ActionX] /\
  standalone_actions (@load_actions (Demo.demo_env false)
                        [cfgX; cfg_unknown_class; cfgY] blank).2 = [ActionY] /\
  trace (@load_actions (Demo.demo_env false)
           [cfgX; cfg_unknown_class; cfgY] blank).2
  = [EvLog Error "Module is missing required attributes"].
Proof.
  change [cfgX; cfg_unknown_class; cfgY]
    with ([cfgX] ++ cfg_unknown_class :: [cfgY]).
  rewrite (@unknown_class_skipped (Demo.demo_env false) [cfgX] [cfgY]
             cfg_unknown_class "mx" "Missing"
             (mkPyModule (Some "ActionX")
                (fun c => if String.eqb c "ActionX" then Some (Ok tt)
                          else None))
             blank eq_refl).
  - repeat split; vm_compute; reflexivity.
  - discriminate.
  - discriminate.
  - reflexivity.
  - reflexivity.
  - reflexivity.
Defined.

(** * Further properties *)

(** ** More on strings *)

Module PyStrMore.
Import PyStr PyStrFacts.

(** A success cell with digit fields holds no ['failed']. *)
Lemma success_cell_no_failed (d t : string) :
  all_digits d = true -> all_digits t = true ->
  contains "failed" ("success_" +:+ d +:+ "_" +:+ t) = false.
Proof.
  intros Hd Ht.
  destruct (contains "failed" _) eqn:Hc; [|reflexivity].
  apply contains_has_char in Hc.
  rewrite !has_char_app in Hc.
  rewrite (all_digits_has_char "f" d), (all_digits_has_char "f" t) in Hc
    by (reflexivity || assumption).
  discriminate Hc.
Qed.

Lemma success_cell_success (d t : string) :
  contains "success" ("success_" +:+ d +:+ "_" +:+ t) = true.
Proof.
  change ("success_" +:+ d +:+ "_" +:+ t)
    with ("success" +:+ ("_" +:+ d +:+ "_" +:+ t)).
  apply contains_prefix.
Qed.

(** The two fields after the tag of a status cell, joined again, are the
    timestamp the cell was built from. *)
Lemma split_rejoin (tag d t : string) :
  has_char "_" tag = false -> all_digits d = true -> all_digits t = true ->
  split "_" (tag +:+ "_" +:+ d +:+ "_" +:+ t) !! 1%nat = Some d /\
  split "_" (tag +:+ "_" +:+ d +:+ "_" +:+ t) !! 2%nat = Some t.
Proof.
  intros Htag Hd Ht. rewrite (split_status tag d t) by assumption.
  split; reflexivity.
Qed.

End PyStrMore.

(** ** More on [execute_action] *)

Section ExecuteActionMore.

Context `{E : Env}.

Lemma execute_action_gate (a : Action) (ip : string) (ports : list string)
    (i : nat) (key : string) (st : St) :
  execute_action a ip ports i key st
  = match eligibility_gate a ports (row_at i st) key st with
    | (Ok true, st1) => dispatch a ip i key st1
    | (Ok false, st1) => (Ok false, st1)
    | (Raise e, st1) => (Raise e, st1)
    end.
Proof.
  unfold execute_action. erewrite bind_ok; [|reflexivity]. unfold bind.
  destruct (eligibility_gate a ports (row_at i st) key st) as [[[|]|e] st1];
    reflexivity.
Qed.

(** The retry-delay block on a well-formed cell. *)
Lemma retry_delay_block_status (tag d t : string) (last delay deadline : Z)
    (what : string) (st : St) :
  PyStr.has_char "_" tag = false ->
  PyStr.all_digits d = true -> PyStr.all_digits t = true ->
  strptime (d +:+ "_" +:+ t) = Some last ->
  retry_deadline last delay = Some deadline ->
  retry_delay_block (tag +:+ "_" +:+ d +:+ "_" +:+ t) delay what st
  = if (now (world st)).1 <? deadline then
      (Ok true,
       emit (EvLog Warning ("Skipping action due to " +:+ what +:+ " retry delay"))
         (set_world (now (now (world st)).2).2 st))
    else (Ok false, set_world (now (world st)).2 st).
Proof.
  intros Htag Hd Ht Hp Hdl.
  destruct (PyStrMore.split_rejoin tag d t Htag Hd Ht) as [H1 H2].
  exact (retry_delay_block_parsed _ d t last delay deadline what st
           H1 H2 Hp Hdl).
Qed.

(** The tests of [execute_action] on a well-formed failed cell. *)
Lemma eligibility_gate_failed_cell (a : Action) (ports : list string)
    (row : Row) (key d t : string) (last deadline : Z) (st : St) :
  PyStr.all_digits d = true -> PyStr.all_digits t = true ->
  strptime (d +:+ "_" +:+ t) = Some last ->
  retry_deadline last failed_retry_delay = Some deadline ->
  row !! key = Some ("failed_" +:+ d +:+ "_" +:+ t) ->
  str_port (port a) ∈ ports -> parent_ok a row ->
  eligibility_gate a ports row key st
  = if (now (world st)).1 <? deadline then
      (Ok false,
       emit (EvLog Warning "Skipping action due to failed retry delay")
         (set_world (now (now (world st)).2).2 st))
    else (Ok true, set_world (now (world st)).2 st).
Proof.
  intros Hd Ht Hp Hdl Hcell Hport Hpar.
  rewrite (eligibility_gate_not_success _ _ _ _ _ _ Hport Hpar Hcell
             (PyStrFacts.failed_cell_no_success d t Hd Ht)).
  rewrite PyStrFacts.failed_cell_failed. unfold bind.
  change ("failed_" +:+ d +:+ "_" +:+ t)
    with ("failed" +:+ "_" +:+ d +:+ "_" +:+ t).
  rewrite (retry_delay_block_status "failed" d t last _ deadline)
    by (reflexivity || assumption).
  destruct (_ <? _); reflexivity.
Qed.

(** The tests of [execute_action] on a well-formed success cell, successes
    being retried. *)
Lemma eligibility_gate_success_cell (a : Action) (ports : list string)
    (row : Row) (key d t : string) (last deadline : Z) (st : St) :
  retry_success_actions = true ->
  PyStr.all_digits d = true -> PyStr.all_digits t = true ->
  strptime (d +:+ "_" +:+ t) = Some last ->
  retry_deadline last success_retry_delay = Some deadline ->
  row !! key = Some ("success_" +:+ d +:+ "_" +:+ t) ->
  str_port (port a) ∈ ports -> parent_ok a row ->
  eligibility_gate a ports row key st
  = if (now (world st)).1 <? deadline then
      (Ok false,
       emit (EvLog Warning "Skipping action due to success retry delay")
         (set_world (now (now (world st)).2).2 st))
    else (Ok true, set_world (now (world st)).2 st).
Proof.
  intros Hr Hd Ht Hp Hdl Hcell Hport Hpar.
  rewrite (eligibility_gate_success_retry _ _ _ _ _ _ Hport Hpar Hcell
             (PyStrMore.success_cell_success d t) Hr).
  rewrite (PyStrMore.success_cell_no_failed d t Hd Ht). unfold bind at 1.
  change ("success_" +:+ d +:+ "_" +:+ t)
    with ("success" +:+ "_" +:+ d +:+ "_" +:+ t).
  rewrite (retry_delay_block_status "success" d t last _ deadline)
    by (reflexivity || assumption).
  destruct (_ <? _); reflexivity.
Qed.

(** When the port or the parent test fails, the call returns [False] and
    the state is what it was. *)
Lemma execute_action_untested (a : Action) (ip : string)
    (ports : list string) (i : nat) (key : string) (st : St) :
  str_port (port a) ∉ ports \/ ~ parent_ok a (row_at i st) ->
  execute_action a ip ports i key st = (Ok false, st).
Proof.
  intros H. rewrite execute_action_gate.
  assert (Hg : eligibility_gate a ports (row_at i st) key st = (Ok false, st)).
  { unfold eligibility_gate.
    destruct (bool_decide (str_port (port a) ∈ ports)) eqn:Hport;
      [|reflexivity].
    apply bool_decide_eq_true in Hport. cbn [negb].
    destruct (truthy (b_parent_action a) &&
              negb (PyStr.contains "success"
                      (py_get (row_at i st) (default "" (b_parent_action a)))))
      eqn:Hpar; [reflexivity|].
    apply parent_test_false in Hpar. destruct H as [H|H]; contradiction. }
  rewrite Hg. reflexivity.
Qed.

End ExecuteActionMore.

Section ExecuteActionExtras.

Context `{E : Env}.

Lemma port_parent_cases (a : Action) (ip : string) (ports : list string)
    (i : nat) (key : string) (st : St) :
  (str_port (port a) ∈ ports /\ parent_ok a (row_at i st)) \/
  execute_action a ip ports i key st = (Ok false, st).
Proof.
  destruct (bool_decide (str_port (port a) ∈ ports)) eqn:Hport.
  - apply bool_decide_eq_true in Hport.
    destruct (truthy (b_parent_action a) &&
              negb (PyStr.contains "success"
                      (py_get (row_at i st) (default "" (b_parent_action a)))))
      eqn:Hpar.
    + right. rewrite execute_action_gate. unfold eligibility_gate.
      rewrite (bool_decide_eq_true_2 _ Hport), Hpar. reflexivity.
    + left. split; [assumption|]. apply parent_test_false. exact Hpar.
  - apply bool_decide_eq_false in Hport. right.
    apply execute_action_untested. left. exact Hport.
Qed.

(** A call of [execute_action] that ends in the retry-delay block of a
    failed cell. *)
Lemma failed_cell_in_cooldown (a : Action) (ip : string)
    (ports : list string) (i : nat) (key d t : string) (last deadline : Z)
    (st : St) :
  PyStr.all_digits d = true -> PyStr.all_digits t = true ->
  strptime (d +:+ "_" +:+ t) = Some last ->
  retry_deadline last failed_retry_delay = Some deadline ->
  row_at i st !! key = Some ("failed_" +:+ d +:+ "_" +:+ t) ->
  (now (world st)).1 < deadline ->
  (execute_action a ip ports i key st).1 = Ok false /\
  quiet st (execute_action a ip ports i key st).2.
Proof.
  intros Hd Ht Hp Hdl Hcell Hlt.
  destruct (port_parent_cases a ip ports i key st) as [[Hport Hpar]|Hno].
  - rewrite execute_action_gate.
    rewrite (eligibility_gate_failed_cell a ports _ key d t last deadline st)
      by assumption.
    apply Z.ltb_lt in Hlt. rewrite Hlt. split; [reflexivity|].
    split; [reflexivity|]. eapply emits_one; [|reflexivity]. exact I.
  - rewrite Hno. split; reflexivity.
Qed.

(** X1. With retrying of successes on, a row whose cell for the action
    reads [success_<date>_<time>], the timestamp parsing to [Time], the
    delay being a [timedelta] and [Time + success_retry_delay] seconds a
    [datetime], is in cooldown while the clock reads less than
    [Time + success_retry_delay] seconds: [execute_action] returns
    [False], touching nothing but the clock and the log. From that
    instant on, the port and parent tests passing, the action is
    dispatched: the plugin is called on the row, after the log line of
    line 164. *)
Theorem success_cooldown (a : Action) (ip : string) (ports : list string)
    (i : nat) (key d t : string) (Time : Z) (st : St) :
  retry_success_actions = true ->
  PyStr.all_digits d = true -> PyStr.all_digits t = true ->
  strptime (d +:+ "_" +:+ t) = Some Time ->
  Z.abs (success_retry_delay / 86400) <= 999999999 ->
  datetime_min <= Time + success_retry_delay * 1000000 <= datetime_max ->
  row_at i st !! key = Some ("success_" +:+ d +:+ "_" +:+ t) ->
  ((now (world st)).1 < Time + success_retry_delay * 1000000 ->
     (execute_action a ip ports i key st).1 = Ok false /\
     quiet st (execute_action a ip ports i key st).2) /\
  (Time + success_retry_delay * 1000000 <= (now (world st)).1 ->
     str_port (port a) ∈ ports -> parent_ok a (row_at i st) ->
     execute_action a ip ports i key st
       = dispatch a ip i key (set_world (now (world st)).2 st) /\
     exists evs,
       trace (execute_action a ip ports i key st).2
       = trace st ++
         EvLog Info "Executing action"
           :: EvExecute a ip (str_port (port a)) (row_at i st) key :: evs).
Proof.
  intros Hr Hd Ht Hp Hdelta Hrange Hcell.
  pose proof (retry_deadline_in_range _ _ Hdelta Hrange) as Hdl. split.
  - intros Hlt.
    destruct (port_parent_cases a ip ports i key st) as [[Hport Hpar]|Hno].
    + rewrite execute_action_gate.
      rewrite (eligibility_gate_success_cell a ports _ key d t Time
                 (Time + success_retry_delay * 1000000) st)
        by assumption.
      apply Z.ltb_lt in Hlt. rewrite Hlt. split; [reflexivity|].
      split; [reflexivity|]. eapply emits_one; [|reflexivity]. exact I.
    + rewrite Hno. split; reflexivity.
  - intros Hge Hport Hpar.
    assert (Hrun : execute_action a ip ports i key st
                   = dispatch a ip i key (set_world (now (world st)).2 st)).
    { rewrite execute_action_gate.
      rewrite (eligibility_gate_success_cell a ports _ key d t Time
                 (Time + success_retry_delay * 1000000) st)
        by assumption.
      apply Z.ltb_ge in Hge. rewrite Hge. reflexivity. }
    split; [exact Hrun|]. rewrite Hrun.
    exact (dispatch_calls_plugin a ip i key (set_world (now (world st)).2 st)).
Qed.

(** X2. When a row has passed the tests and [action.execute] returns,
    [execute_action] returns whether the value is exactly ['success'],
    stamps the cell [success_<now>] in that case and [failed_<now>] for
    every other value, and writes the table once, as its last step. *)
Theorem returned_outcome_recorded (a : Action) (ip : string)
    (ports : list string) (i : nat) (key : string) (st st1 : St)
    (result : string) (row' : Row) (w' : W) :
  eligibility_gate a ports (row_at i st) key st = (Ok true, st1) ->
  plugin_execute a ip (str_port (port a)) (row_at i st1) key (world st1)
    = (Returned result, row', w') ->
  (i < length (current_data st1))%nat ->
  (execute_action a ip ports i key st).1
    = Ok (String.eqb result "success") /\
  current_data (execute_action a ip ports i key st).2
    = <[i := <[key := (if String.eqb result "success"
                       then "success_" else "failed_")
                      +:+ strftime (now w').1]> row']>
        (current_data st1) /\
  trace (execute_action a ip ports i key st).2
    = trace st1 ++
      [EvLog Info "Executing action";
       EvExecute a ip (str_port (port a)) (row_at i st1) key;
       EvWrite (current_data (execute_action a ip ports i key st).2)].
Proof.
  intros Hgate Hx Hi.
  rewrite execute_action_gate, Hgate.
  rewrite (dispatch_returned a ip i key st1 result row' w' Hx).
  cbn [fst snd].
  assert (Hdata : current_data
                    (recorded i key (String.eqb result "success")
                       (called a ip i key row' w' st1))
                  = <[i := <[key := (if String.eqb result "success"
                                     then "success_" else "failed_")
                                    +:+ strftime (now w').1]> row']>
                      (current_data st1)).
  { unfold recorded, called, calling, row_at.
    cbn [current_data world emit set_world set_current_data
         set_bjornstatustext2].
    rewrite list_lookup_insert_eq by assumption.
    cbn [default from_option id]. apply list_insert_insert_eq. }
  split; [reflexivity|]. split; [exact Hdata|].
  rewrite recorded_trace, Hdata. unfold called, calling.
  cbn [trace emit set_world set_current_data set_bjornstatustext2].
  rewrite <- !app_assoc. reflexivity.
Qed.

(** X3. An exception that is not an instance of [Exception] ([SystemExit],
    [KeyboardInterrupt]) leaves [execute_action] as it was raised: the
    cell is not stamped and the table is not written. *)
Theorem base_exception_propagates (a : Action) (ip : string)
    (ports : list string) (i : nat) (key : string) (st st1 : St) (e : exn)
    (row' : Row) (w' : W) :
  eligibility_gate a ports (row_at i st) key st = (Ok true, st1) ->
  plugin_execute a ip (str_port (port a)) (row_at i st1) key (world st1)
    = (Raised e, row', w') ->
  is_Exception e = false ->
  (execute_action a ip ports i key st).1 = Raise e /\
  current_data (execute_action a ip ports i key st).2
    = <[i := row']> (current_data st1) /\
  trace (execute_action a ip ports i key st).2
    = trace st1 ++
      [EvLog Info "Executing action";
       EvExecute a ip (str_port (port a)) (row_at i st1) key].
Proof.
  intros Hgate Hx He.
  rewrite execute_action_gate, Hgate.
  rewrite (dispatch_raised a ip i key st1 e row' w' Hx), He.
  cbn [fst snd]. split; [reflexivity|]. split; [reflexivity|].
  unfold called, calling.
  cbn [trace emit set_world set_current_data set_bjornstatustext2].
  rewrite <- !app_assoc. reflexivity.
Qed.

(** X4. A cell that holds a failed tag, or a success tag while successes
    are retried, and has fewer than three fields between underscores
    makes [execute_action] raise [IndexError] once the port and parent
    tests are passed: the handlers catch [ValueError] only. Nothing is
    logged, nothing is run. *)
Theorem truncated_cell_raises (a : Action) (ip : string)
    (ports : list string) (i : nat) (key cell : string) (st : St) :
  row_at i st !! key = Some cell ->
  PyStr.split "_" cell !! 2%nat = None ->
  str_port (port a) ∈ ports -> parent_ok a (row_at i st) ->
  (PyStr.contains "success" cell = false /\
   PyStr.contains "failed" cell = true) \/
  (PyStr.contains "success" cell = true /\ retry_success_actions = true) ->
  execute_action a ip ports i key st = (Raise IndexError, st).
Proof.
  intros Hcell Hshort Hport Hpar Htag.
  rewrite execute_action_gate.
  destruct Htag as [[Hs Hf]|[Hs Hr]].
  - rewrite (eligibility_gate_not_success _ _ _ _ _ _ Hport Hpar Hcell Hs).
    rewrite Hf. unfold bind.
    rewrite (retry_delay_block_short _ _ _ _ Hshort). reflexivity.
  - rewrite (eligibility_gate_success_retry _ _ _ _ _ _ Hport Hpar Hcell Hs Hr).
    unfold bind at 1.
    rewrite (retry_delay_block_short _ _ _ _ Hshort). reflexivity.
Qed.

(** X5. Round trip of the status cell. The cell [record_outcome] writes,
    when [strftime] gives a timestamp of two digit fields, is read back
    by the retry-delay blocks as that very timestamp: the string handed
    to [strptime] is the string [strftime] returned. *)
Theorem written_cell_parses_back (i : nat) (key : string) (success : bool)
    (d t : string) (st : St) :
  (i < length (current_data st))%nat ->
  strftime (now (world st)).1 = d +:+ "_" +:+ t ->
  PyStr.all_digits d = true -> PyStr.all_digits t = true ->
  exists cell,
    row_at i (record_outcome i key success st).2 !! key = Some cell /\
    forall st', status_time cell st'
                = py_strptime (strftime (now (world st)).1) st'.
Proof.
  intros Hi Hfmt Hd Ht. rewrite record_outcome_eq. cbn [snd].
  exists ((if success then "success_" else "failed_") +:+ d +:+ "_" +:+ t).
  split.
  - unfold recorded, row_at.
    cbn [current_data emit set_world set_current_data].
    rewrite list_lookup_insert_eq by assumption.
    cbn [default from_option id]. rewrite lookup_insert_eq, Hfmt.
    reflexivity.
  - intros st'. rewrite Hfmt. unfold status_time.
    assert (Hsplit :
      PyStr.split "_" ((if success then "success_" else "failed_")
                         +:+ d +:+ "_" +:+ t) !! 1%nat = Some d /\
      PyStr.split "_" ((if success then "success_" else "failed_")
                         +:+ d +:+ "_" +:+ t) !! 2%nat = Some t).
    { destruct success.
      - exact (PyStrMore.split_rejoin "success" d t eq_refl Hd Ht).
      - exact (PyStrMore.split_rejoin "failed" d t eq_refl Hd Ht). }
    destruct Hsplit as [H1 H2]. unfold py_index. rewrite H1, H2.
    reflexivity.
Qed.

(** X6. A failed attempt starts its own cooldown. After a call of
    [execute_action] in which the plugin failed at clock reading [now],
    a further call on the same row is turned down as long as the clock
    reads less than [Time + failed_retry_delay] seconds, [Time] being
    what [strptime] makes of [strftime now], the delay a [timedelta] and
    [Time + failed_retry_delay] seconds a [datetime]. *)
Theorem failed_attempt_starts_cooldown (a : Action) (ip : string)
    (ports : list string) (i : nat) (key d t : string) (Time : Z)
    (st st1 : St) (out : ExecOutcome) (row' : Row) (w' : W) :
  eligibility_gate a ports (row_at i st) key st = (Ok true, st1) ->
  plugin_execute a ip (str_port (port a)) (row_at i st1) key (world st1)
    = (out, row', w') ->
  failing out ->
  (i < length (current_data st1))%nat ->
  strftime (now w').1 = d +:+ "_" +:+ t ->
  PyStr.all_digits d = true -> PyStr.all_digits t = true ->
  strptime (d +:+ "_" +:+ t) = Some Time ->
  Z.abs (failed_retry_delay / 86400) <= 999999999 ->
  datetime_min <= Time + failed_retry_delay * 1000000 <= datetime_max ->
  (now (world (execute_action a ip ports i key st).2)).1
    < Time + failed_retry_delay * 1000000 ->
  (execute_action a ip ports i key st).1 = Ok false /\
  (execute_action a ip ports i key
     (execute_action a ip ports i key st).2).1 = Ok false /\
  quiet (execute_action a ip ports i key st).2
    (execute_action a ip ports i key
       (execute_action a ip ports i key st).2).2.
Proof.
  intros Hgate Hx Hfail Hi Hfmt Hd Ht Hp Hdelta Hrange.
  pose proof (retry_deadline_in_range _ _ Hdelta Hrange) as Hdl.
  assert (Hrun : exists st2,
    execute_action a ip ports i key st = (Ok false, st2) /\
    row_at i st2 !! key = Some ("failed_" +:+ d +:+ "_" +:+ t)).
  { rewrite execute_action_gate, Hgate.
    assert (Hcell : forall st0,
      world st0 = w' ->
      current_data st0 = <[i := row']> (current_data st1) ->
      row_at i (recorded i key false st0) !! key
      = Some ("failed_" +:+ d +:+ "_" +:+ t)).
    { intros st0 Hw Hdata. unfold recorded, row_at.
      cbn [current_data emit set_world set_current_data].
      rewrite list_lookup_insert_eq
        by (rewrite Hdata, length_insert; assumption).
      cbn [default from_option id]. rewrite lookup_insert_eq, Hw, Hfmt.
      reflexivity. }
    destruct out as [result|e]; cbn [failing] in Hfail.
    - rewrite (dispatch_returned a ip i key st1 result row' w' Hx).
      destruct (String.eqb_spec result "success"); [contradiction|].
      eexists. split; [reflexivity|]. apply Hcell; reflexivity.
    - rewrite (dispatch_raised a ip i key st1 e row' w' Hx), Hfail.
      eexists. split; [reflexivity|]. apply Hcell; reflexivity. }
  destruct Hrun as (st2 & Hrun & Hcell). rewrite Hrun. cbn [fst snd].
  intros Hlt. split; [reflexivity|].
  exact (failed_cell_in_cooldown a ip ports i key d t Time _ st2
           Hd Ht Hp Hdl Hcell Hlt).
Qed.

End ExecuteActionExtras.

Section EmptyCell.

Context `{E : Env}.

(** An empty cell passes the cooldown tests at once. *)
Lemma eligibility_gate_empty_cell (a : Action) (ports : list string)
    (row : Row) (key : string) (st : St) :
  str_port (port a) ∈ ports -> parent_ok a row -> row !! key = Some "" ->
  eligibility_gate a ports row key st = (Ok true, st).
Proof.
  intros Hport Hpar Hcell.
  rewrite (eligibility_gate_not_success _ _ _ _ "" st Hport Hpar Hcell eq_refl).
  reflexivity.
Qed.

End EmptyCell.

Lemma port80_open : str_port (Some 80) ∈ ["80"].
Proof. apply (list_elem_of_lookup_2 _ 0%nat). vm_compute. reflexivity. Qed.

Lemma no_parent_ok (a : Action) (row : Row) :
  b_parent_action a = None -> parent_ok a row.
Proof. intros H P HP. rewrite H in HP. discriminate HP. Qed.

Lemma success_cooldown_witness :
  (@execute_action (Demo.demo_env true) ActionX "10.0.0.1" ["80"] 0 "ActionX"
     (Demo.init true (t0 + 3600000000) [done_row] [ActionX] [])).1 = Ok false /\
  @execute_action (Demo.demo_env true) ActionX "10.0.0.1" ["80"] 0 "ActionX"
    (Demo.init true (t0 + 7200000000) [done_row] [ActionX] [])
  = @dispatch (Demo.demo_env true) ActionX "10.0.0.1" 0 "ActionX"
      (Demo.init true (t0 + 7201000000) [done_row] [ActionX] []).
Proof.
  assert (Hdelta : Z.abs (7200 / 86400) <= 999999999)
    by (vm_compute; discriminate).
  assert (Hrange : datetime_min <= t0 + 7200 * 1000000 <= datetime_max)
    by (split; vm_compute; discriminate).
  split.
  - apply (proj1 (@success_cooldown (Demo.demo_env true) ActionX "10.0.0.1"
                    ["80"] 0%nat "ActionX" "20240101" "000000" t0
                    (Demo.init true (t0 + 3600000000) [done_row] [ActionX] [])
                    eq_refl eq_refl eq_refl eq_refl Hdelta Hrange eq_refl)).
    vm_compute. reflexivity.
  - apply (proj2 (@success_cooldown (Demo.demo_env true) ActionX "10.0.0.1"
                    ["80"] 0%nat "ActionX" "20240101" "000000" t0
                    (Demo.init true (t0 + 7200000000) [done_row] [ActionX] [])
                    eq_refl eq_refl eq_refl eq_refl Hdelta Hrange eq_refl)).
    + vm_compute. discriminate.
    + exact port80_open.
    + apply no_parent_ok. reflexivity.
Defined.

Lemma returned_outcome_recorded_witness :
  (@execute_action (Demo.demo_env false) ActionX "10.0.0.1" ["80"] 0
     "ActionX" (Demo.init false t0 [fresh_row] [ActionX] [])).1 = Ok true /\
  current_data
    (@execute_action (Demo.demo_env false) ActionX "10.0.0.1" ["80"] 0
       "ActionX" (Demo.init false t0 [fresh_row] [ActionX] [])).2
  = <[0%nat := <["ActionX" := "success_" +:+ Demo.demo_strftime t0]> fresh_row]>
      [fresh_row].
Proof.
  destruct (@returned_outcome_recorded (Demo.demo_env false) ActionX
              "10.0.0.1" ["80"] 0%nat "ActionX"
              (Demo.init false t0 [fresh_row] [ActionX] [])
              (Demo.init false t0 [fresh_row] [ActionX] [])
              "success" fresh_row (Demo.mkWorld t0 [fresh_row]))
    as (Hres & Hdata & _).
  - apply (@eligibility_gate_empty_cell (Demo.demo_env false));
      [exact port80_open|apply no_parent_ok; reflexivity
      |vm_compute; reflexivity].
  - vm_compute. reflexivity.
  - simpl. lia.
  - split; [exact Hres|exact Hdata].
Defined.

Lemma base_exception_propagates_witness :
  (@execute_action exit_env ActionX "10.0.0.1" ["80"] 0 "ActionX"
     (@mkSt exit_env (Demo.mkWorld t0 [fresh_row]) [fresh_row] [] "" ""
        [ActionX] [] (Some "NetworkScanner") false 0)).1 = Raise SystemExit /\
  current_data
    (@execute_action exit_env ActionX "10.0.0.1" ["80"] 0 "ActionX"
       (@mkSt exit_env (Demo.mkWorld t0 [fresh_row]) [fresh_row] [] "" ""
          [ActionX] [] (Some "NetworkScanner") false 0)).2
  = <[0%nat := fresh_row]> [fresh_row].
Proof.
  destruct (@base_exception_propagates exit_env ActionX "10.0.0.1" ["80"]
              0%nat "ActionX"
              (@mkSt exit_env (Demo.mkWorld t0 [fresh_row]) [fresh_row] [] ""
                 "" [ActionX] [] (Some "NetworkScanner") false 0)
              (@mkSt exit_env (Demo.mkWorld t0 [fresh_row]) [fresh_row] [] ""
                 "" [ActionX] [] (Some "NetworkScanner") false 0)
              SystemExit fresh_row (Demo.mkWorld t0 [fresh_row]))
    as (Hres & Hdata & _).
  - apply (@eligibility_gate_empty_cell exit_env);
      [exact port80_open|apply no_parent_ok; reflexivity
      |vm_compute; reflexivity].
  - reflexivity.
  - reflexivity.
  - split; [exact Hres|exact Hdata].
Defined.

Lemma truncated_cell_raises_witness :
  @execute_action (Demo.demo_env false) ActionX "10.0.0.1" ["80"] 0 "ActionX"
    (Demo.init false t0 [truncated_row] [ActionX] [])
  = (Raise IndexError, Demo.init false t0 [truncated_row] [ActionX] []).
Proof.
  apply (@truncated_cell_raises (Demo.demo_env false) ActionX "10.0.0.1"
           ["80"] 0%nat "ActionX" "failed").
  - vm_compute. reflexivity.
  - reflexivity.
  - exact port80_open.
  - apply no_parent_ok. reflexivity.
  - left. split; reflexivity.
Defined.

Lemma written_cell_parses_back_witness :
  exists cell,
    @row_at (Demo.demo_env false) 0
      (@record_outcome (Demo.demo_env false) 0 "ActionX" false
         (Demo.init false t0 [fresh_row] [ActionX] [])).2 !! "ActionX"
    = Some cell /\
    forall st', @status_time (Demo.demo_env false) cell st'
                = @py_strptime (Demo.demo_env false)
                    (Demo.demo_strftime t0) st'.
Proof.
  apply (@written_cell_parses_back (Demo.demo_env false) 0%nat "ActionX"
           false "20240101" "000000"
           (Demo.init false t0 [fresh_row] [ActionX] [])).
  - simpl. lia.
  - vm_compute. reflexivity.
  - reflexivity.
  - reflexivity.
Defined.

Lemma failed_attempt_starts_cooldown_witness :
  (@execute_action (Demo.demo_env false) Crasher "10.0.0.1" ["80"] 0
     "Crasher"
     (@execute_action (Demo.demo_env false) Crasher "10.0.0.1" ["80"] 0
        "Crasher" (Demo.init false t0 [crash_row] [Crasher] [])).2).1
  = Ok false.
Proof.
  destruct (@failed_attempt_starts_cooldown (Demo.demo_env false) Crasher
              "10.0.0.1" ["80"] 0%nat "Crasher" "20240101" "000000" t0
              (Demo.init false t0 [crash_row] [Crasher] [])
              (Demo.init false t0 [crash_row] [Crasher] [])
              (Raised (OtherException "RuntimeError")) crash_row
              (Demo.mkWorld t0 [crash_row]))
    as (_ & Hagain & _).
  - apply (@eligibility_gate_empty_cell (Demo.demo_env false));
      [exact port80_open|apply no_parent_ok; reflexivity
      |vm_compute; reflexivity].
  - vm_compute. reflexivity.
  - reflexivity.
  - simpl. lia.
  - vm_compute. reflexivity.
  - reflexivity.
  - reflexivity.
  - vm_compute. reflexivity.
  - vm_compute. discriminate.
  - split; vm_compute; discriminate.
  - vm_compute. reflexivity.
  - exact Hagain.
Defined.

(** ** More on the cycle walker *)

Section WalkerMore.

Context `{E : Env}.

Lemma walked_refl (acts : list Action) (st : St) :
  actions st = acts -> walked acts st st.
Proof. intros H. split; [assumption|]. split; reflexivity. Qed.

Lemma walked_trans (acts : list Action) (st1 st2 st3 : St) :
  walked acts st1 st2 -> walked acts st2 st3 -> walked acts st1 st3.
Proof.
  intros (_ & Hl1 & He1) (Ha2 & Hl2 & He2). split; [assumption|].
  split; [congruence|]. etransitivity; eassumption.
Qed.

(** The tests of [execute_action] leave the registry alone. *)
Lemma eligibility_gate_actions (a : Action) (ports : list string)
    (row : Row) (key : string) :
  steps (fun st st' => actions st' = actions st)
    (eligibility_gate a ports row key).
Proof.
  assert (Hpre : PreOrder (fun st st' : St => actions st' = actions st)).
  { split; [intros st; reflexivity|]. intros s1 s2 s3 H1 H2. congruence. }
  unfold eligibility_gate, retry_delay_block, status_time.
  repeat first
    [ match goal with
      | |- forall _, _ => intros ?
      | |- actions _ = actions _ => reflexivity
      | |- steps _ (if ?b then _ else _) => destruct b
      end
    | apply (steps_ret _)
    | apply (steps_raise _)
    | apply (steps_py_getitem _)
    | apply (steps_py_index _)
    | apply (steps_py_strptime _)
    | apply (steps_py_timedelta _)
    | apply (steps_py_datetime_add _)
    | apply (steps_datetime_now _)
    | apply (steps_log _)
    | apply (steps_bind _)
    | apply (steps_try_except _) ].
Qed.

Lemma dispatch_facts (a : Action) (ip : string) (i : nat) (key : string)
    (st : St) :
  actions (dispatch a ip i key st).2 = actions st /\
  length (current_data (dispatch a ip i key st).2)
    = length (current_data st).
Proof.
  destruct (plugin_execute a ip (str_port (port a)) (row_at i st) key
              (world st)) as [[[result|e] row'] w] eqn:Hx.
  - rewrite (dispatch_returned _ _ _ _ _ _ _ _ Hx).
    unfold recorded, called, calling.
    cbn [snd actions current_data emit set_world set_current_data
         set_bjornstatustext2].
    rewrite !length_insert. split; reflexivity.
  - rewrite (dispatch_raised _ _ _ _ _ _ _ _ Hx).
    destruct (is_Exception e); unfold recorded, called, calling;
      cbn [snd actions current_data emit set_world set_current_data
           set_bjornstatustext2];
      rewrite !length_insert; split; reflexivity.
Qed.

(** One call of [execute_action] from the walker. *)
Lemma execute_action_walked (acts : list Action) (a : Action) (ip : string)
    (ports : list string) (i : nat) (st : St) :
  actions st = acts -> a ∈ acts ->
  (b_parent_action a = None ->
     row_at i st !! "Alive" = Some "1" /\ row_at i st !! "IPs" = Some ip /\
     exists ports_cell, row_at i st !! "Ports" = Some ports_cell /\
                        ports = PyStr.split ";" ports_cell) ->
  (b_parent_action a = None \/ truthy (b_parent_action a) = true \/
   exists parent, parent ∈ acts /\ b_parent_action parent = None /\
                  b_parent_action a = Some (action_name parent)) ->
  walked acts st (execute_action a ip ports i (action_name a) st).2.
Proof.
  intros Hacts Ha Hrow Hkind. rewrite execute_action_gate.
  pose proof (eligibility_gate_quiet a ports (row_at i st) (action_name a) st)
    as [Hdata Hlogs].
  pose proof (eligibility_gate_actions a ports (row_at i st) (action_name a) st)
    as Hreg.
  pose proof (eligibility_gate_true a ports (row_at i st) (action_name a) st)
    as Htrue.
  destruct (eligibility_gate a ports (row_at i st) (action_name a) st)
    as [[[|]|e] st1]; cbn [fst snd] in *.
  - assert (Hgate : walked acts st st1).
    { split; [congruence|]. split; [unfold same_data in Hdata; congruence|].
      eapply emits_weaken; [|exact Hlogs]. intros [] []; exact I. }
    eapply walked_trans; [exact Hgate|].
    destruct (dispatch_facts a ip i (action_name a) st1) as [Hda Hdl].
    split; [congruence|]. split; [exact Hdl|].
    apply dispatch_emits; try (intros; exact I).
    destruct (Htrue eq_refl) as (Hport & _).
    assert (Hsame : row_at i st1 = row_at i st)
      by (unfold row_at; rewrite Hdata; reflexivity).
    rewrite Hsame. cbn [walk_event].
    repeat (split; [assumption || reflexivity|]).
    split; [|exact Hkind].
    intros Hnone. destruct (Hrow Hnone) as (HA & HI & pc & HP & ->).
    repeat (split; [assumption|]). exists pc. split; assumption.
  - split; [congruence|]. split; [unfold same_data in Hdata; congruence|].
    eapply emits_weaken; [|exact Hlogs]. intros [] []; exact I.
  - split; [congruence|]. split; [unfold same_data in Hdata; congruence|].
    eapply emits_weaken; [|exact Hlogs]. intros [] []; exact I.
Qed.

Lemma set_bjornorch_status_walked (acts : list Action) (s : string)
    (st : St) :
  actions st = acts -> walked acts st (set_bjornorch_status s st).
Proof.
  intros H. split; [exact H|]. split; [reflexivity|].
  apply emits_same. reflexivity.
Qed.

Lemma try_children_walked (acts children : list Action) (parent : Action)
    (ip : string) (ports : list string) (i : nat) (st : St) :
  actions st = acts -> Forall (fun c => c ∈ acts) children ->
  parent ∈ acts -> b_parent_action parent = None ->
  walked acts st
    (try_children children (action_name parent) ip ports i st).2.
Proof.
  intros Hacts Hch Hp Hpn. revert st Hacts.
  induction Hch as [|c rest Hc _ IH]; intros st Hacts;
    [apply walked_refl; assumption|].
  cbn [try_children].
  destruct (bool_decide (b_parent_action c = Some (action_name parent)))
    eqn:Hpar; [|apply IH; assumption].
  apply bool_decide_eq_true in Hpar.
  assert (Hw : walked acts st
                 (execute_action c ip ports i (action_name c) st).2).
  { apply execute_action_walked; [assumption|assumption| |].
    - intros Hnone. rewrite Hnone in Hpar. discriminate Hpar.
    - right. right. exists parent. repeat split; assumption. }
  unfold bind.
  destruct (execute_action c ip ports i (action_name c) st)
    as [[[|]|e] st1]; cbn [snd] in *.
  - eapply walked_trans; [exact Hw|].
    apply set_bjornorch_status_walked. apply Hw.
  - eapply walked_trans; [exact Hw|]. apply IH. apply Hw.
  - exact Hw.
Qed.

Lemma top_level_rows_walked (acts : list Action) (a : Action)
    (rows : list nat) (st : St) :
  actions st = acts -> a ∈ acts ->
  walked acts st (top_level_rows a rows st).2.
Proof.
  intros Hacts Ha. revert st Hacts.
  induction rows as [|i rest IH]; intros st Hacts;
    [apply walked_refl; assumption|].
  cbn [top_level_rows]. erewrite bind_ok; [|reflexivity].
  destruct (row_at i st !! "Alive") as [alive|] eqn:HA;
    [|rewrite (bind_raise _ _ _ _ _ (py_getitem_missing _ _ _ HA));
      apply walked_refl; assumption].
  rewrite (bind_ok _ _ _ _ _ (py_getitem_ok _ _ _ _ HA)).
  destruct (String.eqb_spec alive "1") as [->|Hne]; cbn [negb];
    [|apply IH; assumption].
  destruct (row_at i st !! "IPs") as [ip|] eqn:HI;
    [|rewrite (bind_raise _ _ _ _ _ (py_getitem_missing _ _ _ HI));
      apply walked_refl; assumption].
  rewrite (bind_ok _ _ _ _ _ (py_getitem_ok _ _ _ _ HI)).
  destruct (row_at i st !! "Ports") as [pc|] eqn:HP;
    [|rewrite (bind_raise _ _ _ _ _ (py_getitem_missing _ _ _ HP));
      apply walked_refl; assumption].
  rewrite (bind_ok _ _ _ _ _ (py_getitem_ok _ _ _ _ HP)).
  destruct (b_parent_action a) eqn:Hpar; [apply IH; assumption|].
  assert (Hw : walked acts st
                 (execute_action a ip (PyStr.split ";" pc) i (action_name a)
                    st).2).
  { apply execute_action_walked; [assumption|assumption| |left; assumption].
    intros _. repeat (split; [assumption|]). exists pc.
    split; [assumption|reflexivity]. }
  unfold bind at 1.
  destruct (execute_action a ip (PyStr.split ";" pc) i (action_name a) st)
    as [[[|]|e] st1]; cbn [snd] in *.
  - eapply walked_trans; [exact Hw|].
    destruct Hw as (Ha1 & _ & _).
    erewrite bind_ok; [|reflexivity].
    assert (Hc : walked acts (set_bjornorch_status (action_name a) st1)
                   (try_children (actions st1) (action_name a) ip
                      (PyStr.split ";" pc) i
                      (set_bjornorch_status (action_name a) st1)).2).
    { apply try_children_walked; [exact Ha1| |assumption|assumption].
      rewrite Ha1. apply Forall_forall. intros c Hc. exact Hc. }
    eapply walked_trans;
      [apply (set_bjornorch_status_walked acts (action_name a) st1 Ha1)|].
    unfold bind, gets. cbn [fst snd actions set_bjornorch_status] in *.
    destruct (try_children (actions st1) (action_name a) ip
                (PyStr.split ";" pc) i
                (set_bjornorch_status (action_name a) st1))
      as [[[]|e] st2]; exact Hc.
  - eapply walked_trans; [exact Hw|]. apply IH. apply Hw.
  - exact Hw.
Qed.

End WalkerMore.

Section WalkerInvariant.

Context `{E : Env}.

Lemma top_level_pass_walked (acts todo : list Action) (st : St) :
  actions st = acts -> Forall (fun a => a ∈ acts) todo ->
  walked acts st (top_level_pass todo st).2.
Proof.
  intros Hacts Htodo. revert st Hacts.
  induction Htodo as [|a rest Ha _ IH]; intros st Hacts;
    [apply walked_refl; assumption|].
  cbn [top_level_pass]. erewrite bind_ok; [|reflexivity].
  pose proof (top_level_rows_walked acts a
                (seq 0 (length (current_data st))) st Hacts Ha) as Hw.
  unfold bind at 1.
  destruct (top_level_rows a (seq 0 (length (current_data st))) st)
    as [[b|e] st1]; cbn [snd] in *; [|exact Hw].
  eapply walked_trans; [exact Hw|].
  specialize (IH st1 (proj1 Hw)). unfold bind.
  destruct (top_level_pass rest st1) as [[b'|e] st2]; exact IH.
Qed.

Lemma child_sweep_rows_walked (acts : list Action) (child_action : Action)
    (rows : list nat) (st : St) :
  actions st = acts -> child_action ∈ acts ->
  truthy (b_parent_action child_action) = true ->
  walked acts st (child_sweep_rows child_action rows st).2.
Proof.
  intros Hacts Ha Htruthy. revert st Hacts.
  induction rows as [|i rest IH]; intros st Hacts;
    [apply walked_refl; assumption|].
  cbn [child_sweep_rows]. erewrite bind_ok; [|reflexivity].
  destruct (row_at i st !! "IPs") as [ip|] eqn:HI;
    [|rewrite (bind_raise _ _ _ _ _ (py_getitem_missing _ _ _ HI));
      apply walked_refl; assumption].
  rewrite (bind_ok _ _ _ _ _ (py_getitem_ok _ _ _ _ HI)).
  destruct (row_at i st !! "Ports") as [pc|] eqn:HP;
    [|rewrite (bind_raise _ _ _ _ _ (py_getitem_missing _ _ _ HP));
      apply walked_refl; assumption].
  rewrite (bind_ok _ _ _ _ _ (py_getitem_ok _ _ _ _ HP)).
  assert (Hw : walked acts st
                 (execute_action child_action ip (PyStr.split ";" pc) i
                    (action_name child_action) st).2).
  { apply execute_action_walked; [assumption|assumption| |right; left; assumption].
    intros Hnone. rewrite Hnone in Htruthy. discriminate Htruthy. }
  unfold bind at 1.
  destruct (execute_action child_action ip (PyStr.split ";" pc) i
              (action_name child_action) st)
    as [[[|]|e] st1]; cbn [snd] in *.
  - eapply walked_trans; [exact Hw|].
    erewrite bind_ok; [|reflexivity].
    apply set_bjornorch_status_walked. apply Hw.
  - eapply walked_trans; [exact Hw|]. apply IH. apply Hw.
  - exact Hw.
Qed.

Lemma child_sweep_walked (acts todo : list Action) (st : St) :
  actions st = acts -> Forall (fun a => a ∈ acts) todo ->
  walked acts st (child_sweep todo st).2.
Proof.
  intros Hacts Htodo. revert st Hacts.
  induction Htodo as [|a rest Ha _ IH]; intros st Hacts;
    [apply walked_refl; assumption|].
  cbn [child_sweep].
  assert (Hw : walked acts st
                 ((if truthy (b_parent_action a) then
                     let* n := gets (fun st => length (current_data st)) in
                     child_sweep_rows a (seq 0 n)
                   else ret false) st).2).
  { destruct (truthy (b_parent_action a)) eqn:Ht;
      [|apply walked_refl; assumption].
    erewrite bind_ok; [|reflexivity].
    apply child_sweep_rows_walked; assumption. }
  unfold bind at 1.
  destruct ((if truthy (b_parent_action a) then
               let* n := gets (fun st => length (current_data st)) in
               child_sweep_rows a (seq 0 n)
             else ret false) st) as [[b|e] st1]; cbn [snd] in *; [|exact Hw].
  eapply walked_trans; [exact Hw|].
  specialize (IH st1 (proj1 Hw)). unfold bind.
  destruct (child_sweep rest st1) as [[b'|e] st2]; exact IH.
Qed.

(** A cycle is a walk over the registry, from the state in which
    [current_data] is the table it was given. *)
Lemma process_alive_ips_walked (data : list Row) (st : St) :
  walked (actions st) (set_current_data data st)
    (process_alive_ips data st).2.
Proof.
  unfold process_alive_ips. erewrite bind_ok; [|reflexivity].
  erewrite bind_ok; [|reflexivity].
  set (st0 := set_current_data data st).
  change (actions st0) with (actions st).
  assert (Hall : Forall (fun a => a ∈ actions st) (actions st))
    by (apply Forall_forall; intros a Ha; exact Ha).
  pose proof (top_level_pass_walked (actions st) (actions st) st0 eq_refl Hall)
    as Hw.
  unfold bind at 1.
  destruct (top_level_pass (actions st) st0) as [[b|e] st1];
    cbn [snd] in *; [|exact Hw].
  eapply walked_trans; [exact Hw|].
  pose proof (child_sweep_walked (actions st) (actions st) st1 (proj1 Hw) Hall)
    as Hw'.
  unfold bind.
  destruct (child_sweep (actions st) st1) as [[b'|e] st2]; exact Hw'.
Qed.

Lemma cycle_event (data : list Row) (st : St) (evs : list Event)
    (ev : Event) :
  trace (process_alive_ips data st).2 = trace st ++ evs ->
  ev ∈ evs -> walk_event (actions st) ev.
Proof.
  intros Htr Hin.
  destruct (process_alive_ips_walked data st) as (_ & _ & evs' & Htr' & Hok).
  cbn [trace set_current_data] in Htr'.
  rewrite Htr in Htr'. apply app_inv_head in Htr'. subst evs'.
  rewrite Forall_forall in Hok. exact (Hok _ Hin).
Qed.

(** X7. A cycle calls plugins of actions of [self.actions] only, each
    under its own name and with its own port as a string; actions held in
    [standalone_actions] alone are never called. *)
Theorem cycle_runs_registry_actions_only (data : list Row) (st : St)
    (evs : list Event) (a : Action) (ip p : string) (row : Row)
    (key : string) :
  trace (process_alive_ips data st).2 = trace st ++ evs ->
  EvExecute a ip p row key ∈ evs ->
  a ∈ actions st /\ key = action_name a /\ p = str_port (port a).
Proof.
  intros Htr Hin.
  destruct (cycle_event data st evs _ Htr Hin) as (Ha & Hk & Hp & _).
  repeat split; assumption.
Qed.

(** X8. A cycle calls an action that has no parent only on a row whose
    alive flag is ['1'] and whose port list, cut at semicolons, holds the
    port of the action; the address handed to the plugin is the [IPs]
    cell of that row. *)
Theorem top_level_action_runs_on_live_matching_row (data : list Row)
    (st : St) (evs : list Event) (a : Action) (ip p : string) (row : Row)
    (key : string) :
  trace (process_alive_ips data st).2 = trace st ++ evs ->
  EvExecute a ip p row key ∈ evs ->
  b_parent_action a = None ->
  row !! "Alive" = Some "1" /\ row !! "IPs" = Some ip /\
  exists ports_cell, row !! "Ports" = Some ports_cell /\
                     str_port (port a) ∈ PyStr.split ";" ports_cell.
Proof.
  intros Htr Hin Hnone.
  destruct (cycle_event data st evs _ Htr Hin) as (_ & _ & Hp & Hrow & _).
  destruct (Hrow Hnone) as (HA & HI & pc & HP & Hport).
  repeat (split; [assumption|]). exists pc. split; [assumption|].
  rewrite <- Hp. exact Hport.
Qed.

(** X9. An action whose parent is the empty string is never called by a
    cycle, as long as no action of the registry has the empty name: the
    first loop takes it for a child ([is None] fails), the second loop
    and [execute_action] for an action without parent (the string is
    false). *)
Theorem empty_parent_never_dispatched (data : list Row) (st : St)
    (evs : list Event) (a : Action) (ip p : string) (row : Row)
    (key : string) :
  Forall (fun b => action_name b <> "") (actions st) ->
  trace (process_alive_ips data st).2 = trace st ++ evs ->
  EvExecute a ip p row key ∈ evs ->
  b_parent_action a <> Some "".
Proof.
  intros Hnames Htr Hin Hempty.
  destruct (cycle_event data st evs _ Htr Hin) as (_ & _ & _ & _ & Hkind).
  rewrite Hempty in Hkind.
  destruct Hkind as [Hk|[Hk|(parent & Hp & _ & Hk)]]; try discriminate Hk.
  injection Hk as Hname. rewrite Forall_forall in Hnames.
  exact (Hnames parent Hp (eq_sym Hname)).
Qed.

(** X10. A cycle neither adds nor removes rows of the table it is given,
    and leaves the list of actions as it is, whatever the plugins do and
    however the cycle ends. *)
Theorem cycle_keeps_table_shape (data : list Row) (st : St) :
  length (current_data (process_alive_ips data st).2) = length data /\
  actions (process_alive_ips data st).2 = actions st.
Proof.
  destruct (process_alive_ips_walked data st) as (Ha & Hl & _).
  split; assumption.
Qed.

End WalkerInvariant.

Lemma cycle_runs_registry_actions_only_witness :
  ActionX ∈ [ActionX; ChildY] /\ "ActionX" = action_name ActionX /\
  "80" = str_port (port ActionX).
Proof.
  apply (@cycle_runs_registry_actions_only (Demo.demo_env false)
           [fresh_row] (Demo.init false t0 [] [ActionX; ChildY] [])
           (trace (@process_alive_ips (Demo.demo_env false) [fresh_row]
                     (Demo.init false t0 [] [ActionX; ChildY] [])).2)
           ActionX "10.0.0.1" "80" fresh_row "ActionX").
  - reflexivity.
  - apply (list_elem_of_lookup_2 _ 1%nat). vm_compute. reflexivity.
Defined.

Lemma top_level_action_runs_on_live_matching_row_witness :
  fresh_row !! "Alive" = Some "1" /\ fresh_row !! "IPs" = Some "10.0.0.1" /\
  exists ports_cell, fresh_row !! "Ports" = Some ports_cell /\
                     str_port (port ActionX) ∈ PyStr.split ";" ports_cell.
Proof.
  apply (@top_level_action_runs_on_live_matching_row (Demo.demo_env false)
           [fresh_row] (Demo.init false t0 [] [ActionX; ChildY] [])
           (trace (@process_alive_ips (Demo.demo_env false) [fresh_row]
                     (Demo.init false t0 [] [ActionX; ChildY] [])).2)
           ActionX "10.0.0.1" "80" fresh_row "ActionX").
  - reflexivity.
  - apply (list_elem_of_lookup_2 _ 1%nat). vm_compute. reflexivity.
  - reflexivity.
Defined.

Lemma empty_parent_never_dispatched_witness :
  b_parent_action ChildY <> Some "".
Proof.
  apply (@empty_parent_never_dispatched (Demo.demo_env false)
           [fresh_row] (Demo.init false t0 [] [ActionX; ChildY] [])
           (trace (@process_alive_ips (Demo.demo_env false) [fresh_row]
                     (Demo.init false t0 [] [ActionX; ChildY] [])).2)
           ChildY "10.0.0.1" "80"
           (<["ActionX" := "success_20240101_000000"]> fresh_row) "ActionY").
  - repeat constructor; discriminate.
  - reflexivity.
  - apply (list_elem_of_lookup_2 _ 4%nat). vm_compute. reflexivity.
Defined.

(** ** What a cycle that returns has done *)

Section Returns.

Context `{E : Env}.

Lemma count_events_app (p : Event -> bool) (l1 l2 : list Event) :
  count_events p (l1 ++ l2) = (count_events p l1 + count_events p l2)%nat.
Proof. induction l1 as [|ev l1 IH]; simpl; [reflexivity|]. rewrite IH. lia. Qed.

Lemma count_events_logs (p : Event -> bool) (evs : list Event) :
  (forall lvl msg, p (EvLog lvl msg) = false) ->
  Forall is_log evs -> count_events p evs = 0%nat.
Proof.
  intros Hp H. induction H as [|ev evs Hev _ IH]; [reflexivity|].
  destruct ev; try contradiction. simpl. rewrite Hp, IH. reflexivity.
Qed.

Lemma pairing_app (pending : bool) (l1 l2 : list Event) :
  pairing pending (l1 ++ l2)
  = match pairing pending l1 with
    | Some pending' => pairing pending' l2
    | None => None
    end.
Proof.
  revert pending. induction l1 as [|ev l1 IH]; intros pending;
    [reflexivity|].
  cbn [app pairing].
  destruct (is_execute ev); [destruct pending; [reflexivity|apply IH]|].
  destruct (is_write ev); [destruct pending; [apply IH|reflexivity]|].
  apply IH.
Qed.

Lemma pairing_logs (pending : bool) (evs : list Event) :
  Forall is_log evs -> pairing pending evs = Some pending.
Proof.
  intros H. induction H as [|ev evs Hev _ IH]; [reflexivity|].
  destruct ev; try contradiction. exact IH.
Qed.

Lemma paired_app (l1 l2 : list Event) :
  paired l1 -> paired l2 -> paired (l1 ++ l2).
Proof.
  unfold paired. intros H1 H2. rewrite pairing_app, H1. exact H2.
Qed.

(** In a paired trace there are as many calls as writes. *)
Lemma pairing_counts (pending pending' : bool) (evs : list Event) :
  pairing pending evs = Some pending' ->
  (count_events is_execute evs + (if pending then 1 else 0)
   = count_events is_write evs + (if pending' then 1 else 0))%nat.
Proof.
  revert pending. induction evs as [|ev evs IH]; intros pending.
  - intros [= <-]. reflexivity.
  - cbn [pairing count_events].
    destruct (is_execute ev) eqn:Hx.
    + destruct pending; [discriminate|]. intros H. apply IH in H.
      assert (Hw : is_write ev = false) by (destruct ev; try discriminate; reflexivity).
      rewrite Hw. lia.
    + destruct (is_write ev).
      * destruct pending; [|discriminate]. intros H. apply IH in H. lia.
      * intros H. apply IH in H. lia.
Qed.

Lemma paired_counts (evs : list Event) :
  paired evs -> count_events is_execute evs = count_events is_write evs.
Proof. intros H. apply pairing_counts in H. lia. Qed.

Lemma attempts_nil (b : bool) : b = false -> attempts b [].
Proof. intros ->. split; [reflexivity|discriminate]. Qed.

Lemma attempts_app (b1 b2 : bool) (l1 l2 : list Event) :
  attempts b1 l1 -> attempts b2 l2 -> attempts (b1 || b2) (l1 ++ l2).
Proof.
  intros [H1 H1'] [H2 H2']. split.
  - apply paired_app; assumption.
  - rewrite count_events_app. intros [->| ->]%orb_true_iff.
    + specialize (H1' eq_refl). lia.
    + specialize (H2' eq_refl). lia.
Qed.

Lemma attempts_weaken (b : bool) (evs : list Event) :
  attempts b evs -> attempts false evs.
Proof. intros [H _]. split; [exact H|discriminate]. Qed.

Lemma returns_ret {A} (Q : A -> list Event -> Prop) (a : A) :
  Q a [] -> returns Q (ret a).
Proof. intros HQ st. exists []. rewrite app_nil_r. auto. Qed.

Lemma returns_bind {A B} (Q1 : A -> list Event -> Prop)
    (Q2 : A -> B -> list Event -> Prop) (Q : B -> list Event -> Prop)
    (m : M A) (k : A -> M B) :
  returns Q1 m -> (forall a, returns (Q2 a) (k a)) ->
  (forall a b l1 l2, Q1 a l1 -> Q2 a b l2 -> Q b (l1 ++ l2)) ->
  returns Q (bind m k).
Proof.
  intros Hm Hk HQ st. unfold bind. specialize (Hm st).
  destruct (m st) as [[a|e] st1]; [|exact I].
  destruct Hm as (l1 & Ht1 & H1). specialize (Hk a st1).
  destruct (k a st1) as [[b|e] st2]; [|exact I].
  destruct Hk as (l2 & Ht2 & H2). exists (l1 ++ l2).
  rewrite Ht2, Ht1, app_assoc. split; [reflexivity|]. eapply HQ; eassumption.
Qed.

Lemma returns_silent {A} (Q : A -> list Event -> Prop) (m : M A) :
  silent m -> (forall a, Q a []) -> returns Q m.
Proof.
  intros Hs HQ st. specialize (Hs st).
  destruct (m st) as [[a|e] st1]; [|exact I].
  exists []. rewrite app_nil_r. split; [exact Hs|apply HQ].
Qed.

Lemma silent_gets {A} (f : St -> A) : silent (gets f).
Proof. intros st. reflexivity. Qed.

Lemma silent_py_getitem (row : Row) (key : string) :
  silent (py_getitem row key).
Proof. intros st. unfold py_getitem. destruct (row !! key); reflexivity. Qed.

Lemma silent_set_bjornorch_status (s : string) :
  silent (modify (set_bjornorch_status s)).
Proof. intros st. reflexivity. Qed.

(** [execute_action], when it returns, has called the plugin and written
    the table once each, or has done neither and returned [False]. *)
Lemma execute_action_attempts (a : Action) (ip : string)
    (ports : list string) (i : nat) (key : string) :
  returns attempts (execute_action a ip ports i key).
Proof.
  intros st. rewrite execute_action_gate.
  pose proof (eligibility_gate_quiet a ports (row_at i st) key st)
    as [_ (logs & Hlogs & Hall)].
  destruct (eligibility_gate a ports (row_at i st) key st)
    as [[[|]|e] st1]; cbn [snd] in *; [| |exact I].
  - destruct (plugin_execute a ip (str_port (port a)) (row_at i st1) key
                (world st1)) as [[[result|e] row'] w] eqn:Hx.
    + rewrite (dispatch_returned _ _ _ _ _ _ _ _ Hx).
      eexists. split.
      * unfold recorded, called, calling.
        cbn [trace emit set_world set_current_data set_bjornstatustext2].
        rewrite Hlogs, <- !app_assoc. reflexivity.
      * split.
        -- unfold paired. rewrite pairing_app, (pairing_logs _ logs Hall).
           reflexivity.
        -- intros _. rewrite !count_events_app. simpl. lia.
    + rewrite (dispatch_raised _ _ _ _ _ _ _ _ Hx).
      destruct (is_Exception e); [|exact I].
      eexists. split.
      * unfold recorded, called, calling.
        cbn [trace emit set_world set_current_data set_bjornstatustext2].
        rewrite Hlogs, <- !app_assoc. reflexivity.
      * split; [|discriminate].
        unfold paired. rewrite pairing_app, (pairing_logs _ logs Hall).
        reflexivity.
  - exists logs. split; [exact Hlogs|]. split; [|discriminate].
    exact (pairing_logs _ logs Hall).
Qed.

End Returns.

Section CycleAttempts.

Context `{E : Env}.

Lemma returns_bind_silent {A B} (Q : B -> list Event -> Prop) (m : M A)
    (k : A -> M B) :
  silent m -> (forall a, returns Q (k a)) -> returns Q (bind m k).
Proof.
  intros Hs Hk st. unfold bind. specialize (Hs st).
  destruct (m st) as [[a|e] st1]; [|exact I]. cbn [snd] in Hs.
  specialize (Hk a st1). destruct (k a st1) as [[b|e] st2]; [|exact I].
  destruct Hk as (evs & Ht & HQ). exists evs. rewrite Ht, Hs. auto.
Qed.

Lemma returns_or (m1 m2 : M bool) :
  returns attempts m1 -> returns attempts m2 ->
  returns attempts (let* b := m1 in let* b' := m2 in ret (b || b')).
Proof.
  intros H1 H2.
  apply (returns_bind attempts (fun b b'' l => exists b', b'' = b || b' /\ attempts b' l));
    [exact H1| |].
  - intros b.
    apply (returns_bind attempts (fun b' b'' l => b'' = b || b' /\ l = []));
      [exact H2| |].
    + intros b'. apply returns_ret. auto.
    + intros b' b'' l1 l2 Hl1 [-> ->]. rewrite app_nil_r. exists b'. auto.
  - intros b b'' l1 l2 Hl1 (b' & -> & Hl2). apply attempts_app; assumption.
Qed.

Lemma try_children_attempts (children : list Action) (action_key ip : string)
    (ports : list string) (i : nat) :
  returns (fun _ : unit => attempts false)
    (try_children children action_key ip ports i).
Proof.
  induction children as [|c rest IH]; cbn [try_children].
  - apply returns_ret. apply attempts_nil. reflexivity.
  - destruct (bool_decide _); [|exact IH].
    apply (returns_bind attempts (fun _ _ => attempts false));
      [apply execute_action_attempts| |].
    + intros [|]; [|exact IH].
      apply returns_silent; [apply silent_set_bjornorch_status|].
      intros _. apply attempts_nil. reflexivity.
    + intros b [] l1 l2 H1 H2.
      apply attempts_weaken with (b := b || false).
      apply attempts_app; assumption.
Qed.

Lemma top_level_rows_attempts (a : Action) (rows : list nat) :
  returns attempts (top_level_rows a rows).
Proof.
  induction rows as [|i rest IH]; cbn [top_level_rows].
  - apply returns_ret. apply attempts_nil. reflexivity.
  - apply returns_bind_silent; [apply silent_gets|]. intros row.
    apply returns_bind_silent; [apply silent_py_getitem|]. intros alive.
    destruct (negb _); [exact IH|].
    apply returns_bind_silent; [apply silent_py_getitem|]. intros ip.
    apply returns_bind_silent; [apply silent_py_getitem|]. intros pc.
    destruct (b_parent_action a); [exact IH|].
    apply (returns_bind attempts
             (fun ok b l => if ok then attempts false l else attempts b l));
      [apply execute_action_attempts| |].
    + intros [|]; [|exact IH].
      apply returns_bind_silent; [apply silent_set_bjornorch_status|].
      intros _.
      apply (returns_bind (fun _ : unit => attempts false)
               (fun _ _ l => l = []));
        [| |].
      * apply returns_bind_silent; [apply silent_gets|]. intros all.
        apply try_children_attempts.
      * intros _. apply returns_ret. reflexivity.
      * intros [] b l1 l2 H1 ->. rewrite app_nil_r. exact H1.
    + intros [|] b l1 l2 H1 H2.
      * destruct (attempts_app _ _ _ _ H1 H2) as [Hc Hp].
        split; [exact Hc|]. intros _. apply Hp. reflexivity.
      * exact (attempts_app _ _ _ _ H1 H2).
Qed.

Lemma top_level_pass_attempts (acts : list Action) :
  returns attempts (top_level_pass acts).
Proof.
  induction acts as [|a rest IH]; cbn [top_level_pass].
  - apply returns_ret. apply attempts_nil. reflexivity.
  - apply returns_bind_silent; [apply silent_gets|]. intros n.
    apply returns_or; [apply top_level_rows_attempts|exact IH].
Qed.

Lemma child_sweep_rows_attempts (child_action : Action) (rows : list nat) :
  returns attempts (child_sweep_rows child_action rows).
Proof.
  induction rows as [|i rest IH]; cbn [child_sweep_rows].
  - apply returns_ret. apply attempts_nil. reflexivity.
  - apply returns_bind_silent; [apply silent_gets|]. intros row.
    apply returns_bind_silent; [apply silent_py_getitem|]. intros ip.
    apply returns_bind_silent; [apply silent_py_getitem|]. intros pc.
    apply (returns_bind attempts
             (fun ok b l => if ok then b = true /\ l = [] else attempts b l));
      [apply execute_action_attempts| |].
    + intros [|]; [|exact IH].
      apply returns_bind_silent; [apply silent_set_bjornorch_status|].
      intros _. apply returns_ret. auto.
    + intros [|] b l1 l2 H1 H2.
      * destruct H2 as [-> ->]. rewrite app_nil_r. exact H1.
      * exact (attempts_app _ _ _ _ H1 H2).
Qed.

Lemma child_sweep_attempts (acts : list Action) :
  returns attempts (child_sweep acts).
Proof.
  induction acts as [|a rest IH]; cbn [child_sweep].
  - apply returns_ret. apply attempts_nil. reflexivity.
  - apply returns_or; [|exact IH].
    destruct (truthy _).
    + apply returns_bind_silent; [apply silent_gets|]. intros n.
      apply child_sweep_rows_attempts.
    + apply returns_ret. apply attempts_nil. reflexivity.
Qed.

Lemma process_alive_ips_attempts (data : list Row) :
  returns attempts (process_alive_ips data).
Proof.
  unfold process_alive_ips.
  apply returns_bind_silent; [intros st; reflexivity|]. intros _.
  apply returns_bind_silent; [apply silent_gets|]. intros acts.
  apply returns_or; [apply top_level_pass_attempts|apply child_sweep_attempts].
Qed.

(** X11. In a cycle that returns, every call of a plugin is followed by
    one write of the table before the next call, and nothing else writes
    the table: read in order, the calls and writes of the cycle alternate,
    a call first and a write last. So the cycle has made as many calls as
    writes. A cycle that returns [True] has called at least one plugin. *)
Theorem cycle_writes_after_every_attempt (data : list Row) (st : St)
    (b : bool) (evs : list Event) :
  (process_alive_ips data st).1 = Ok b ->
  trace (process_alive_ips data st).2 = trace st ++ evs ->
  pairing false evs = Some false /\
  count_events is_execute evs = count_events is_write evs /\
  (b = true -> (0 < count_events is_execute evs)%nat).
Proof.
  intros Hres Htr. pose proof (process_alive_ips_attempts data st) as H.
  destruct (process_alive_ips data st) as [[b'|e] st'];
    cbn [fst snd] in *; [|discriminate].
  injection Hres as ->. destruct H as (evs' & Htr' & Hpair & Hsome).
  rewrite Htr in Htr'. apply app_inv_head in Htr'. subst evs'.
  split; [exact Hpair|]. split; [exact (paired_counts _ Hpair)|exact Hsome].
Qed.

Lemma top_level_pass_empty (acts : list Action) (st : St) :
  current_data st = [] -> top_level_pass acts st = (Ok false, st).
Proof.
  intros Hd. induction acts as [|a rest IH]; [reflexivity|].
  cbn [top_level_pass]. erewrite bind_ok; [|reflexivity]. rewrite Hd.
  cbn [length seq top_level_rows]. erewrite bind_ok; [|reflexivity].
  erewrite bind_ok; [|exact IH]. reflexivity.
Qed.

Lemma child_sweep_empty (acts : list Action) (st : St) :
  current_data st = [] -> child_sweep acts st = (Ok false, st).
Proof.
  intros Hd. induction acts as [|a rest IH]; [reflexivity|].
  cbn [child_sweep]. erewrite bind_ok; cycle 1.
  { destruct (truthy (b_parent_action a)); [|reflexivity].
    erewrite bind_ok; [|reflexivity]. rewrite Hd. reflexivity. }
  erewrite bind_ok; [|exact IH].
  destruct (truthy (b_parent_action a)); reflexivity.
Qed.

(** X12. A cycle over the empty table returns [False] for every registry,
    calls no plugin, logs and writes nothing. *)
Theorem cycle_over_empty_table (st : St) :
  process_alive_ips [] st = (Ok false, set_current_data [] st).
Proof.
  unfold process_alive_ips. erewrite bind_ok; [|reflexivity].
  erewrite bind_ok; [|reflexivity].
  erewrite bind_ok; [|apply top_level_pass_empty; reflexivity].
  erewrite bind_ok; [|apply child_sweep_empty; reflexivity].
  reflexivity.
Qed.

End CycleAttempts.

Lemma cycle_writes_after_every_attempt_witness :
  pairing false
    (trace (@process_alive_ips (Demo.demo_env false) [fresh_row]
              (Demo.init false t0 [] [ActionX; ChildY] [])).2)
  = Some false /\
  count_events is_execute
    (trace (@process_alive_ips (Demo.demo_env false) [fresh_row]
              (Demo.init false t0 [] [ActionX; ChildY] [])).2)
  = count_events is_write
      (trace (@process_alive_ips (Demo.demo_env false) [fresh_row]
                (Demo.init false t0 [] [ActionX; ChildY] [])).2) /\
  (true = true ->
   (0 < count_events is_execute
          (trace (@process_alive_ips (Demo.demo_env false) [fresh_row]
                    (Demo.init false t0 [] [ActionX; ChildY] [])).2))%nat).
Proof.
  apply (@cycle_writes_after_every_attempt (Demo.demo_env false)
           [fresh_row] (Demo.init false t0 [] [ActionX; ChildY] []) true).
  - vm_compute. reflexivity.
  - reflexivity.
Defined.

(** ** More on loading the registry *)

Section LoadingMore.

Context `{E : Env}.

Lemma reserved_false (module_name : string) :
  reserved module_name = false ->
  String.eqb module_name "scanning" = false /\
  String.eqb module_name "nmap_vuln_scanner" = false.
Proof. unfold reserved. intros H. apply orb_false_iff. exact H. Qed.

Lemma load_record_loadable (cfg : ActionConfig) (a : Action) (st : St) :
  loadable cfg = Some a -> load_record cfg st = (Ok tt, enlist a st).
Proof.
  unfold loadable, load_record.
  destruct (cfg_b_module cfg) as [mn|]; [|discriminate].
  destruct (cfg_b_class cfg) as [c|] eqn:Hc; [|discriminate].
  destruct (reserved mn) eqn:Hres; [discriminate|].
  destruct (reserved_false mn Hres) as [Hs Hn].
  destruct (import_module mn) as [m|e] eqn:Himp; [|discriminate].
  destruct (mod_construct m c) as [[[]|e]|] eqn:Hm; try discriminate.
  intros [= <-]. erewrite bind_ok; [|reflexivity]. rewrite Hs, Hn.
  unfold load_action, py_import_module. rewrite Himp.
  erewrite bind_ok; [|reflexivity].
  unfold try_except, bind, py_construct, ret, modify, enlist. rewrite Hc.
  cbv beta iota. rewrite Hm. cbv beta iota. cbn [port].
  destruct (bool_decide (cfg_b_port cfg = Some 0)); reflexivity.
Qed.

Lemma enlist_actions (a : Action) (st : St) :
  actions (enlist a st)
  = actions st ++ filter (fun b => port b <> Some 0) [a].
Proof.
  unfold enlist. rewrite filter_cons, filter_nil.
  destruct (decide (port a <> Some 0)) as [Hne|Heq].
  - rewrite bool_decide_eq_false_2 by assumption. reflexivity.
  - apply dec_stable in Heq. rewrite bool_decide_eq_true_2 by assumption.
    cbn [actions set_standalone_actions]. rewrite app_nil_r. reflexivity.
Qed.

Lemma enlist_standalone (a : Action) (st : St) :
  standalone_actions (enlist a st)
  = standalone_actions st ++ filter (fun b => port b = Some 0) [a].
Proof.
  unfold enlist. rewrite filter_cons, filter_nil.
  destruct (decide (port a = Some 0)) as [Heq|Hne].
  - rewrite bool_decide_eq_true_2 by assumption. reflexivity.
  - rewrite bool_decide_eq_false_2 by assumption.
    cbn [standalone_actions set_actions]. rewrite app_nil_r. reflexivity.
Qed.

Lemma enlist_trace (a : Action) (st : St) : trace (enlist a st) = trace st.
Proof. unfold enlist. destruct (bool_decide _); reflexivity. Qed.

(** What a record that loads does to the two lists and to the log. *)
Lemma load_record_loads (cfg : ActionConfig) (added : list Action) (st : St) :
  record_loads cfg = Some added ->
  exists st',
    load_record cfg st = (Ok tt, st') /\
    actions st' = actions st ++ filter (fun a => port a <> Some 0) added /\
    standalone_actions st'
    = standalone_actions st ++ filter (fun a => port a = Some 0) added /\
    trace st' = trace st.
Proof.
  unfold record_loads.
  destruct (cfg_b_module cfg) as [mn|] eqn:Hmn; [|discriminate].
  destruct (String.eqb mn "scanning") eqn:Hs.
  - destruct (import_module mn) as [m|e] eqn:Himp; [|discriminate].
    destruct (mod_b_class m) as [c|] eqn:Hc; [|discriminate].
    destruct (mod_construct m c) as [[[]|e]|] eqn:Hm; try discriminate.
    intros [= <-]. eexists. split.
    + unfold load_record. rewrite Hmn. erewrite bind_ok; [|reflexivity].
      rewrite Hs. unfold load_scanner, py_import_module. rewrite Himp.
      erewrite bind_ok; [|reflexivity]. rewrite Hc.
      erewrite bind_ok; [|reflexivity].
      erewrite bind_ok; [reflexivity|].
      unfold py_construct. rewrite Hm. reflexivity.
    + rewrite !filter_nil, !app_nil_r. auto.
  - destruct (String.eqb mn "nmap_vuln_scanner") eqn:Hn.
    + destruct construct_nmap_vuln_scanner as [[]|e] eqn:Hv; [|discriminate].
      intros [= <-]. eexists. split.
      * unfold load_record. rewrite Hmn. erewrite bind_ok; [|reflexivity].
        rewrite Hs, Hn. unfold load_nmap_vuln_scanner. rewrite Hv.
        reflexivity.
      * rewrite !filter_nil, !app_nil_r. auto.
    + destruct (loadable cfg) as [a|] eqn:Hload; [|discriminate].
      intros [= <-]. exists (enlist a st).
      split; [exact (load_record_loadable cfg a st Hload)|].
      rewrite enlist_actions, enlist_standalone, enlist_trace. auto.
Qed.

(** X13. When every record of the actions file loads, the records of
    [scanning] and [nmap_vuln_scanner] included, [load_actions] returns
    without logging, and appends the action instances to the two lists
    in the order of the file: those with port 0 to [standalone_actions],
    all others (a missing port included) to [actions]; the two reserved
    records add nothing to either list. *)
Theorem load_actions_partitions (actions_config : list ActionConfig)
    (added : list (list Action)) (st : St) :
  Forall2 (fun cfg l => record_loads cfg = Some l) actions_config added ->
  (load_actions actions_config st).1 = Ok tt /\
  actions (load_actions actions_config st).2
    = actions st ++ filter (fun a => port a <> Some 0) (concat added) /\
  standalone_actions (load_actions actions_config st).2
    = standalone_actions st
      ++ filter (fun a => port a = Some 0) (concat added) /\
  trace (load_actions actions_config st).2 = trace st.
Proof.
  intros Hall. revert st.
  induction Hall as [|cfg l cfgs ls Hload _ IH]; intros st.
  - cbn [load_actions ret fst snd concat]. rewrite !filter_nil, !app_nil_r.
    auto.
  - cbn [load_actions concat].
    destruct (load_record_loads cfg l st Hload)
      as (st' & Hrun & Hacts' & Hsa' & Htr').
    rewrite (bind_ok _ _ _ _ _ Hrun).
    destruct (IH st') as (Hres & Hacts & Hsa & Htr).
    split; [exact Hres|].
    rewrite Hacts, Hsa, Htr, Hacts', Hsa', Htr'.
    rewrite !filter_app, !app_assoc. auto.
Qed.

#[global] Instance grows_preorder : PreOrder grows.
Proof.
  split; [intros st; split; reflexivity|].
  intros s1 s2 s3 [H1 H1'] [H2 H2']. split; etransitivity; eassumption.
Qed.

Lemma grows_same (st st' : St) :
  actions st' = actions st -> standalone_actions st' = standalone_actions st ->
  grows st st'.
Proof. intros H1 H2. split; [rewrite H1|rewrite H2]; reflexivity. Qed.

Lemma load_record_grows (cfg : ActionConfig) : steps grows (load_record cfg).
Proof.
  unfold load_record, load_scanner, load_nmap_vuln_scanner, load_action,
    py_import_module, py_construct, log.
  repeat first
    [ match goal with
      | |- forall _, _ => intros ?
      | |- PreOrder _ => typeclasses eauto
      | |- steps _ (if ?b then _ else _) => destruct b
      | |- steps _ (match ?x with _ => _ end) => destruct x
      | |- steps _ (ret _) => apply steps_ret
      | |- steps _ (raise _) => apply steps_raise
      | |- steps _ (bind _ _) => apply steps_bind
      | |- steps _ (try_except _ _ _) => apply steps_try_except
      | |- steps _ (modify _) => apply steps_modify
      | |- grows _ (set_network_scanner _ _) =>
          apply grows_same; reflexivity
      | |- grows _ (set_nmap_vuln_scanner _ _) =>
          apply grows_same; reflexivity
      | |- grows _ (emit _ _) => apply grows_same; reflexivity
      | |- grows _ (set_actions _ _) =>
          split; [apply prefix_app_r; reflexivity|reflexivity]
      | |- grows _ (set_standalone_actions _ _) =>
          split; [reflexivity|apply prefix_app_r; reflexivity]
      end ].
Qed.

(** X14. However [load_actions] ends, it has not dropped, replaced or
    reordered an action loaded before: each list it started with is a
    prefix of the list it leaves. *)
Theorem load_actions_only_appends (actions_config : list ActionConfig)
    (st : St) :
  actions st `prefix_of` actions (load_actions actions_config st).2 /\
  standalone_actions st
    `prefix_of` standalone_actions (load_actions actions_config st).2.
Proof.
  revert st. induction actions_config as [|cfg rest IH]; intros st;
    [split; reflexivity|].
  cbn [load_actions]. unfold bind.
  pose proof (load_record_grows cfg st) as Hg.
  destruct (load_record cfg st) as [[[]|e] st1]; cbn [snd] in *;
    [|exact Hg].
  change (grows st (load_actions rest st1).2).
  etransitivity; [exact Hg|apply IH].
Qed.

End LoadingMore.

Section LoadingErrors.

Context `{E : Env}.

(** X15. A record without the key [b_module], or a record of an
    importable module without the key [b_class], ends [load_actions] with
    a [KeyError]: the handler of [load_action] catches [AttributeError]
    only. The records after it are not loaded and nothing is logged. *)
Theorem missing_key_aborts_loading (bad : ActionConfig)
    (post : list ActionConfig) (st : St) :
  cfg_b_module bad = None \/
  (exists module_name m,
      cfg_b_module bad = Some module_name /\ reserved module_name = false /\
      import_module module_name = Ok m /\ cfg_b_class bad = None) ->
  exists key, load_actions (bad :: post) st = (Raise (KeyError key), st).
Proof.
  intros [Hm|(mn & m & Hm & Hres & Himp & Hc)].
  - exists "b_module". cbn [load_actions].
    erewrite bind_raise; [reflexivity|].
    unfold load_record. rewrite Hm. reflexivity.
  - exists "b_class". cbn [load_actions].
    erewrite bind_raise; [reflexivity|].
    destruct (reserved_false mn Hres) as [Hs Hn].
    unfold load_record. rewrite Hm. erewrite bind_ok; [|reflexivity].
    rewrite Hs, Hn. unfold load_action, py_import_module. rewrite Himp.
    erewrite bind_ok; [|reflexivity].
    unfold try_except, bind. rewrite Hc. reflexivity.
Qed.


#[global] Instance registered_preorder : PreOrder registered.
Proof.
  split; [intros st a Ha; left; exact Ha|].
  intros s1 s2 s3 H1 H2 a Ha.
  destruct (H2 a Ha) as [Ha2|Hr]; [apply H1; exact Ha2|right; exact Hr].
Qed.

Lemma registered_same (st st' : St) :
  actions st' = actions st -> standalone_actions st' = standalone_actions st ->
  registered st st'.
Proof. intros H1 H2 a Ha. left. rewrite <- H1, <- H2. exact Ha. Qed.

Lemma load_action_registered (module_name : string) (cfg : ActionConfig) :
  reserved module_name = false ->
  steps registered (load_action module_name cfg).
Proof.
  intros Hres. unfold load_action, py_import_module, py_construct, log.
  repeat first
    [ match goal with
      | |- forall _, _ => intros ?
      | |- PreOrder _ => typeclasses eauto
      | |- steps _ (if ?b then _ else _) => destruct b
      | |- steps _ (match ?x with _ => _ end) => destruct x
      | |- steps _ (ret _) => apply steps_ret
      | |- steps _ (raise _) => apply steps_raise
      | |- steps _ (bind _ _) => apply steps_bind
      | |- steps _ (try_except _ _ _) => apply steps_try_except
      | |- steps _ (modify _) => apply steps_modify
      | |- registered _ (emit _ _) => apply registered_same; reflexivity
      end ].
  - intros b Hb. cbn [actions standalone_actions set_standalone_actions] in Hb.
    rewrite app_assoc in Hb. apply elem_of_app in Hb as [Hb|Hb];
      [left; exact Hb|].
    apply list_elem_of_singleton in Hb. subst b. right. exact Hres.
  - intros b Hb. cbn [actions standalone_actions set_actions] in Hb.
    rewrite !elem_of_app in Hb. rewrite elem_of_app.
    destruct Hb as [[Hb|Hb]|Hb]; [left; left; exact Hb| |left; right; exact Hb].
    apply list_elem_of_singleton in Hb. subst b. right. exact Hres.
Qed.

Lemma load_record_registered (cfg : ActionConfig) :
  steps registered (load_record cfg).
Proof.
  unfold load_record.
  apply steps_bind; [typeclasses eauto| |].
  - destruct (cfg_b_module cfg);
      [apply steps_ret|apply steps_raise]; typeclasses eauto.
  - intros mn.
    destruct (String.eqb mn "scanning") eqn:Hs.
    { unfold load_scanner, py_import_module, py_construct.
      repeat first
        [ match goal with
          | |- forall _, _ => intros ?
          | |- PreOrder _ => typeclasses eauto
          | |- steps _ (match ?x with _ => _ end) => destruct x
          | |- steps _ (ret _) => apply steps_ret
          | |- steps _ (raise _) => apply steps_raise
          | |- steps _ (bind _ _) => apply steps_bind
          | |- steps _ (modify _) => apply steps_modify
          | |- registered _ (set_network_scanner _ _) =>
              apply registered_same; reflexivity
          end ]. }
    destruct (String.eqb mn "nmap_vuln_scanner") eqn:Hn.
    { unfold load_nmap_vuln_scanner.
      destruct construct_nmap_vuln_scanner as [[]|e];
        [|apply steps_raise; typeclasses eauto].
      apply steps_modify. intros st. apply registered_same; reflexivity. }
    apply load_action_registered. unfold reserved. rewrite Hs, Hn.
    reflexivity.
Qed.

(** X17. The reserved modules never become actions: every action in one
    of the two lists after [load_actions] was there before or comes from
    a module other than [scanning] and [nmap_vuln_scanner]. *)
Theorem reserved_modules_are_no_actions (actions_config : list ActionConfig)
    (st : St) (a : Action) :
  a ∈ actions (load_actions actions_config st).2
      ++ standalone_actions (load_actions actions_config st).2 ->
  a ∈ actions st ++ standalone_actions st \/ reserved (b_module a) = false.
Proof.
  revert a. change (registered st (load_actions actions_config st).2).
  revert st. induction actions_config as [|cfg rest IH]; intros st;
    [reflexivity|].
  cbn [load_actions]. unfold bind.
  pose proof (load_record_registered cfg st) as Hg.
  destruct (load_record cfg st) as [[[]|e] st1]; cbn [snd] in *;
    [|exact Hg].
  etransitivity; [exact Hg|apply IH].
Qed.

End LoadingErrors.

Lemma load_actions_partitions_witness :
  actions
    (@load_actions (Demo.demo_env false) [cfg_scanning; cfgX; cfg_nmap; cfgY]
       blank).2
  = actions blank
    ++ filter (fun a => port a <> Some 0)
         (concat [[]; [ActionX]; []; [ActionY]]) /\
  standalone_actions
    (@load_actions (Demo.demo_env false) [cfg_scanning; cfgX; cfg_nmap; cfgY]
       blank).2
  = standalone_actions blank
    ++ filter (fun a => port a = Some 0)
         (concat [[]; [ActionX]; []; [ActionY]]).
Proof.
  destruct (@load_actions_partitions (Demo.demo_env false)
              [cfg_scanning; cfgX; cfg_nmap; cfgY]
              [[]; [ActionX]; []; [ActionY]] blank) as (_ & Ha & Hs & _).
  - repeat constructor; vm_compute; reflexivity.
  - split; [exact Ha|exact Hs].
Defined.

Lemma missing_key_aborts_loading_witness :
  exists key,
    @load_actions (Demo.demo_env false) [cfg_no_module; cfgX] blank
    = (Raise (KeyError key), blank).
Proof.
  apply (@missing_key_aborts_loading (Demo.demo_env false) cfg_no_module
           [cfgX] blank).
  left. reflexivity.
Defined.


Lemma reserved_modules_are_no_actions_witness :
  ActionX ∈ actions blank ++ standalone_actions blank \/
  reserved (b_module ActionX) = false.
Proof.
  apply (@reserved_modules_are_no_actions (Demo.demo_env false)
           [cfgX; cfgY] blank ActionX).
  apply (list_elem_of_lookup_2 _ 0%nat). vm_compute. reflexivity.
Defined.

(** ** More on the outer loop *)

Section RunMore.

Context `{E : Env}.

(** X18. Without a network scanner loaded (no [scanning] record in the
    actions file), [run] raises [AttributeError] at its first scan, for
    every amount of fuel: the call of line 185 is not guarded as the one
    of line 197 is. No cycle is run and nothing is logged. *)
Theorem run_without_scanner_raises (fuel : nat) (st : St) :
  network_scanner st = None ->
  (run fuel st).1 = Some (Raise AttributeError) /\
  trace (run fuel st).2 = trace st /\
  current_data (run fuel st).2 = current_data st.
Proof.
  intros Hnone. unfold run, fbind, lift.
  assert (Hfirst :
    (modify (set_bjornorch_status "NetworkScanner");;
     modify (set_bjornstatustext2 "First scan...");;
     network_scanner_scan;;
     modify (set_bjornstatustext2 "")) st
    = (Raise AttributeError,
       set_bjornstatustext2 "First scan..."
         (set_bjornorch_status "NetworkScanner" st))).
  { erewrite bind_ok; [|reflexivity]. erewrite bind_ok; [|reflexivity].
    erewrite bind_raise; [reflexivity|].
    unfold network_scanner_scan. erewrite bind_ok; [|reflexivity].
    cbn [network_scanner set_bjornstatustext2 set_bjornorch_status].
    rewrite Hnone. reflexivity. }
  rewrite Hfirst. repeat split; reflexivity.
Qed.

Lemma run_loop_eq (fuel : nat) (st : St) :
  run_loop (S fuel) st
  = if orchestrator_should_exit (world st)
    then (Some (Ok tt), st)
    else fbind (run_iteration fuel) (fun _ => run_loop fuel) st.
Proof.
  cbn [run_loop]. unfold fbind at 1, lift at 1, gets.
  destruct (orchestrator_should_exit (world st)); reflexivity.
Qed.

(** X19. The loop of [run] returns only on the shutdown flag: whenever it
    returns, [orchestrator_should_exit] is set in the state it leaves.
    (No other exit exists: the loop has no [break] and no [return].) *)
Theorem run_loop_returns_on_flag (fuel : nat) (st : St) :
  (run_loop fuel st).1 = Some (Ok tt) ->
  orchestrator_should_exit (world (run_loop fuel st).2) = true.
Proof.
  revert st. induction fuel as [|fuel IH]; intros st; [discriminate|].
  rewrite run_loop_eq.
  destruct (orchestrator_should_exit (world st)) eqn:Hflag.
  - intros _. exact Hflag.
  - unfold fbind.
    destruct (run_iteration fuel st) as [[[[]|e]|] st1];
      cbn [fst snd]; try discriminate.
    apply IH.
Qed.




End RunMore.

Lemma run_without_scanner_raises_witness :
  (@run (Demo.demo_env false) 5 no_scanner_st).1
  = Some (Raise AttributeError) /\
  trace (@run (Demo.demo_env false) 5 no_scanner_st).2 = trace no_scanner_st /\
  current_data (@run (Demo.demo_env false) 5 no_scanner_st).2
  = current_data no_scanner_st.
Proof.
  apply (@run_without_scanner_raises (Demo.demo_env false) 5 no_scanner_st).
  reflexivity.
Defined.

Lemma run_loop_returns_on_flag_witness :
  (@run_loop stopping_env 2 stopping_st).1 = Some (Ok tt) /\
  @orchestrator_should_exit stopping_env
    (world (@run_loop stopping_env 2 stopping_st).2) = true.
Proof.
  assert (H : (@run_loop stopping_env 2 stopping_st).1 = Some (Ok tt))
    by (vm_compute; reflexivity).
  split; [exact H|].
  exact (@run_loop_returns_on_flag stopping_env 2 stopping_st H).
Defined.


(** ** The credential loop of [switch_network_if_idle] *)

Section ConnectKnown.

Context `{E : Env}.

Lemma connect_known_skip (network : Network) (rest : list Network)
    (available_ssids : list string) (st : St) :
  out_of_range available_ssids network ->
  connect_known (network :: rest) available_ssids st
  = connect_known rest available_ssids st.
Proof.
  intros [(ssid & Hssid & Hout) Hb]. cbn [connect_known].
  rewrite Hssid. erewrite bind_ok; [|reflexivity].
  rewrite (bool_decide_eq_false_2 _ Hout).
  destruct (net_BSSID network) as [bssid|]; [|reflexivity].
  rewrite (bool_decide_eq_false_2 _ (Hb bssid eq_refl)). reflexivity.
Qed.

Lemma connect_known_skip_all (pre rest : list Network)
    (available_ssids : list string) (st : St) :
  Forall (out_of_range available_ssids) pre ->
  connect_known (pre ++ rest) available_ssids st
  = connect_known rest available_ssids st.
Proof.
  induction 1 as [|network pre Hn _ IH]; [reflexivity|].
  rewrite <- app_comm_cons, connect_known_skip by assumption. exact IH.
Qed.

(** X21. When none of the known networks was seen by the scan, by name or
    by BSSID, the credential loop does nothing at all: no connection is
    attempted, nothing is logged, the state is left as it was. *)
Theorem connect_known_out_of_range (credentials : list Network)
    (available_ssids : list string) (st : St) :
  Forall (out_of_range available_ssids) credentials ->
  connect_known credentials available_ssids st = (Ok tt, st).
Proof.
  intros H. rewrite <- (app_nil_r credentials).
  rewrite connect_known_skip_all by assumption. reflexivity.
Qed.

(** X22. The credential loop stops at the first network that connects
    (the [break] of line 96): the networks before it that are out of
    range are passed over, one connection is made, and the entries after
    it are never looked at, whatever they hold. *)
Theorem connect_known_stops_at_first_success (pre post : list Network)
    (network : Network) (available_ssids : list string)
    (ssid password : string) (st : St) :
  Forall (out_of_range available_ssids) pre ->
  net_SSID network = Some ssid ->
  net_Password network = Some password ->
  (ssid ∈ available_ssids \/
   exists bssid, net_BSSID network = Some bssid /\ bssid ∈ available_ssids) ->
  (connect_to_network ssid password (world st)).1 = Ok true ->
  connect_known (pre ++ network :: post) available_ssids st
  = (Ok tt,
     emit (EvLog Info "Network switching complete.")
       (set_world (connect_to_network ssid password (world st)).2
          (emit (EvLog Info "Found known network. Attempting to connect...")
             st))).
Proof.
  intros Hpre Hssid Hpw Hin Hok.
  rewrite connect_known_skip_all by assumption.
  cbn [connect_known]. rewrite Hssid, Hpw.
  erewrite bind_ok; [|reflexivity].
  assert (Hrange :
    bool_decide (ssid ∈ available_ssids) ||
    match net_BSSID network with
    | Some b => bool_decide (b ∈ available_ssids)
    | None => false
    end = true).
  { destruct Hin as [Hin|(bssid & -> & Hin)].
    - rewrite (bool_decide_eq_true_2 _ Hin). reflexivity.
    - rewrite (bool_decide_eq_true_2 _ Hin). apply orb_true_r. }
  rewrite Hrange.
  erewrite bind_ok; [|reflexivity].
  erewrite bind_ok; [|reflexivity].
  erewrite bind_ok; cycle 1.
  { cbn [world emit set_world].
    rewrite (surjective_pairing (connect_to_network ssid password (world st))).
    rewrite Hok. reflexivity. }
  reflexivity.
Qed.

(** X23. An entry of the credentials file without an ['SSID'] key, once
    the loop reaches it, ends the idle recovery with [KeyError]: the
    lookup of line 91 is not guarded, and the error leaves
    [switch_network_if_idle] before the sleep. *)
Theorem credential_without_ssid_raises (fuel : nat)
    (pre post : list Network) (network : Network)
    (available_ssids : list string) (st : St) :
  bjornorch_status st = "idle_action" ->
  (scan_available_networks (world st)).1 = Ok available_ssids ->
  Forall (out_of_range available_ssids) pre ->
  net_SSID network = None ->
  (switch_network_loop (S fuel) (pre ++ network :: post) st).1
  = Some (Raise (KeyError "SSID")) /\
  trace (switch_network_loop (S fuel) (pre ++ network :: post) st).2
  = trace st ++ [EvLog Info "Bjorn is idle. Scanning for known networks..."].
Proof.
  intros Hidle Hscan Hpre Hssid.
  assert (Hpoll :
    idle_poll (pre ++ network :: post) st
    = (Raise (KeyError "SSID"),
       set_world (scan_available_networks (world st)).2
         (emit (EvLog Info "Bjorn is idle. Scanning for known networks...")
            st))).
  { unfold idle_poll. erewrite bind_ok; [|reflexivity].
    rewrite Hidle. cbn [String.eqb Ascii.eqb Bool.eqb].
    erewrite bind_raise; [reflexivity|].
    erewrite bind_ok; [|reflexivity].
    erewrite bind_ok; cycle 1.
    { cbn [world emit].
      rewrite (surjective_pairing (scan_available_networks (world st))).
      rewrite Hscan. reflexivity. }
    rewrite connect_known_skip_all by assumption.
    cbn [connect_known]. rewrite Hssid.
    erewrite bind_raise; reflexivity. }
  cbn [switch_network_loop]. unfold fbind, lift. rewrite Hpoll.
  split; reflexivity.
Qed.

End ConnectKnown.

Lemma home_out_of_range : out_of_range ["cafe"] net_home.
Proof.
  split.
  - exists "home". split; [reflexivity|]. intros H.
    apply (bool_decide_eq_true_2 _) in H. discriminate H.
  - intros bssid [= <-] H.
    apply (bool_decide_eq_true_2 _) in H. discriminate H.
Qed.

Lemma connect_known_out_of_range_witness :
  @connect_known cafe_env [net_home] ["cafe"] cafe_st = (Ok tt, cafe_st).
Proof.
  apply (@connect_known_out_of_range cafe_env [net_home] ["cafe"] cafe_st).
  repeat constructor; apply home_out_of_range.
Defined.

Lemma connect_known_stops_at_first_success_witness :
  @connect_known cafe_env ([net_home] ++ net_cafe :: [net_nameless])
    ["cafe"] cafe_st
  = (Ok tt,
     emit (EvLog Info "Network switching complete.")
       (set_world
          (@connect_to_network cafe_env "cafe" "secret2" (world cafe_st)).2
          (emit (EvLog Info "Found known network. Attempting to connect...")
             cafe_st))).
Proof.
  apply (@connect_known_stops_at_first_success cafe_env [net_home]
           [net_nameless] net_cafe ["cafe"] "cafe" "secret2" cafe_st).
  - repeat constructor; apply home_out_of_range.
  - reflexivity.
  - reflexivity.
  - left. apply list_elem_of_here.
  - reflexivity.
Defined.

Lemma credential_without_ssid_raises_witness :
  (@switch_network_loop cafe_env 3 ([net_home] ++ net_nameless :: [net_cafe])
     cafe_st).1
  = Some (Raise (KeyError "SSID")) /\
  trace (@switch_network_loop cafe_env 3
           ([net_home] ++ net_nameless :: [net_cafe]) cafe_st).2
  = trace cafe_st
    ++ [EvLog Info "Bjorn is idle. Scanning for known networks..."].
Proof.
  apply (@credential_without_ssid_raises cafe_env 2 [net_home] [net_cafe]
           net_nameless ["cafe"] cafe_st).
  - reflexivity.
  - reflexivity.
  - repeat constructor; apply home_out_of_range.
  - reflexivity.
Defined.

(** ** The functions of [wifi_monitor.py] *)

Module PyTextFacts.

Import PyStr PyText PyStrFacts.

Lemma append_assoc (a b c : string) : (a +:+ b) +:+ c = a +:+ (b +:+ c).
Proof.
  induction a as [|x a IH]; [rewrite !append_nil; reflexivity|].
  rewrite !append_cons, IH. reflexivity.
Qed.

Lemma split_nonempty (sep : ascii) (s : string) : split sep s <> [].
Proof.
  destruct s as [|c s]; simpl; [discriminate|].
  destruct (Ascii.eqb c sep); [discriminate|].
  destruct (split sep s); discriminate.
Qed.

Lemma split_two (sep : ascii) (s : string) :
  has_char sep s = true -> exists a b r, split sep s = a :: b :: r.
Proof.
  induction s as [|c s IH]; simpl; [discriminate|].
  intros H. destruct (Ascii.eqb c sep) eqn:Heq.
  - destruct (split sep s) as [|b r] eqn:Hs; [|eauto].
    exfalso. exact (split_nonempty _ _ Hs).
  - rewrite Ascii.eqb_sym, Heq in H. simpl in H.
    destruct (IH H) as (a & b & r & ->). eauto.
Qed.

Lemma prefix_has_char (c : ascii) (needle hay : string) :
  String.prefix needle hay = true -> has_char c needle = true ->
  has_char c hay = true.
Proof.
  revert hay. induction needle as [|a needle IH]; intros hay;
    [discriminate 2|].
  destruct hay as [|b hay]; [discriminate|]. simpl.
  destruct (ascii_dec a b) as [->|]; [|discriminate].
  intros Hp. destruct (Ascii.eqb c b); simpl; [reflexivity|].
  apply IH. exact Hp.
Qed.

Lemma contains_has_char_in (c : ascii) (needle hay : string) :
  contains needle hay = true -> has_char c needle = true ->
  has_char c hay = true.
Proof.
  intros Hc Hn. induction hay as [|c' hay IH].
  - cbn [contains] in Hc. rewrite orb_false_r in Hc.
    exact (prefix_has_char _ _ _ Hc Hn).
  - cbn [contains] in Hc. apply orb_true_iff in Hc as [Hp|Hc].
    + exact (prefix_has_char _ _ _ Hp Hn).
    + simpl. rewrite (IH Hc). apply orb_true_r.
Qed.

Lemma split_on_nonempty (sep : string) (s : string) (skip : nat) :
  split_on sep skip s <> [].
Proof.
  revert skip. induction s as [|c s IH]; intros skip; cbn [split_on];
    [discriminate|].
  destruct skip; [|apply IH].
  destruct (String.prefix sep (String c s)); [discriminate|].
  destruct (split_on sep 0 s); discriminate.
Qed.

Lemma split_str_two (sep s : string) :
  sep <> EmptyString -> contains sep s = true ->
  exists a b r, split_str sep s = a :: b :: r.
Proof.
  intros Hne. unfold split_str. induction s as [|c s IH].
  - destruct sep; [contradiction|discriminate].
  - cbn [contains split_on].
    destruct (String.prefix sep (String c s)).
    + intros _.
      destruct (split_on sep (Nat.pred (String.length sep)) s) as [|b r] eqn:Hs;
        [|eauto].
      exfalso. exact (split_on_nonempty _ _ _ Hs).
    + simpl. intros Hc. destruct (IH Hc) as (a & b & r & ->). eauto.
Qed.

Lemma rstrip_keeps_last (strips : ascii -> bool) (s : string) (d : ascii) :
  strips d = false ->
  rstrip_with strips (s +:+ String d EmptyString) = s +:+ String d EmptyString.
Proof.
  intros Hd. induction s as [|c s IH].
  - rewrite append_nil. simpl. rewrite Hd. reflexivity.
  - rewrite append_cons. cbn [rstrip_with]. rewrite IH.
    destruct s; [rewrite append_nil|rewrite append_cons]; reflexivity.
Qed.

Lemma rstrip_drops_last (strips : ascii -> bool) (s : string) (d : ascii) :
  all_chars (fun c => negb (strips c)) s = true -> strips d = true ->
  rstrip_with strips (s +:+ String d EmptyString) = s.
Proof.
  intros Hs Hd. induction s as [|c s IH].
  - rewrite append_nil. simpl. rewrite Hd. reflexivity.
  - rewrite append_cons. cbn [rstrip_with].
    cbn [all_chars] in Hs. apply andb_true_iff in Hs as [Hc Hs].
    rewrite (IH Hs). apply negb_true_iff in Hc. rewrite Hc.
    destruct s; reflexivity.
Qed.

Lemma rstrip_id (strips : ascii -> bool) (s : string) :
  all_chars (fun c => negb (strips c)) s = true -> rstrip_with strips s = s.
Proof.
  induction s as [|c s IH]; [reflexivity|].
  cbn [all_chars rstrip_with]. intros [Hc Hs]%andb_true_iff.
  rewrite (IH Hs). apply negb_true_iff in Hc. rewrite Hc.
  destruct s; reflexivity.
Qed.

Lemma lstrip_id (strips : ascii -> bool) (s : string) :
  all_chars (fun c => negb (strips c)) s = true -> lstrip_with strips s = s.
Proof.
  destruct s as [|c s]; [reflexivity|].
  cbn [all_chars lstrip_with]. intros [Hc _]%andb_true_iff.
  apply negb_true_iff in Hc. rewrite Hc. reflexivity.
Qed.

Lemma no_char_all_chars (d : ascii) (s : string) :
  has_char d s = false ->
  all_chars (fun c => negb (has_char c (String d EmptyString))) s = true.
Proof.
  induction s as [|c s IH]; [reflexivity|].
  intros H. cbn [has_char] in H. apply orb_false_iff in H as [Hc Hs].
  cbn [all_chars]. rewrite (IH Hs). cbn [has_char].
  rewrite Ascii.eqb_sym, Hc. reflexivity.
Qed.

(** Stripping the quotes of a quoted name. *)
Lemma strip_quoted (name : string) :
  has_char dquote name = false ->
  strip_chars (String dquote EmptyString)
    (strip (String dquote (name +:+ String dquote EmptyString)))
  = name.
Proof.
  intros Hq. unfold strip. cbn [lstrip_with].
  change (is_space dquote) with false. cbv iota.
  rewrite <- (append_cons dquote name), rstrip_keeps_last by reflexivity.
  rewrite append_cons. unfold strip_chars. cbn [lstrip_with].
  change (has_char dquote (String dquote EmptyString)) with true. cbv iota.
  destruct name as [|c name]; [reflexivity|].
  rewrite append_cons.
  pose proof (no_char_all_chars _ _ Hq) as Hall.
  cbn [lstrip_with]. cbn [all_chars] in Hall.
  apply andb_true_iff in Hall as [Hc Hall].
  apply negb_true_iff in Hc. rewrite Hc.
  rewrite <- append_cons.
  apply rstrip_drops_last; [|reflexivity].
  cbn [all_chars]. rewrite Hc, Hall. reflexivity.
Qed.

(** Stripping an opening quote and a name that was cut before its closing
    quote. *)
Lemma strip_cut (name : string) :
  has_char dquote name = false ->
  all_chars (fun c => negb (is_space c)) name = true ->
  strip_chars (String dquote EmptyString) (strip (String dquote name)) = name.
Proof.
  intros Hq Hs. unfold strip. cbn [lstrip_with].
  change (is_space dquote) with false. cbv iota.
  rewrite rstrip_id by (cbn [all_chars]; rewrite Hs; reflexivity).
  unfold strip_chars. cbn [lstrip_with].
  change (has_char dquote (String dquote EmptyString)) with true. cbv iota.
  pose proof (no_char_all_chars _ _ Hq) as Hall.
  rewrite lstrip_id by exact Hall. apply rstrip_id. exact Hall.
Qed.

End PyTextFacts.

Section WifiFacts.

Context `{E : Env}.

Variable spawn : list string -> W -> Res CompletedProcess * W.
Variable read_credentials_file : W -> Res (list Network) * W.

Import PyStr PyText PyStrFacts PyTextFacts.

Lemma subprocess_run_raises (cmd : list string) (check : bool) (e : exn)
    (st : St) :
  (spawn cmd (world st)).1 = Raise e ->
  WifiMonitor.subprocess_run spawn cmd check st
  = (Raise e, set_world (spawn cmd (world st)).2 st).
Proof.
  intros H. unfold WifiMonitor.subprocess_run.
  erewrite bind_raise; [reflexivity|].
  rewrite (surjective_pairing (spawn cmd (world st))), H. reflexivity.
Qed.

Lemma subprocess_run_completed (cmd : list string) (check : bool)
    (p : CompletedProcess) (st : St) :
  (spawn cmd (world st)).1 = Ok p ->
  WifiMonitor.subprocess_run spawn cmd check st
  = (if check && negb (returncode p =? 0)
     then Raise (OtherException "CalledProcessError")
     else Ok p,
     set_world (spawn cmd (world st)).2 st).
Proof.
  intros H. unfold WifiMonitor.subprocess_run.
  erewrite bind_ok; cycle 1.
  { rewrite (surjective_pairing (spawn cmd (world st))), H. reflexivity. }
  destruct (check && negb (returncode p =? 0)); reflexivity.
Qed.

(** X24. [load_wifi_credentials] never raises an [Exception]: it returns
    what the file holds, or the empty list when the file is missing or
    cannot be parsed. *)
Theorem load_wifi_credentials_no_exception (st : St) :
  match (WifiMonitor.load_wifi_credentials read_credentials_file st).1 with
  | Ok credentials =>
      (read_credentials_file (world st)).1 = Ok credentials \/
      credentials = [] /\
      exists e, (read_credentials_file (world st)).1 = Raise e
  | Raise e => is_Exception e = false
  end.
Proof.
  unfold WifiMonitor.load_wifi_credentials, try_except, bind.
  destruct (read_credentials_file (world st)) as [[credentials|e] w];
    cbn [fst snd].
  - left. reflexivity.
  - destruct (is_Exception e) eqn:He; cbn [fst snd].
    + right. split; [reflexivity|]. exists e. reflexivity.
    + exact He.
Qed.

Lemma parse_lines_total (lines : list string) (available_networks : list string)
    (st : St) :
  exists networks,
    WifiMonitor.parse_lines lines available_networks st = (Ok networks, st).
Proof.
  revert available_networks.
  induction lines as [|line rest IH]; intros available_networks;
    cbn [WifiMonitor.parse_lines]; [eexists; reflexivity|].
  destruct (contains "ESSID:" line) eqn:He.
  - destruct (split_two ":" line) as (a & b & r & ->).
    { apply (contains_has_char_in _ "ESSID:"); [exact He|reflexivity]. }
    erewrite bind_ok; [|reflexivity]. apply IH.
  - destruct (contains "Address:" line) eqn:Ha; [|apply IH].
    destruct (split_str_two "Address:" line) as (a & b & r & ->);
      [discriminate|exact Ha|].
    erewrite bind_ok; [|reflexivity]. apply IH.
Qed.

(** X25. Whatever [iwlist] prints and whatever its exit status, once it
    has run the scan returns a list: no line of the output makes the
    parser fail (the indexing of lines 53 and 56 cannot go out of range),
    a failed scan is not noticed (the call has no [check=True], so the
    handler of line 59 is never entered), and nothing is logged. *)
Theorem scan_never_fails_on_output (p : CompletedProcess) (st : St) :
  (spawn ["sudo"; "iwlist"; "wlan0"; "scan"] (world st)).1 = Ok p ->
  exists networks,
    WifiMonitor.scan_available_networks spawn st
    = (Ok networks,
       set_world (spawn ["sudo"; "iwlist"; "wlan0"; "scan"] (world st)).2 st).
Proof.
  intros Hp.
  destruct (parse_lines_total (splitlines (stdout p)) []
              (set_world
                 (spawn ["sudo"; "iwlist"; "wlan0"; "scan"] (world st)).2 st))
    as (networks & Hparse).
  exists networks.
  unfold WifiMonitor.scan_available_networks, try_except.
  erewrite bind_ok; cycle 1.
  { rewrite (subprocess_run_completed _ _ p) by exact Hp. reflexivity. }
  rewrite Hparse. reflexivity.
Qed.

Lemma essid_line_contains (indent rest : string) :
  contains "ESSID:" (indent +:+ "ESSID:" +:+ rest) = true.
Proof. apply contains_app_r, contains_prefix. Qed.

Lemma essid_line_split (indent rest : string) :
  has_char ":" indent = false ->
  split ":" (indent +:+ "ESSID:" +:+ rest)
  = (indent +:+ "ESSID") :: split ":" rest.
Proof.
  intros H.
  change ("ESSID:" +:+ rest) with ("ESSID" +:+ String ":" rest).
  rewrite <- append_assoc. apply split_app.
  rewrite has_char_app, H. reflexivity.
Qed.

(** X26. A line [ESSID:"name"] of the scan output, whatever precedes it
    on the line, adds exactly [name] to the networks in range, for every
    name without a colon and without a double quote. *)
Theorem essid_line_round_trip (indent name : string) (rest : list string)
    (available_networks : list string) (st : St) :
  has_char ":" indent = false ->
  has_char ":" name = false ->
  has_char dquote name = false ->
  WifiMonitor.parse_lines
    ((indent +:+ "ESSID:" +:+ String dquote (name +:+ String dquote ""))
       :: rest)
    available_networks st
  = WifiMonitor.parse_lines rest (available_networks ++ [name]) st.
Proof.
  intros Hindent Hcolon Hquote. cbn [WifiMonitor.parse_lines].
  rewrite essid_line_contains, essid_line_split by exact Hindent.
  rewrite split_no_sep; cycle 1.
  { cbn [has_char]. rewrite has_char_app, Hcolon. reflexivity. }
  erewrite bind_ok; [|reflexivity].
  cbv zeta. rewrite strip_quoted by exact Hquote. reflexivity.
Qed.

(** X27. A network name with a colon in it is cut at the colon: of the
    line [ESSID:"head:tail"] only [head] is kept (line 53 takes the
    second field of [split(":")]); the line reports [head], not
    [head:tail], whatever [tail] is. *)
Theorem essid_cut_at_colon (indent head tail : string) (rest : list string)
    (available_networks : list string) (st : St) :
  has_char ":" indent = false ->
  has_char ":" head = false ->
  has_char dquote head = false ->
  all_chars (fun c => negb (is_space c)) head = true ->
  WifiMonitor.parse_lines
    ((indent +:+ "ESSID:"
        +:+ String dquote (head +:+ String ":" (tail +:+ String dquote "")))
       :: rest)
    available_networks st
  = WifiMonitor.parse_lines rest (available_networks ++ [head]) st.
Proof.
  intros Hindent Hcolon Hquote Hspace. cbn [WifiMonitor.parse_lines].
  rewrite essid_line_contains, essid_line_split by exact Hindent.
  rewrite <- (append_cons dquote head), split_app; cycle 1.
  { cbn [has_char]. rewrite Hcolon. reflexivity. }
  erewrite bind_ok; [|reflexivity].
  cbv zeta. rewrite strip_cut by assumption. reflexivity.
Qed.

(** X28. When the disconnect command fails, [connect_to_network] gives up
    with [False]: the connect command is never run (the world is the one
    the disconnect left), whatever the network and the password. *)
Theorem disconnect_failure_skips_connect (ssid password : string)
    (p : CompletedProcess) (st : St) :
  (spawn ["nmcli"; "device"; "disconnect"; "wlan0"] (world st)).1 = Ok p ->
  returncode p <> 0 ->
  WifiMonitor.connect_to_network spawn ssid password st
  = (Ok false,
     emit (EvLog Error ("Failed to connect to " +:+ ssid))
       (set_world
          (spawn ["nmcli"; "device"; "disconnect"; "wlan0"] (world st)).2
          st)).
Proof.
  intros Hp Hrc. unfold WifiMonitor.connect_to_network, try_except.
  erewrite bind_raise; cycle 1.
  { rewrite (subprocess_run_completed _ _ p) by exact Hp.
    apply Z.eqb_neq in Hrc. rewrite Hrc. reflexivity. }
  reflexivity.
Qed.

(** The result of [connect_to_network], read off the two processes. *)
Lemma connect_to_network_result (ssid password : string) (st : St) :
  (WifiMonitor.connect_to_network spawn ssid password st).1
  = match (spawn ["nmcli"; "device"; "disconnect"; "wlan0"] (world st)).1 with
    | Raise e => if is_CalledProcessError e then Ok false else Raise e
    | Ok p1 =>
        if returncode p1 =? 0 then
          match
            (spawn
               ["nmcli"; "device"; "wifi"; "connect"; ssid; "password";
                password]
               (spawn ["nmcli"; "device"; "disconnect"; "wlan0"]
                  (world st)).2).1
          with
          | Raise e => if is_CalledProcessError e then Ok false else Raise e
          | Ok p2 => if returncode p2 =? 0 then Ok true else Ok false
          end
        else Ok false
    end.
Proof.
  unfold WifiMonitor.connect_to_network, try_except.
  destruct ((spawn ["nmcli"; "device"; "disconnect"; "wlan0"] (world st)).1)
    as [p1|e1] eqn:H1.
  - destruct (returncode p1 =? 0) eqn:Hrc1.
    + erewrite (bind_ok (WifiMonitor.subprocess_run spawn _ true)); cycle 1.
      { rewrite (subprocess_run_completed _ _ p1) by exact H1.
        rewrite Hrc1. reflexivity. }
      cbv zeta. cbn [world set_world].
      destruct ((spawn
                   ["nmcli"; "device"; "wifi"; "connect"; ssid; "password";
                    password]
                   (spawn ["nmcli"; "device"; "disconnect"; "wlan0"]
                      (world st)).2).1) as [p2|e2] eqn:H2.
      * destruct (returncode p2 =? 0) eqn:Hrc2.
        -- erewrite bind_ok; cycle 1.
           { rewrite (subprocess_run_completed _ _ p2) by exact H2.
             rewrite Hrc2. reflexivity. }
           reflexivity.
        -- erewrite bind_raise; cycle 1.
           { rewrite (subprocess_run_completed _ _ p2) by exact H2.
             rewrite Hrc2. reflexivity. }
           reflexivity.
      * erewrite bind_raise; cycle 1.
        { rewrite (subprocess_run_raises _ _ e2) by exact H2. reflexivity. }
        destruct (is_CalledProcessError e2); reflexivity.
    + erewrite bind_raise; cycle 1.
      { rewrite (subprocess_run_completed _ _ p1) by exact H1.
        rewrite Hrc1. reflexivity. }
      reflexivity.
  - erewrite bind_raise; cycle 1.
    { rewrite (subprocess_run_raises _ _ e1) by exact H1. reflexivity. }
    destruct (is_CalledProcessError e1); reflexivity.
Qed.

(** X29. [connect_to_network] returns [True] exactly when both commands
    ran and both left with status 0, the connect command in the world
    the disconnect left. *)
Theorem connect_true_iff_both_succeed (ssid password : string) (st : St) :
  (WifiMonitor.connect_to_network spawn ssid password st).1 = Ok true <->
  exists p1 p2,
    (spawn ["nmcli"; "device"; "disconnect"; "wlan0"] (world st)).1 = Ok p1 /\
    returncode p1 = 0 /\
    (spawn ["nmcli"; "device"; "wifi"; "connect"; ssid; "password"; password]
       (spawn ["nmcli"; "device"; "disconnect"; "wlan0"] (world st)).2).1
    = Ok p2 /\
    returncode p2 = 0.
Proof.
  rewrite connect_to_network_result. split.
  - destruct ((spawn ["nmcli"; "device"; "disconnect"; "wlan0"] (world st)).1)
      as [p1|e1]; [|destruct (is_CalledProcessError e1); discriminate].
    destruct (returncode p1 =? 0) eqn:Hrc1; [|discriminate].
    destruct ((spawn _ _).1) as [p2|e2];
      [|destruct (is_CalledProcessError e2); discriminate].
    destruct (returncode p2 =? 0) eqn:Hrc2; [|discriminate].
    intros _. exists p1, p2. apply Z.eqb_eq in Hrc1, Hrc2. auto.
  - intros (p1 & p2 & -> & Hrc1 & -> & Hrc2).
    apply Z.eqb_eq in Hrc1, Hrc2. rewrite Hrc1, Hrc2. reflexivity.
Qed.

(** X30. An error of the launch of [nmcli] (the program is missing, say)
    is no [CalledProcessError]: [connect_to_network] does not catch it,
    and it is raised to the caller. *)
Theorem launch_error_propagates (ssid password : string) (e : exn)
    (st : St) :
  (spawn ["nmcli"; "device"; "disconnect"; "wlan0"] (world st)).1 = Raise e ->
  is_CalledProcessError e = false ->
  (WifiMonitor.connect_to_network spawn ssid password st).1 = Raise e.
Proof.
  intros He Hclass. rewrite connect_to_network_result, He, Hclass.
  reflexivity.
Qed.

End WifiFacts.

Lemma scan_never_fails_on_output_witness :
  exists networks,
    @WifiMonitor.scan_available_networks (Demo.demo_env false) demo_spawn blank
    = (Ok networks,
       @set_world (Demo.demo_env false)
         (demo_spawn ["sudo"; "iwlist"; "wlan0"; "scan"] (world blank)).2
         blank).
Proof.
  apply (@scan_never_fails_on_output (Demo.demo_env false) demo_spawn
           (mkCompletedProcess 1 scan_output "") blank).
  reflexivity.
Defined.

Lemma essid_line_round_trip_witness :
  @WifiMonitor.parse_lines (Demo.demo_env false)
    (("    " +:+ "ESSID:"
        +:+ String PyText.dquote ("cafe" +:+ String PyText.dquote ""))
       :: []) [] blank
  = @WifiMonitor.parse_lines (Demo.demo_env false) [] ([] ++ ["cafe"]) blank.
Proof.
  apply (@essid_line_round_trip (Demo.demo_env false) "    " "cafe" [] []
           blank);
    reflexivity.
Defined.

Lemma essid_cut_at_colon_witness :
  @WifiMonitor.parse_lines (Demo.demo_env false)
    (("    " +:+ "ESSID:"
        +:+ String PyText.dquote
              ("cafe" +:+ String ":" ("5G" +:+ String PyText.dquote "")))
       :: []) [] blank
  = @WifiMonitor.parse_lines (Demo.demo_env false) [] ([] ++ ["cafe"]) blank.
Proof.
  apply (@essid_cut_at_colon (Demo.demo_env false) "    " "cafe" "5G" [] []
           blank);
    reflexivity.
Defined.

Lemma disconnect_failure_skips_connect_witness :
  @WifiMonitor.connect_to_network (Demo.demo_env false) demo_spawn "cafe"
    "secret2" blank
  = (Ok false,
     emit (EvLog Error ("Failed to connect to " +:+ "cafe"))
       (@set_world (Demo.demo_env false)
          (demo_spawn ["nmcli"; "device"; "disconnect"; "wlan0"]
             (world blank)).2
          blank)).
Proof.
  apply (@disconnect_failure_skips_connect (Demo.demo_env false) demo_spawn
           "cafe" "secret2"
           (mkCompletedProcess 10 "" "Error: Device not active.") blank).
  - reflexivity.
  - discriminate.
Defined.

Lemma launch_error_propagates_witness :
  (@WifiMonitor.connect_to_network (Demo.demo_env false) no_nmcli_spawn
     "cafe" "secret2" blank).1
  = Raise (OtherException "FileNotFoundError").
Proof.
  apply (@launch_error_propagates (Demo.demo_env false) no_nmcli_spawn
           "cafe" "secret2" (OtherException "FileNotFoundError") blank);
    reflexivity.
Defined.
